(** * Pulse: alert engine, cluster fail-over client, monitor and metrics history

    A shallow embedding of the parts of the Go sources that the checked
    properties talk about:

    - [internal/alerts/alerts.go]            (module [Alerts])
    - [pkg/proxmox/cluster_client.go]        (module [Cluster])
    - [internal/monitoring/metrics_history.go] (module [History])
    - [internal/monitoring/monitor.go]       (module [Monitoring])

    Conventions.  Go maps are [gmap]s.  [float64] is Rocq's primitive binary64
    float, so comparisons and [trigger + 10] are the IEEE operations the
    program performs.  A [time.Time] is an integer number of nanoseconds, a
    [time.Duration] a 64-bit integer number of nanoseconds.  Every operation
    that reads the clock takes the current time [now] as an argument; the
    handful of [time.Now()] calls inside one operation are read as one
    instant.  Go routines started with [go] and the callbacks are recorded in
    an event log, in program order. *)

From Stdlib Require Import ZArith Lia Bool Uint63 Sorting.Sorted.
From Stdlib Require Import Floats.PrimFloat Floats.SpecFloat Floats.FloatOps
  Floats.FloatAxioms.
From stdpp Require Import base option list gmap strings pretty.

Local Open Scope Z_scope.

(** ** Go's integers, durations and instants *)

Module Go.

Definition maxInt64 : Z := 9223372036854775807.
Definition minInt64 : Z := -9223372036854775808.

(** Two's complement wrap-around of a 64-bit signed integer. *)
Definition wrap64 (z : Z) : Z := (z + 2 ^ 63) `mod` 2 ^ 64 - 2 ^ 63.

(** [time.Time]: nanoseconds on the program's clock. *)
Abbreviation Time := Z (only parsing).
(** [time.Duration]: an [int64] count of nanoseconds. *)
Abbreviation Duration := Z (only parsing).

Definition Second : Duration := 1000000000.
Definition Minute : Duration := 60 * Second.
Definition Hour : Duration := 60 * Minute.

(** [time.Duration(n) * unit], an [int64] product. *)
Definition scale (n : Z) (unit : Duration) : Duration := wrap64 (n * unit).

(** [t.Sub(u)]: the difference, saturated to the range of a Duration. *)
Definition Sub (t u : Time) : Duration :=
  if t - u <? minInt64 then minInt64
  else if maxInt64 <? t - u then maxInt64
  else t - u.

(** [time.Since(t)] read at instant [now]. *)
Definition Since (now t : Time) : Duration := Sub now t.

Definition Add (t : Time) (d : Duration) : Time := t + d.
Definition Before (t u : Time) : bool := t <? u.
Definition After (t u : Time) : bool := u <? t.

End Go.

(** ** Comparisons of [float64] *)

Module F64.

Definition le (x y : float) : bool := PrimFloat.leb x y.
Definition lt (x y : float) : bool := PrimFloat.ltb x y.
(** Go's [x >= y] and [x > y]. *)
Definition ge (x y : float) : bool := PrimFloat.leb y x.
Definition gt (x y : float) : bool := PrimFloat.ltb y x.

(** [abs] of alerts.go. *)
Definition abs (x : float) : float :=
  if lt x 0%float then PrimFloat.opp x else x.

End F64.


(** ** The resource model ([internal/models])

    The struct declarations of package [models] are not part of the sources
    at hand; the records below list the fields that the alert engine and the
    monitor read and write, under the names used there. *)

Module Models.

Module Memory.
Record t := mk { Total : Z; Used : Z; Free : Z; Usage : float }.
Definition zero : t := mk 0 0 0 0%float.
End Memory.

Module Disk.
Record t := mk { Total : Z; Used : Z; Free : Z; Usage : float }.
Definition zero : t := mk 0 0 0 0%float.
End Disk.

Module Node.
Record t := mk {
  ID : string;
  Name : string;
  Instance : string;
  Host : string;
  Status : string;
  Type_ : string;
  CPU : float;
  Memory : Memory.t;
  Disk : Disk.t;
  Uptime : Z;
  LastSeen : Go.Time;
  ConnectionHealth : string
}.
End Node.

(** [models.VM] and [models.Container] have the same fields. *)
Module Guest.
Record t := mk {
  ID : string;
  VMID : Z;
  Name : string;
  Node : string;
  Instance : string;
  Status : string;
  Type_ : string;
  CPU : float;
  CPUs : Z;
  Memory : Memory.t;
  Disk : Disk.t;
  NetworkIn : Z;
  NetworkOut : Z;
  DiskRead : Z;
  DiskWrite : Z;
  Uptime : Z;
  Template : bool;
  Tags : list string;
  LastSeen : Go.Time
}.
End Guest.

Module Storage.
Record t := mk {
  ID : string;
  Name : string;
  Node : string;
  Instance : string;
  Type_ : string;
  Status : string;
  Total : Z;
  Used : Z;
  Free : Z;
  Usage : float;
  Content : string;
  Shared : bool;
  Enabled : bool;
  Active : bool
}.
End Storage.

End Models.

(** ** The alert engine ([internal/alerts/alerts.go]) *)

Module Alerts.
Import Go.

Inductive AlertLevel : Type :=
| AlertLevelWarning
| AlertLevelCritical.

(** The texts built with [fmt.Sprintf], kept as the format and its arguments. *)
Inductive MessageText : Type :=
| MsgUsage (resourceType : string) (value : float)
| MsgMetric (resourceType metricType : string) (value : float)
| MsgNodeOffline (name : string).

(** [Metadata] holds the two keys "resourceType" and "clearThreshold". *)
Record AlertMetadata := mkMetadata {
  md_resourceType : string;
  md_clearThreshold : float
}.

Record Alert := mkAlert {
  ID : string;
  Type_ : string;
  Level : AlertLevel;
  ResourceID : string;
  ResourceName : string;
  Node : string;
  Instance : string;
  Message : MessageText;
  Value : float;
  Threshold : float;
  StartTime : Time;
  LastSeen : Time;
  Acknowledged : bool;
  AckTime : option Time;
  AckUser : string;
  Metadata : option AlertMetadata;
  LastEscalation : Z;
  EscalationTimes : list Time
}.

(** A pointer [*Alert]: an address in the manager's store of alert objects. *)
Abbreviation AlertPtr := nat (only parsing).

Record ResolvedAlert := mkResolved {
  ra_Alert : AlertPtr;
  ResolvedTime : Time
}.

Record HysteresisThreshold := mkThreshold {
  Trigger : float;
  Clear : float
}.

Record ThresholdConfig := mkThresholds {
  CPU : option HysteresisThreshold;
  Memory : option HysteresisThreshold;
  Disk : option HysteresisThreshold;
  DiskRead : option HysteresisThreshold;
  DiskWrite : option HysteresisThreshold;
  NetworkIn : option HysteresisThreshold;
  NetworkOut : option HysteresisThreshold
}.

Record EscalationLevel := mkLevel {
  After : Z;
  Notify : string
}.

Record EscalationConfig := mkEscalation {
  esc_Enabled : bool;
  Levels : list EscalationLevel
}.

(** Of [ScheduleConfig] the modelled functions read [MaxAlertsHour] and
    [Escalation]; quiet hours enter as the result of [isInQuietHours]. *)
Record ScheduleConfig := mkSchedule {
  MaxAlertsHour : Z;
  Escalation : EscalationConfig
}.

Record AlertConfig := mkConfig {
  Enabled : bool;
  GuestDefaults : ThresholdConfig;
  NodeDefaults : ThresholdConfig;
  StorageDefault : HysteresisThreshold;
  Schedule : ScheduleConfig;
  MinimumDelta : float;
  SuppressionWindow : Z;
  HysteresisMargin : float;
  TimeThreshold : Z
}.

(** What the manager hands to its collaborators, in program order. *)
Inductive Event : Type :=
| HistoryAddAlert (a : Alert)
| GoSaveActiveAlerts
| GoResolvedCleanup (alertID : string)
| OnAlert (p : AlertPtr)
| OnResolved (alertID : string)
| OnEscalate (p : AlertPtr) (level : Z).

(** The [Manager].  [heap] holds the [Alert] objects; the maps
    [activeAlerts], [recentAlerts] and [recentlyResolved] hold pointers into
    it, so that an update through one map is seen through the others.
    [onAlert], [onResolved] and [onEscalate] say whether the callback is set. *)
Record Manager := mkManager {
  config : AlertConfig;
  heap : gmap nat Alert;
  activeAlerts : gmap string nat;
  recentAlerts : gmap string nat;
  suppressedUntil : gmap string Z;
  recentlyResolved : gmap string ResolvedAlert;
  pendingAlerts : gmap string Z;
  nodeOfflineCount : gmap string Z;
  alertRateLimit : gmap string (list Z);
  onAlert : bool;
  onResolved : bool;
  onEscalate : bool;
  events : list Event
}.

Definition with_heap (f : gmap nat Alert -> gmap nat Alert) (m : Manager) : Manager :=
  mkManager (config m) (f (heap m)) (activeAlerts m) (recentAlerts m)
    (suppressedUntil m) (recentlyResolved m) (pendingAlerts m)
    (nodeOfflineCount m) (alertRateLimit m) (onAlert m) (onResolved m)
    (onEscalate m) (events m).

Definition with_activeAlerts (f : gmap string nat -> gmap string nat) (m : Manager) : Manager :=
  mkManager (config m) (heap m) (f (activeAlerts m)) (recentAlerts m)
    (suppressedUntil m) (recentlyResolved m) (pendingAlerts m)
    (nodeOfflineCount m) (alertRateLimit m) (onAlert m) (onResolved m)
    (onEscalate m) (events m).

Definition with_recentAlerts (f : gmap string nat -> gmap string nat) (m : Manager) : Manager :=
  mkManager (config m) (heap m) (activeAlerts m) (f (recentAlerts m))
    (suppressedUntil m) (recentlyResolved m) (pendingAlerts m)
    (nodeOfflineCount m) (alertRateLimit m) (onAlert m) (onResolved m)
    (onEscalate m) (events m).

Definition with_suppressedUntil (f : gmap string Z -> gmap string Z) (m : Manager) : Manager :=
  mkManager (config m) (heap m) (activeAlerts m) (recentAlerts m)
    (f (suppressedUntil m)) (recentlyResolved m) (pendingAlerts m)
    (nodeOfflineCount m) (alertRateLimit m) (onAlert m) (onResolved m)
    (onEscalate m) (events m).

Definition with_recentlyResolved
    (f : gmap string ResolvedAlert -> gmap string ResolvedAlert) (m : Manager) : Manager :=
  mkManager (config m) (heap m) (activeAlerts m) (recentAlerts m)
    (suppressedUntil m) (f (recentlyResolved m)) (pendingAlerts m)
    (nodeOfflineCount m) (alertRateLimit m) (onAlert m) (onResolved m)
    (onEscalate m) (events m).

Definition with_pendingAlerts (f : gmap string Z -> gmap string Z) (m : Manager) : Manager :=
  mkManager (config m) (heap m) (activeAlerts m) (recentAlerts m)
    (suppressedUntil m) (recentlyResolved m) (f (pendingAlerts m))
    (nodeOfflineCount m) (alertRateLimit m) (onAlert m) (onResolved m)
    (onEscalate m) (events m).

Definition with_nodeOfflineCount (f : gmap string Z -> gmap string Z) (m : Manager) : Manager :=
  mkManager (config m) (heap m) (activeAlerts m) (recentAlerts m)
    (suppressedUntil m) (recentlyResolved m) (pendingAlerts m)
    (f (nodeOfflineCount m)) (alertRateLimit m) (onAlert m) (onResolved m)
    (onEscalate m) (events m).

Definition with_alertRateLimit
    (f : gmap string (list Z) -> gmap string (list Z)) (m : Manager) : Manager :=
  mkManager (config m) (heap m) (activeAlerts m) (recentAlerts m)
    (suppressedUntil m) (recentlyResolved m) (pendingAlerts m)
    (nodeOfflineCount m) (f (alertRateLimit m)) (onAlert m) (onResolved m)
    (onEscalate m) (events m).

(** Append to the event log. *)
Definition emit (es : list Event) (m : Manager) : Manager :=
  mkManager (config m) (heap m) (activeAlerts m) (recentAlerts m)
    (suppressedUntil m) (recentlyResolved m) (pendingAlerts m)
    (nodeOfflineCount m) (alertRateLimit m) (onAlert m) (onResolved m)
    (onEscalate m) (events m ++ es).

(** The alert an id is active for: [m.activeAlerts[alertID]] dereferenced. *)
Definition activeAlert (m : Manager) (alertID : string) : option Alert :=
  p ← activeAlerts m !! alertID; heap m !! p.

(** [new(Alert)]: an address not yet in the store. *)
Definition newPtr (m : Manager) : AlertPtr := fresh (dom (heap m)).

(** In-place updates of an [Alert]. *)
Definition setSeen (now : Time) (value : float) (level : AlertLevel) (a : Alert) : Alert :=
  mkAlert (ID a) (Type_ a) level (ResourceID a) (ResourceName a) (Node a)
    (Instance a) (Message a) value (Threshold a) (StartTime a) now
    (Acknowledged a) (AckTime a) (AckUser a) (Metadata a) (LastEscalation a)
    (EscalationTimes a).

Definition setStartTime (now : Time) (a : Alert) : Alert :=
  mkAlert (ID a) (Type_ a) (Level a) (ResourceID a) (ResourceName a) (Node a)
    (Instance a) (Message a) (Value a) (Threshold a) now (LastSeen a)
    (Acknowledged a) (AckTime a) (AckUser a) (Metadata a) (LastEscalation a)
    (EscalationTimes a).

Definition setEscalated (level : Z) (now : Time) (a : Alert) : Alert :=
  mkAlert (ID a) (Type_ a) (Level a) (ResourceID a) (ResourceName a) (Node a)
    (Instance a) (Message a) (Value a) (Threshold a) (StartTime a) (LastSeen a)
    (Acknowledged a) (AckTime a) (AckUser a) (Metadata a) level
    (EscalationTimes a ++ [now]).

(** ** Rate limit *)

(** [checkRateLimit]: at most [MaxAlertsHour] notifications per alert id in
    the last hour; returns whether the notification may go out. *)
Definition checkRateLimit (now : Time) (alertID : string) (m : Manager) : bool * Manager :=
  let maxPerHour := MaxAlertsHour (Schedule (config m)) in
  if maxPerHour <=? 0 then (true, m)
  else
    let cutoff := Add now (-1 * Hour) in
    let recent :=
      match alertRateLimit m !! alertID with
      | Some times => filter (fun t => Go.After t cutoff = true) times
      | None => []
      end in
    if maxPerHour <=? Z.of_nat (length recent) then (false, m)
    else (true, with_alertRateLimit (insert alertID (recent ++ [now])) m).

(** ** checkMetric *)

(** [alertID := fmt.Sprintf("%s-%s", resourceID, metricType)] *)
Definition metricAlertID (resourceID metricType : string) : string :=
  resourceID +:+ "-" +:+ metricType.

(** The level of an alert at [value]: critical from [Trigger + 10] on. *)
Definition levelFor (value : float) (threshold : HysteresisThreshold) : AlertLevel :=
  if F64.ge value (PrimFloat.add (Trigger threshold) 10%float)
  then AlertLevelCritical else AlertLevelWarning.

(** The suppression check at the head of [checkMetric]. *)
Definition isSuppressed (now : Time) (alertID : string) (m : Manager) : bool :=
  match suppressedUntil m !! alertID with
  | Some suppressUntil => Go.Before now suppressUntil
  | None => false
  end.

(** The "recent similar alert" test that precedes the creation of an alert. *)
Definition isRecentDuplicate (now : Time) (alertID : string) (value : float)
    (m : Manager) : bool :=
  match recentAlerts m !! alertID with
  | Some rp =>
    match heap m !! rp with
    | Some recent =>
      F64.gt (MinimumDelta (config m)) 0%float
      && (Since now (StartTime recent) <? scale (SuppressionWindow (config m)) Minute)
      && F64.lt (F64.abs (PrimFloat.sub (Value recent) value)) (MinimumDelta (config m))
    | None => false
    end
  | None => false
  end.

(** The alert object built for a sample at or above the trigger. *)
Definition newMetricAlert (now : Time)
    (resourceID resourceName node instance resourceType metricType : string)
    (value : float) (threshold : HysteresisThreshold) : Alert :=
  {| ID := metricAlertID resourceID metricType;
     Type_ := metricType;
     Level := levelFor value threshold;
     ResourceID := resourceID;
     ResourceName := resourceName;
     Node := node;
     Instance := instance;
     Message := if String.eqb metricType "usage"
                then MsgUsage resourceType value
                else MsgMetric resourceType metricType value;
     Value := value;
     Threshold := Trigger threshold;
     StartTime := now;
     LastSeen := now;
     Acknowledged := false;
     AckTime := None;
     AckUser := "";
     Metadata := Some (mkMetadata resourceType (Clear threshold));
     LastEscalation := 0;
     EscalationTimes := [] |}.

(** The part of [checkMetric] from "Check for recent similar alert" on, for
    an id without active alert.  [quiet] is the result of [isInQuietHours]. *)
Definition raiseAlert (now : Time) (quiet : bool)
    (resourceID resourceName node instance resourceType metricType : string)
    (value : float) (threshold : HysteresisThreshold) (m : Manager) : Manager :=
  let alertID := metricAlertID resourceID metricType in
  if isRecentDuplicate now alertID value m
  then with_suppressedUntil
         (insert alertID (Add now (scale (SuppressionWindow (config m)) Minute))) m
  else
    let p := newPtr m in
    let alert := newMetricAlert now resourceID resourceName node instance
                   resourceType metricType value threshold in
    let m1 := emit [HistoryAddAlert alert; GoSaveActiveAlerts]
                (with_recentAlerts (insert alertID p)
                  (with_activeAlerts (insert alertID p)
                    (with_heap (insert p alert) m))) in
    let '(allowed, m2) := checkRateLimit now alertID m1 in
    if negb allowed then m2
    else if quiet && negb (match Level alert with AlertLevelCritical => true | _ => false end)
    then m2
    else if onAlert m2 then emit [OnAlert p] m2 else m2.

(** The resolution of an active alert whose value fell to the clear level. *)
Definition resolveAlert (now : Time) (alertID : string) (p : AlertPtr)
    (m : Manager) : Manager :=
  let m1 := emit [GoSaveActiveAlerts] (with_activeAlerts (delete alertID) m) in
  let m2 := emit [GoResolvedCleanup alertID]
              (with_recentlyResolved (insert alertID (mkResolved p now)) m1) in
  if onResolved m2 then emit [OnResolved alertID] m2 else m2.

(** [checkMetric] checks a single metric against its threshold with
    hysteresis.  [threshold] is [None] for a nil pointer. *)
Definition checkMetric (now : Time) (quiet : bool)
    (resourceID resourceName node instance resourceType metricType : string)
    (value : float) (threshold : option HysteresisThreshold) (m : Manager) : Manager :=
  match threshold with
  | None => m
  | Some th =>
    if F64.le (Trigger th) 0%float then m
    else
      let alertID := metricAlertID resourceID metricType in
      let existing := activeAlerts m !! alertID in
      if isSuppressed now alertID m then m
      else if F64.ge value (Trigger th) then
        match existing with
        | None =>
          if 0 <? TimeThreshold (config m) then
            match pendingAlerts m !! alertID with
            | Some pendingTime =>
              if scale (TimeThreshold (config m)) Second <=? Since now pendingTime
              then raiseAlert now quiet resourceID resourceName node instance
                     resourceType metricType value th
                     (with_pendingAlerts (delete alertID) m)
              else m
            | None => with_pendingAlerts (insert alertID now) m
            end
          else raiseAlert now quiet resourceID resourceName node instance
                 resourceType metricType value th m
        | Some p => with_heap (alter (setSeen now value (levelFor value th)) p) m
        end
      else
        let m1 := with_pendingAlerts (delete alertID) m in
        match existing with
        | Some p =>
          let clearThreshold :=
            if F64.le (Clear th) 0%float then Trigger th else Clear th in
          if F64.le value clearThreshold then resolveAlert now alertID p m1 else m1
        | None => m1
        end
  end.

(** ** A manager as [NewManager] builds it *)

Definition defaultConfig : AlertConfig :=
  {| Enabled := true;
     GuestDefaults :=
       mkThresholds (Some (mkThreshold 80 75)) (Some (mkThreshold 85 80))
         (Some (mkThreshold 90 85)) (Some (mkThreshold 150 125))
         (Some (mkThreshold 150 125)) (Some (mkThreshold 200 175))
         (Some (mkThreshold 200 175));
     NodeDefaults :=
       mkThresholds (Some (mkThreshold 80 75)) (Some (mkThreshold 85 80))
         (Some (mkThreshold 90 85)) None None None None;
     StorageDefault := mkThreshold 85 80;
     Schedule :=
       mkSchedule 10
         (mkEscalation false [mkLevel 15 "email"; mkLevel 30 "webhook"; mkLevel 60 "all"]);
     MinimumDelta := 2;
     SuppressionWindow := 5;
     HysteresisMargin := 5;
     TimeThreshold := 0 |}.

(** The manager before any alert was loaded or raised, with all three
    callbacks set as the monitor does at start-up. *)
Definition newManager (cfg : AlertConfig) : Manager :=
  {| config := cfg;
     heap := ∅;
     activeAlerts := ∅;
     recentAlerts := ∅;
     suppressedUntil := ∅;
     recentlyResolved := ∅;
     pendingAlerts := ∅;
     nodeOfflineCount := ∅;
     alertRateLimit := ∅;
     onAlert := true;
     onResolved := true;
     onEscalate := true;
     events := [] |}.

(** [with cfg] *)
Definition withTimeThreshold (seconds : Z) (cfg : AlertConfig) : AlertConfig :=
  mkConfig (Enabled cfg) (GuestDefaults cfg) (NodeDefaults cfg)
    (StorageDefault cfg) (Schedule cfg) (MinimumDelta cfg)
    (SuppressionWindow cfg) (HysteresisMargin cfg) seconds.

(** Feeding a series of samples [(now, value)] of one metric to [checkMetric],
    keeping the manager after every sample. *)
Fixpoint feed (resourceID metricType : string) (threshold : HysteresisThreshold)
    (samples : list (Time * float)) (m : Manager) : list Manager :=
  match samples with
  | [] => []
  | (now, value) :: rest =>
    let m' := checkMetric now false resourceID "guest" "px1" "lab" "VM" metricType
                value (Some threshold) m in
    m' :: feed resourceID metricType threshold rest m'
  end.

(** ** Node-offline confirmation *)

(** The test at the head of [CheckNode]: when a node counts as offline. *)
Definition nodeIsOffline (node : Models.Node.t) : bool :=
  String.eqb (Models.Node.Status node) "offline"
  || String.eqb (Models.Node.ConnectionHealth node) "error"
  || String.eqb (Models.Node.ConnectionHealth node) "failed".

(** [alertID := fmt.Sprintf("node-offline-%s", node.ID)] *)
Definition offlineAlertID (node : Models.Node.t) : string :=
  "node-offline-" +:+ Models.Node.ID node.

(** [m.nodeOfflineCount[nodeID]], zero for an absent key. *)
Definition offlineCount (m : Manager) (nodeID : string) : Z :=
  default 0 (nodeOfflineCount m !! nodeID).

Definition requiredOfflineCount : Z := 3.

(** The zero [time.Time], on a clock that counts from the Unix epoch. *)
Definition zeroTime : Time := -62135596800 * Second.

Definition newOfflineAlert (now : Time) (node : Models.Node.t) : Alert :=
  {| ID := offlineAlertID node;
     Type_ := "connectivity";
     Level := AlertLevelCritical;
     ResourceID := Models.Node.ID node;
     ResourceName := Models.Node.Name node;
     Node := Models.Node.Name node;
     Instance := Models.Node.Instance node;
     Message := MsgNodeOffline (Models.Node.Name node);
     Value := 0;
     Threshold := 0;
     StartTime := now;
     LastSeen := zeroTime;
     Acknowledged := false;
     AckTime := None;
     AckUser := "";
     Metadata := None;
     LastEscalation := 0;
     EscalationTimes := [] |}.

(** [checkNodeOffline] creates an alert for offline nodes after confirmation. *)
Definition checkNodeOffline (now : Time) (node : Models.Node.t) (m : Manager) : Manager :=
  let alertID := offlineAlertID node in
  match activeAlerts m !! alertID with
  | Some p => with_heap (alter (setStartTime now) p) m
  | None =>
    let count := wrap64 (offlineCount m (Models.Node.ID node) + 1) in
    let m1 := with_nodeOfflineCount (insert (Models.Node.ID node) count) m in
    if count <? requiredOfflineCount then m1
    else
      let p := newPtr m1 in
      let alert := newOfflineAlert now node in
      let m2 := emit [HistoryAddAlert alert]
                  (with_recentAlerts (insert alertID p)
                    (with_activeAlerts (insert alertID p)
                      (with_heap (insert p alert) m1))) in
      if onAlert m2 then emit [OnAlert p] m2 else m2
  end.

(** [clearNodeOfflineAlert] removes the offline alert when the node is back. *)
Definition clearNodeOfflineAlert (now : Time) (node : Models.Node.t) (m : Manager) : Manager :=
  let alertID := offlineAlertID node in
  let m1 := if 0 <? offlineCount m (Models.Node.ID node)
            then with_nodeOfflineCount (delete (Models.Node.ID node)) m
            else m in
  match activeAlerts m1 !! alertID with
  | None => m1
  | Some p =>
    let m2 := with_recentlyResolved (insert alertID (mkResolved p now))
                (with_activeAlerts (delete alertID) m1) in
    if onResolved m2 then emit [OnResolved alertID] m2 else m2
  end.

(** [CheckNode] checks a node against thresholds. *)
Definition CheckNode (now : Time) (quiet : bool) (node : Models.Node.t) (m : Manager) : Manager :=
  if negb (Enabled (config m)) then m
  else
    let thresholds := NodeDefaults (config m) in
    let m1 := if nodeIsOffline node
              then checkNodeOffline now node m
              else clearNodeOfflineAlert now node m in
    if negb (String.eqb (Models.Node.Status node) "offline") then
      let check metricType value threshold :=
        checkMetric now quiet (Models.Node.ID node) (Models.Node.Name node)
          (Models.Node.Name node) (Models.Node.Instance node) "Node" metricType
          value threshold in
      let m2 := check "cpu" (PrimFloat.mul (Models.Node.CPU node) 100%float)
                  (CPU thresholds) m1 in
      let m3 := check "memory" (Models.Memory.Usage (Models.Node.Memory node))
                  (Memory thresholds) m2 in
      check "disk" (Models.Disk.Usage (Models.Node.Disk node)) (Disk thresholds) m3
    else m1.

(** [CheckStorage] checks storage against thresholds. *)
Definition CheckStorage (now : Time) (quiet : bool) (storage : Models.Storage.t)
    (m : Manager) : Manager :=
  if negb (Enabled (config m)) then m
  else
    checkMetric now quiet (Models.Storage.ID storage) (Models.Storage.Name storage)
      (Models.Storage.Node storage) (Models.Storage.Instance storage) "Storage"
      "usage" (Models.Storage.Usage storage) (Some (StorageDefault (config m))) m.

(** ** Guests *)

(** The argument of [CheckGuest]: a [models.VM] or a [models.Container]. *)
Inductive Guest : Type :=
| VM (g : Models.Guest.t)
| Container (g : Models.Guest.t).

Definition guestData (guest : Guest) : Models.Guest.t :=
  match guest with VM g | Container g => g end.

Definition guestTypeName (guest : Guest) : string :=
  match guest with VM _ => "VM" | Container _ => "Container" end.

(** [float64(n)] for an [int64] [n]. *)
Definition float64_of_int64 (n : Z) : float :=
  if n =? minInt64 then (-9223372036854775808)%float
  else if n <? 0 then PrimFloat.opp (PrimFloat.of_uint63 (Uint63.of_Z (- n)))
  else PrimFloat.of_uint63 (Uint63.of_Z n).

(** [float64(bytes)/1024/1024] *)
Definition megabytes (bytes : Z) : float :=
  PrimFloat.div (PrimFloat.div (float64_of_int64 bytes) 1024%float) 1024%float.

(** Whether the alert that [p] points to belongs to resource [resourceID]. *)
Definition refersTo (m : Manager) (resourceID : string) (p : AlertPtr) : bool :=
  match heap m !! p with
  | Some alert => String.eqb (ResourceID alert) resourceID
  | None => false
  end.

(** The loop of [CheckGuest] over [m.activeAlerts] for a stopped guest. *)
Definition clearAlertsOf (guestID : string) (m : Manager) : Manager :=
  with_activeAlerts
    (filter (fun entry : string * nat => refersTo m guestID entry.2 = false)) m.

Section CheckGuest.

(** [getGuestThresholds]: the thresholds of one guest, resolved from the
    custom rules, the per-guest overrides and the guest defaults.  Its result
    is taken as given. *)
Variable getGuestThresholds : AlertConfig -> Guest -> ThresholdConfig.

(** The optional I/O checks: [threshold != nil && threshold.Trigger > 0]. *)
Definition hasTrigger (threshold : option HysteresisThreshold) : bool :=
  match threshold with
  | Some th => F64.gt (Trigger th) 0%float
  | None => false
  end.

(** [CheckGuest] checks a guest (VM or container) against thresholds. *)
Definition CheckGuest (now : Time) (quiet : bool) (guest : Guest) (instanceName : string)
    (m : Manager) : Manager :=
  if negb (Enabled (config m)) then m
  else
    let g := guestData guest in
    let guestID := Models.Guest.ID g in
    if String.eqb (Models.Guest.Status g) "stopped" then clearAlertsOf guestID m
    else
      let thresholds := getGuestThresholds (config m) guest in
      let check metricType value threshold :=
        checkMetric now quiet guestID (Models.Guest.Name g) (Models.Guest.Node g)
          instanceName (guestTypeName guest) metricType value threshold in
      let checkIO metricType bytes threshold m :=
        if hasTrigger threshold
        then check metricType (megabytes bytes) threshold m else m in
      let m1 := check "cpu" (Models.Guest.CPU g) (CPU thresholds) m in
      let m2 := check "memory" (Models.Memory.Usage (Models.Guest.Memory g))
                  (Memory thresholds) m1 in
      let m3 := check "disk" (Models.Disk.Usage (Models.Guest.Disk g))
                  (Disk thresholds) m2 in
      let m4 := checkIO "diskRead" (Models.Guest.DiskRead g) (DiskRead thresholds) m3 in
      let m5 := checkIO "diskWrite" (Models.Guest.DiskWrite g) (DiskWrite thresholds) m4 in
      let m6 := checkIO "networkIn" (Models.Guest.NetworkIn g) (NetworkIn thresholds) m5 in
      checkIO "networkOut" (Models.Guest.NetworkOut g) (NetworkOut thresholds) m6.

End CheckGuest.

(** ** Escalation *)

(** The loop of [checkEscalations] over the levels, for one alert: [i] is the
    index of the first level of [levels] in the ladder.  Returns the updated
    alert and the levels escalated to, in order. *)
Fixpoint escalateLevels (now : Time) (i : Z) (levels : list EscalationLevel)
    (alert : Alert) : Alert * list Z :=
  match levels with
  | [] => (alert, [])
  | level :: rest =>
    if i + 1 <=? LastEscalation alert then escalateLevels now (i + 1) rest alert
    else
      let escalateTime := Add (StartTime alert) (scale (After level) Minute) in
      if Go.After now escalateTime then
        let '(alert', fired) :=
          escalateLevels now (i + 1) rest (setEscalated (i + 1) now alert) in
        (alert', (i + 1) :: fired)
      else escalateLevels now (i + 1) rest alert
  end.

(** The body of the loop over [m.activeAlerts] for one entry. *)
Definition escalateAlert (now : Time) (p : AlertPtr) (m : Manager) : Manager :=
  match heap m !! p with
  | Some alert =>
    if Acknowledged alert then m
    else
      let '(alert', fired) :=
        escalateLevels now 0 (Levels (Escalation (Schedule (config m)))) alert in
      let m1 := with_heap (insert p alert') m in
      if onEscalate m1 then emit (map (OnEscalate p) fired) m1 else m1
  | None => m
  end.

(** [checkEscalations] checks all active alerts for escalation.  The order
    in which Go ranges over the map is not fixed; the alerts are visited in
    the order of [map_to_list]. *)
Definition checkEscalations (now : Time) (m : Manager) : Manager :=
  if negb (esc_Enabled (Escalation (Schedule (config m)))) then m
  else
    foldl (fun acc (entry : string * nat) => escalateAlert now entry.2 acc) m
      (map_to_list (activeAlerts m)).
(** ** Notions used to state the properties of [checkMetric] *)

(** Whether the time threshold makes a sample above the trigger wait. *)
Definition timeThresholdWaits (now : Time) (alertID : string) (m : Manager) : bool :=
  if 0 <? TimeThreshold (config m) then
    match pendingAlerts m !! alertID with
    | Some pendingTime =>
      negb (scale (TimeThreshold (config m)) Second <=? Since now pendingTime)
    | None => true
    end
  else false.

(** The clear level that [checkMetric] resolves against. *)
Definition effectiveClear (th : HysteresisThreshold) : float :=
  if F64.le (Clear th) 0%float then Trigger th else Clear th.

(** Samples of one metric at 10 s cadence (instants in nanoseconds). *)
Definition boundarySamples : list (Time * float) :=
  [ (0, 70%float); (10 * Second, 80%float); (20 * Second, 82%float);
    (30 * Second, 78%float); (40 * Second, 76%float); (50 * Second, 75%float);
    (60 * Second, 74%float) ].

Definition boundaryRun : list Manager :=
  feed "lab-px1-100" "cpu" (mkThreshold 80 75) boundarySamples (newManager defaultConfig).

(** The callbacks among the events. *)
Definition isCallback (e : Event) : bool :=
  match e with
  | OnAlert _ | OnResolved _ | OnEscalate _ _ => true
  | _ => false
  end.

Definition callbacks (m : Manager) : list Event := List.filter isCallback (events m).

Definition isActive (alertID : string) (m : Manager) : bool :=
  match activeAlerts m !! alertID with Some _ => true | None => false end.

Definition isRecentlyResolved (alertID : string) (m : Manager) : bool :=
  match recentlyResolved m !! alertID with Some _ => true | None => false end.

(** Samples of guest memory for the time threshold. *)
Definition memorySamples (third : float) : list (Time * float) :=
  [ (0, 86%float); (10 * Second, 86%float); (20 * Second, third);
    (30 * Second, 86%float) ].

Definition timeThresholdRun (third : float) : list Manager :=
  feed "lab-px1-100" "memory" (mkThreshold 85 80) (memorySamples third)
    (newManager (withTimeThreshold 30 defaultConfig)).

Definition duplicateSamples : list (Time * float) :=
  [ (0, 86%float); (30 * Second, 86%float); (40 * Second, 70%float);
    (50 * Second, 86%float); (80 * Second, 86%float) ].

Definition duplicateRun : list Manager :=
  feed "lab-px1-100" "memory" (mkThreshold 85 80) duplicateSamples
    (newManager (withTimeThreshold 30 defaultConfig)).


(** A node of instance "lab" that is reported offline. *)
Definition offlineNode : Models.Node.t :=
  {| Models.Node.ID := "lab-px1";
     Models.Node.Name := "px1";
     Models.Node.Instance := "lab";
     Models.Node.Host := "https://px1.lab:8006";
     Models.Node.Status := "offline";
     Models.Node.Type_ := "node";
     Models.Node.CPU := 0;
     Models.Node.Memory := Models.Memory.zero;
     Models.Node.Disk := Models.Disk.zero;
     Models.Node.Uptime := 0;
     Models.Node.LastSeen := 0;
     Models.Node.ConnectionHealth := "healthy" |}.

(** ** Configuration *)

Definition with_config (cfg : AlertConfig) (m : Manager) : Manager :=
  mkManager cfg (heap m) (activeAlerts m) (recentAlerts m)
    (suppressedUntil m) (recentlyResolved m) (pendingAlerts m)
    (nodeOfflineCount m) (alertRateLimit m) (onAlert m) (onResolved m)
    (onEscalate m) (events m).

(** [UpdateConfig] updates the alert configuration, keeping the defaults for
    values that are not positive. *)
Definition UpdateConfig (cfg : AlertConfig) (m : Manager) : Manager :=
  let storageDefault :=
    if F64.le (Trigger (StorageDefault cfg)) 0%float
    then mkThreshold 85 80 else StorageDefault cfg in
  let minimumDelta :=
    if F64.le (MinimumDelta cfg) 0%float then 2%float else MinimumDelta cfg in
  let suppressionWindow :=
    if SuppressionWindow cfg <=? 0 then 5 else SuppressionWindow cfg in
  let hysteresisMargin :=
    if F64.le (HysteresisMargin cfg) 0%float then 5%float else HysteresisMargin cfg in
  with_config
    (mkConfig (Enabled cfg) (GuestDefaults cfg) (NodeDefaults cfg) storageDefault
       (Schedule cfg) minimumDelta suppressionWindow hysteresisMargin
       (TimeThreshold cfg)) m.

Definition withEnabled (enabled : bool) (cfg : AlertConfig) : AlertConfig :=
  mkConfig enabled (GuestDefaults cfg) (NodeDefaults cfg)
    (StorageDefault cfg) (Schedule cfg) (MinimumDelta cfg)
    (SuppressionWindow cfg) (HysteresisMargin cfg) (TimeThreshold cfg).

(** ** A guest of instance "lab" *)

(** Guest 100 on node px1 with the given status and memory usage. *)
Definition guest100 (status : string) (memUsage : float) : Guest :=
  VM {| Models.Guest.ID := "lab-px1-100";
        Models.Guest.VMID := 100;
        Models.Guest.Name := "web";
        Models.Guest.Node := "px1";
        Models.Guest.Instance := "lab";
        Models.Guest.Status := status;
        Models.Guest.Type_ := "qemu";
        Models.Guest.CPU := 0;
        Models.Guest.CPUs := 2;
        Models.Guest.Memory := Models.Memory.mk 100 0 100 memUsage;
        Models.Guest.Disk := Models.Disk.zero;
        Models.Guest.NetworkIn := 0;
        Models.Guest.NetworkOut := 0;
        Models.Guest.DiskRead := 0;
        Models.Guest.DiskWrite := 0;
        Models.Guest.Uptime := 0;
        Models.Guest.Template := false;
        Models.Guest.Tags := [];
        Models.Guest.LastSeen := 0 |}.

(** Threshold resolution of a configuration without custom rules and
    overrides: the guest defaults. *)
Definition guestDefaultsOnly (cfg : AlertConfig) (_ : Guest) : ThresholdConfig :=
  GuestDefaults cfg.

(** ** A node that stays offline: polls and escalation checks *)

(** What happens to the alert engine while a node is watched: the monitor
    polls the node ([CheckNode]), and the escalation daemon runs
    ([checkEscalations]). *)
Inductive Tick : Type :=
| Poll (now : Time)
| EscalationCheck (now : Time).

Definition tick (quiet : bool) (node : Models.Node.t) (t : Tick) (m : Manager) : Manager :=
  match t with
  | Poll now => CheckNode now quiet node m
  | EscalationCheck now => checkEscalations now m
  end.

Definition runTicks (quiet : bool) (node : Models.Node.t) (ticks : list Tick)
    (m : Manager) : Manager :=
  foldl (fun acc t => tick quiet node t acc) m ticks.


(** The escalation callbacks made for the alert object at [p]. *)
Definition isEscalationOf (p : AlertPtr) (e : Event) : bool :=
  match e with
  | OnEscalate q _ => Nat.eqb q p
  | _ => false
  end.

Definition escalationsOf (p : AlertPtr) (m : Manager) : list Event :=
  List.filter (isEscalationOf p) (events m).



(** The default configuration with the escalation ladder switched on. *)
Definition escalatingConfig : AlertConfig :=
  mkConfig true (GuestDefaults defaultConfig) (NodeDefaults defaultConfig)
    (StorageDefault defaultConfig)
    (mkSchedule 10
       (mkEscalation true [mkLevel 15 "email"; mkLevel 30 "webhook"; mkLevel 60 "all"]))
    (MinimumDelta defaultConfig) (SuppressionWindow defaultConfig)
    (HysteresisMargin defaultConfig) (TimeThreshold defaultConfig).

(** The manager after three polls, 10 s apart, of the offline node. *)
Definition offlineConfirmed : Manager :=
  runTicks false offlineNode [Poll (10 * Second); Poll (20 * Second); Poll (30 * Second)]
    (newManager escalatingConfig).

End Alerts.

(** ** The cluster client ([pkg/proxmox/cluster_client.go]) *)

Module Cluster.
Import Go.

(** [strings.Contains(s, substr)] *)
Fixpoint contains (s substr : string) : bool :=
  String.prefix substr s
  || match s with
     | EmptyString => false
     | String _ rest => contains rest substr
     end.

(** An [error] is its text ([err.Error()]); [None] is [nil]. *)
Abbreviation error := (option string) (only parsing).

(** [IsAuthError]: helper to check if an error is auth-related. *)
Definition IsAuthError (err : error) : bool :=
  match err with
  | None => false
  | Some errStr =>
    contains errStr "authentication" || contains errStr "401" || contains errStr "403"
  end.

(** The test of [executeWithFailover] for a node-specific or transient
    failure that should not mark the endpoint unhealthy. *)
Definition isNodeSpecific (errStr : string) : bool :=
  contains errStr "595"
  || (contains errStr "500" && contains errStr "hostname lookup")
  || (contains errStr "500" && contains errStr "Name or service not known").

(** [ClusterClient].  A [*Client] is identified with the endpoint it was
    created for, so the cache [clients] is the set of endpoints that have a
    client; every client is created for one endpoint and cached under it.
    The fields [config] and [lastUsedIndex] play no part in fail-over. *)
Record ClusterClient := mkCluster {
  name : string;
  clients : gset string;
  endpoints : list string;
  nodeHealth : gmap string bool;
  lastHealthCheck : gmap string Z
}.

Definition with_nodeHealth (f : gmap string bool -> gmap string bool)
    (cc : ClusterClient) : ClusterClient :=
  mkCluster (name cc) (clients cc) (endpoints cc) (f (nodeHealth cc)) (lastHealthCheck cc).

Definition with_clients (f : gset string -> gset string) (cc : ClusterClient) : ClusterClient :=
  mkCluster (name cc) (f (clients cc)) (endpoints cc) (nodeHealth cc) (lastHealthCheck cc).

Definition with_lastHealthCheck (f : gmap string Z -> gmap string Z)
    (cc : ClusterClient) : ClusterClient :=
  mkCluster (name cc) (clients cc) (endpoints cc) (nodeHealth cc) (f (lastHealthCheck cc)).

(** What the network and the random source answer during attempt [i] of a
    call: the clock, the outcome of [NewClient] and of the connectivity test
    [GetNodes] for an endpoint, and the draw that selects among the healthy
    endpoints (Go's map order and [rand.Intn] together). *)
Record World := mkWorld {
  clock : nat -> Time;
  newClient : nat -> string -> error;
  getNodes : nat -> string -> error;
  draw : nat -> nat
}.

(** [cc.nodeHealth[endpoint]], false for an absent key. *)
Definition isHealthy (cc : ClusterClient) (endpoint : string) : bool :=
  default false (nodeHealth cc !! endpoint).

(** The endpoints collected by [for endpoint, healthy := range cc.nodeHealth]. *)
Definition healthyEndpoints (cc : ClusterClient) : list string :=
  (List.filter (fun entry : string * bool => entry.2) (map_to_list (nodeHealth cc))).*1.

(** [markUnhealthy] marks an endpoint as unhealthy. *)
Definition markUnhealthy (endpoint : string) (cc : ClusterClient) : ClusterClient :=
  if isHealthy cc endpoint then with_nodeHealth (insert endpoint false) cc else cc.

(** The unhealthy endpoints that [recoverUnhealthyNodes] tests: those not
    checked within the last 30 seconds. *)
Definition dueForRecovery (now : Time) (cc : ClusterClient) : list string :=
  (List.filter
     (fun entry : string * bool =>
        negb entry.2
        && match lastHealthCheck cc !! entry.1 with
           | Some lastCheck => negb (Sub now lastCheck <? 30 * Second)
           | None => true
           end)
     (map_to_list (nodeHealth cc))).*1.

(** The recovery attempt for one endpoint. *)
Definition recoverEndpoint (w : World) (i : nat) (now : Time) (ep : string)
    (cc : ClusterClient) : ClusterClient :=
  let cc1 := with_lastHealthCheck (insert ep now) cc in
  match newClient w i ep with
  | Some _ => cc1
  | None =>
    match getNodes w i ep with
    | Some _ => cc1
    | None => with_clients (union {[ ep ]}) (with_nodeHealth (insert ep true) cc1)
    end
  end.

(** [recoverUnhealthyNodes] attempts to recover unhealthy nodes.  The
    attempts run concurrently and touch different keys. *)
Definition recoverUnhealthyNodes (w : World) (i : nat) (cc : ClusterClient) : ClusterClient :=
  foldl (fun acc ep => recoverEndpoint w i (clock w i) ep acc) cc
    (dueForRecovery (clock w i) cc).

(** [healthyEndpoints[rand.Intn(len(healthyEndpoints))]] *)
Definition selectEndpoint (w : World) (i : nat) (healthy : list string) : string :=
  nth (draw w i mod length healthy)%nat healthy "".

(** [getHealthyClient] returns a healthy client, or an error. *)
Definition getHealthyClient (w : World) (i : nat) (cc : ClusterClient)
    : (string + string) * ClusterClient :=
  let cc1 := match healthyEndpoints cc with
             | [] => recoverUnhealthyNodes w i cc
             | _ => cc
             end in
  match healthyEndpoints cc1 with
  | [] => (inl ("no healthy nodes available in cluster " +:+ name cc1), cc1)
  | healthy =>
    let selectedEndpoint := selectEndpoint w i healthy in
    if bool_decide (selectedEndpoint ∈ clients cc1) then (inr selectedEndpoint, cc1)
    else
      match newClient w i selectedEndpoint with
      | Some err =>
        (inl ("failed to create client for " +:+ selectedEndpoint +:+ ": " +:+ err),
         with_nodeHealth (insert selectedEndpoint false) cc1)
      | None =>
        match getNodes w i selectedEndpoint with
        | Some testErr =>
          (inl ("endpoint " +:+ selectedEndpoint +:+ " failed connectivity test: "
                +:+ testErr),
           with_nodeHealth (insert selectedEndpoint false) cc1)
        | None => (inr selectedEndpoint, with_clients (union {[ selectedEndpoint ]}) cc1)
        end
      end
  end.

(** The outcome of a call: the error returned ([None] for success), the
    client afterwards, and the endpoints [fn] was invoked on, in order. *)
Record Outcome := mkOutcome {
  returned : error;
  after : ClusterClient;
  attempts : list string
}.

Definition attempted (endpoint : string) (o : Outcome) : Outcome :=
  mkOutcome (returned o) (after o) (endpoint :: attempts o).

(** The loop of [executeWithFailover] from attempt [i] on, with [retries]
    attempts left.  [fn i client] is the result of the [i]-th invocation of
    [fn], on [client]. *)
Fixpoint failoverLoop (w : World) (fn : nat -> string -> error) (retries i : nat)
    (cc : ClusterClient) : Outcome :=
  match retries with
  | O => mkOutcome (Some ("all cluster nodes failed for " +:+ name cc)) cc []
  | S retries' =>
    match getHealthyClient w i cc with
    | (inl err, cc1) => mkOutcome (Some err) cc1 []
    | (inr client, cc1) =>
      let clientEndpoint := if bool_decide (client ∈ clients cc1) then client else "" in
      match fn i client with
      | None => mkOutcome None cc1 [client]
      | Some errStr =>
        if isNodeSpecific errStr then mkOutcome (Some errStr) cc1 [client]
        else if IsAuthError (Some errStr) then mkOutcome (Some errStr) cc1 [client]
        else attempted client
               (failoverLoop w fn retries' (S i) (markUnhealthy clientEndpoint cc1))
      end
    end
  end.

(** [executeWithFailover] executes a function with automatic failover. *)
Definition executeWithFailover (w : World) (fn : nat -> string -> error)
    (cc : ClusterClient) : Outcome :=
  failoverLoop w fn (length (endpoints cc)) 0 cc.

(** *** The cluster of scenario S4 *)


(** A world in which every endpoint answers. *)
Definition calmWorld (pick : nat) : World :=
  {| clock := fun i => (100 + Z.of_nat i) * Second;
     newClient := fun _ _ => None;
     getNodes := fun _ _ => None;
     draw := fun _ => pick |}.

End Cluster.

(** ** The metrics history ([internal/monitoring/metrics_history.go]) *)

Module History.
Import Go.

Record MetricPoint := mkPoint {
  Value : float;
  Timestamp : Time
}.

(** [GuestMetrics] holds historical metrics for a single guest (or node). *)
Record GuestMetrics := mkGuestMetrics {
  CPU : list MetricPoint;
  Memory : list MetricPoint;
  Disk : list MetricPoint;
  DiskRead : list MetricPoint;
  DiskWrite : list MetricPoint;
  NetworkIn : list MetricPoint;
  NetworkOut : list MetricPoint
}.

(** [StorageMetrics] holds historical metrics for a single storage. *)
Record StorageMetrics := mkStorageMetrics {
  Usage : list MetricPoint;
  Used : list MetricPoint;
  Total : list MetricPoint;
  Avail : list MetricPoint
}.

(** [MetricsHistory].  [maxDataPoints] is a natural number: with a negative
    capacity the [make] that creates a series panics, so that no series is
    ever appended to. *)
Record MetricsHistory := mkHistory {
  guestMetrics : gmap string GuestMetrics;
  nodeMetrics : gmap string GuestMetrics;
  storageMetrics : gmap string StorageMetrics;
  maxDataPoints : nat;
  retentionTime : Duration
}.

(** [NewMetricsHistory] creates a new metrics history tracker. *)
Definition NewMetricsHistory (maxDataPoints : nat) (retentionTime : Duration) : MetricsHistory :=
  mkHistory ∅ ∅ ∅ maxDataPoints retentionTime.

(** [time.Now().Add(-mh.retentionTime)] *)
Definition cutoffTime (now : Time) (retentionTime : Duration) : Time :=
  Add now (wrap64 (- retentionTime)).

(** The loop that looks for the first point after the cutoff: its index, or
    0 when there is none ([startIdx] keeps its initial value). *)
Fixpoint firstAfter (cutoff : Time) (i : nat) (metrics : list MetricPoint) : nat :=
  match metrics with
  | [] => 0
  | p :: rest =>
    if Go.After (Timestamp p) cutoff then i else firstAfter cutoff (S i) rest
  end.

(** [appendMetric] appends a metric point and maintains max data points and
    retention. *)
Definition appendMetric (now : Time) (maxDataPoints : nat) (retentionTime : Duration)
    (metrics : list MetricPoint) (point : MetricPoint) : list MetricPoint :=
  let metrics := metrics ++ [point] in
  let startIdx := firstAfter (cutoffTime now retentionTime) 0 metrics in
  let metrics := if (0 <? startIdx)%nat then drop startIdx metrics else metrics in
  if (maxDataPoints <? length metrics)%nat
  then drop (length metrics - maxDataPoints) metrics
  else metrics.

Definition emptyGuestMetrics : GuestMetrics := mkGuestMetrics [] [] [] [] [] [] [].
Definition emptyStorageMetrics : StorageMetrics := mkStorageMetrics [] [] [] [].

(** The fields of [GuestMetrics] and of [StorageMetrics]. *)
Inductive GuestField : Type :=
| FCPU | FMemory | FDisk | FDiskRead | FDiskWrite | FNetworkIn | FNetworkOut.

Inductive StorageField : Type := FUsage | FUsed | FTotal | FAvail.

#[global] Instance GuestField_eq_dec : EqDecision GuestField.
Proof. solve_decision. Defined.

#[global] Instance StorageField_eq_dec : EqDecision StorageField.
Proof. solve_decision. Defined.

Definition getGuestField (fld : GuestField) (g : GuestMetrics) : list MetricPoint :=
  match fld with
  | FCPU => CPU g
  | FMemory => Memory g
  | FDisk => Disk g
  | FDiskRead => DiskRead g
  | FDiskWrite => DiskWrite g
  | FNetworkIn => NetworkIn g
  | FNetworkOut => NetworkOut g
  end.

Definition setGuestField (fld : GuestField) (series : list MetricPoint)
    (g : GuestMetrics) : GuestMetrics :=
  match fld with
  | FCPU => mkGuestMetrics series (Memory g) (Disk g) (DiskRead g) (DiskWrite g)
              (NetworkIn g) (NetworkOut g)
  | FMemory => mkGuestMetrics (CPU g) series (Disk g) (DiskRead g) (DiskWrite g)
                 (NetworkIn g) (NetworkOut g)
  | FDisk => mkGuestMetrics (CPU g) (Memory g) series (DiskRead g) (DiskWrite g)
               (NetworkIn g) (NetworkOut g)
  | FDiskRead => mkGuestMetrics (CPU g) (Memory g) (Disk g) series (DiskWrite g)
                   (NetworkIn g) (NetworkOut g)
  | FDiskWrite => mkGuestMetrics (CPU g) (Memory g) (Disk g) (DiskRead g) series
                    (NetworkIn g) (NetworkOut g)
  | FNetworkIn => mkGuestMetrics (CPU g) (Memory g) (Disk g) (DiskRead g) (DiskWrite g)
                    series (NetworkOut g)
  | FNetworkOut => mkGuestMetrics (CPU g) (Memory g) (Disk g) (DiskRead g) (DiskWrite g)
                     (NetworkIn g) series
  end.

Definition getStorageField (fld : StorageField) (s : StorageMetrics) : list MetricPoint :=
  match fld with
  | FUsage => Usage s
  | FUsed => Used s
  | FTotal => Total s
  | FAvail => Avail s
  end.

Definition setStorageField (fld : StorageField) (series : list MetricPoint)
    (s : StorageMetrics) : StorageMetrics :=
  match fld with
  | FUsage => mkStorageMetrics series (Used s) (Total s) (Avail s)
  | FUsed => mkStorageMetrics (Usage s) series (Total s) (Avail s)
  | FTotal => mkStorageMetrics (Usage s) (Used s) series (Avail s)
  | FAvail => mkStorageMetrics (Usage s) (Used s) (Total s) series
  end.

(** The cases of [switch metricType] in [AddGuestMetric]. *)
Definition guestCase (metricType : string) : option GuestField :=
  if String.eqb metricType "cpu" then Some FCPU
  else if String.eqb metricType "memory" then Some FMemory
  else if String.eqb metricType "disk" then Some FDisk
  else if String.eqb metricType "diskread" then Some FDiskRead
  else if String.eqb metricType "diskwrite" then Some FDiskWrite
  else if String.eqb metricType "netin" then Some FNetworkIn
  else if String.eqb metricType "netout" then Some FNetworkOut
  else None.

(** The cases of [switch metricType] in [AddNodeMetric]. *)
Definition nodeCase (metricType : string) : option GuestField :=
  if String.eqb metricType "cpu" then Some FCPU
  else if String.eqb metricType "memory" then Some FMemory
  else if String.eqb metricType "disk" then Some FDisk
  else None.

(** The cases of [switch metricType] in [AddStorageMetric]. *)
Definition storageCase (metricType : string) : option StorageField :=
  if String.eqb metricType "usage" then Some FUsage
  else if String.eqb metricType "used" then Some FUsed
  else if String.eqb metricType "total" then Some FTotal
  else if String.eqb metricType "avail" then Some FAvail
  else None.

(** [metrics.X = mh.appendMetric(metrics.X, point)] for the field of the case. *)
Definition updateGuestSeries (metricType : string)
    (f : list MetricPoint -> list MetricPoint) (g : GuestMetrics) : GuestMetrics :=
  match guestCase metricType with
  | Some fld => setGuestField fld (f (getGuestField fld g)) g
  | None => g
  end.

Definition updateNodeSeries (metricType : string)
    (f : list MetricPoint -> list MetricPoint) (g : GuestMetrics) : GuestMetrics :=
  match nodeCase metricType with
  | Some fld => setGuestField fld (f (getGuestField fld g)) g
  | None => g
  end.

Definition updateStorageSeries (metricType : string)
    (f : list MetricPoint -> list MetricPoint) (s : StorageMetrics) : StorageMetrics :=
  match storageCase metricType with
  | Some fld => setStorageField fld (f (getStorageField fld s)) s
  | None => s
  end.

(** [AddGuestMetric] adds a metric value for a guest. *)
Definition AddGuestMetric (now : Time) (guestID metricType : string) (value : float)
    (timestamp : Time) (mh : MetricsHistory) : MetricsHistory :=
  let metrics := default emptyGuestMetrics (guestMetrics mh !! guestID) in
  let point := mkPoint value timestamp in
  let append series :=
    appendMetric now (maxDataPoints mh) (retentionTime mh) series point in
  mkHistory (<[guestID := updateGuestSeries metricType append metrics]> (guestMetrics mh))
    (nodeMetrics mh) (storageMetrics mh) (maxDataPoints mh) (retentionTime mh).

(** [AddNodeMetric] adds a metric value for a node. *)
Definition AddNodeMetric (now : Time) (nodeID metricType : string) (value : float)
    (timestamp : Time) (mh : MetricsHistory) : MetricsHistory :=
  let metrics := default emptyGuestMetrics (nodeMetrics mh !! nodeID) in
  let point := mkPoint value timestamp in
  let append series :=
    appendMetric now (maxDataPoints mh) (retentionTime mh) series point in
  mkHistory (guestMetrics mh)
    (<[nodeID := updateNodeSeries metricType append metrics]> (nodeMetrics mh))
    (storageMetrics mh) (maxDataPoints mh) (retentionTime mh).

(** [AddStorageMetric] adds a metric value for storage. *)
Definition AddStorageMetric (now : Time) (storageID metricType : string) (value : float)
    (timestamp : Time) (mh : MetricsHistory) : MetricsHistory :=
  let metrics := default emptyStorageMetrics (storageMetrics mh !! storageID) in
  let point := mkPoint value timestamp in
  let append series :=
    appendMetric now (maxDataPoints mh) (retentionTime mh) series point in
  mkHistory (guestMetrics mh) (nodeMetrics mh)
    (<[storageID := updateStorageSeries metricType append metrics]> (storageMetrics mh))
    (maxDataPoints mh) (retentionTime mh).

(** *** Notions used to state the properties *)

(** The points are in the order of their timestamps. *)
Definition chronological (series : list MetricPoint) : Prop :=
  forall i j p q, (i <= j)%nat -> series !! i = Some p -> series !! j = Some q ->
    Timestamp p <= Timestamp q.

(** No point is older than [bound]. *)
Definition notAfter (bound : Time) (series : list MetricPoint) : Prop :=
  Forall (fun p => Timestamp p <= bound) series.

(** Every point is inside the retention window that ends at [now]. *)
Definition retained (now : Time) (retentionTime : Duration) (series : list MetricPoint) : Prop :=
  Forall (fun p => cutoffTime now retentionTime < Timestamp p) series.

(** An add operation with the instant of the call. *)
Inductive Add : Type :=
| AddGuest (now : Time) (id metricType : string) (value : float) (timestamp : Time)
| AddNode (now : Time) (id metricType : string) (value : float) (timestamp : Time)
| AddStorage (now : Time) (id metricType : string) (value : float) (timestamp : Time).

Definition addNow (op : Add) : Time :=
  match op with
  | AddGuest now _ _ _ _ | AddNode now _ _ _ _ | AddStorage now _ _ _ _ => now
  end.

Definition addTimestamp (op : Add) : Time :=
  match op with
  | AddGuest _ _ _ _ t | AddNode _ _ _ _ t | AddStorage _ _ _ _ t => t
  end.

Definition apply (op : Add) (mh : MetricsHistory) : MetricsHistory :=
  match op with
  | AddGuest now id metricType value t => AddGuestMetric now id metricType value t mh
  | AddNode now id metricType value t => AddNodeMetric now id metricType value t mh
  | AddStorage now id metricType value t => AddStorageMetric now id metricType value t mh
  end.

Definition applyAll (ops : list Add) (mh : MetricsHistory) : MetricsHistory :=
  foldl (fun acc op => apply op acc) mh ops.

(** The adds come with timestamps that never go back, starting at [from],
    and each new point is inside the retention window at its add. *)
Fixpoint inOrder (retentionTime : Duration) (from : Time) (ops : list Add) : Prop :=
  match ops with
  | [] => True
  | op :: rest =>
    from <= addTimestamp op
    /\ cutoffTime (addNow op) retentionTime < addTimestamp op
    /\ inOrder retentionTime (addTimestamp op) rest
  end.


(** The three maps of the history. *)
Inductive Kind : Type := OfGuest | OfNode | OfStorage.

#[global] Instance Kind_eq_dec : EqDecision Kind.
Proof. solve_decision. Defined.

(** The series that a metric type names, as the [switch] statements do. *)
Definition guestSeries (metricType : string) (g : GuestMetrics) : option (list MetricPoint) :=
  fld ← guestCase metricType; Some (getGuestField fld g).

Definition nodeSeries (metricType : string) (g : GuestMetrics) : option (list MetricPoint) :=
  fld ← nodeCase metricType; Some (getGuestField fld g).

Definition storageSeries (metricType : string) (s : StorageMetrics) : option (list MetricPoint) :=
  fld ← storageCase metricType; Some (getStorageField fld s).

(** The series stored for a resource and a metric type; empty when there is
    none. *)
Definition seriesAt (kind : Kind) (id metricType : string) (mh : MetricsHistory)
    : list MetricPoint :=
  default []
    match kind with
    | OfGuest => g ← guestMetrics mh !! id; guestSeries metricType g
    | OfNode => g ← nodeMetrics mh !! id; nodeSeries metricType g
    | OfStorage => s ← storageMetrics mh !! id; storageSeries metricType s
    end.

(** Whether the [switch] of the add operation of [kind] has a case for
    [metricType]. *)
Definition recognized (kind : Kind) (metricType : string) : bool :=
  match kind with
  | OfGuest => bool_decide (is_Some (guestCase metricType))
  | OfNode => bool_decide (is_Some (nodeCase metricType))
  | OfStorage => bool_decide (is_Some (storageCase metricType))
  end.

Definition addKind (op : Add) : Kind :=
  match op with
  | AddGuest _ _ _ _ _ => OfGuest
  | AddNode _ _ _ _ _ => OfNode
  | AddStorage _ _ _ _ _ => OfStorage
  end.

Definition addID (op : Add) : string :=
  match op with
  | AddGuest _ id _ _ _ | AddNode _ id _ _ _ | AddStorage _ id _ _ _ => id
  end.

Definition addMetricType (op : Add) : string :=
  match op with
  | AddGuest _ _ mt _ _ | AddNode _ _ mt _ _ | AddStorage _ _ mt _ _ => mt
  end.

Definition addPoint (op : Add) : MetricPoint :=
  match op with
  | AddGuest _ _ _ v t | AddNode _ _ _ v t | AddStorage _ _ _ v t => mkPoint v t
  end.

(** The series that [op] appends to, as it is in [mh]. *)
Definition targetSeries (op : Add) (mh : MetricsHistory) : list MetricPoint :=
  seriesAt (addKind op) (addID op) (addMetricType op) mh.
(** The timestamp of the last add of [ops], [from] when there is none. *)
Definition lastStamp (from : Time) (ops : list Add) : Time :=
  foldl (fun _ op => addTimestamp op) from ops.



End History.

(** ** The monitor ([internal/monitoring/monitor.go]) *)

Module Monitoring.
Import Go.

(** *** Values received from the Proxmox API ([pkg/proxmox]) *)

Module PNode.
Record t := mk {
  Node : string;
  Status : string;
  CPU : float;
  MaxCPU : Z;
  Mem : Z;
  MaxMem : Z;
  Disk : Z;
  MaxDisk : Z;
  Uptime : Z
}.
End PNode.

Module PStorage.
Record t := mk {
  Storage : string;
  Type_ : string;
  Content : string;
  Active : Z;
  Enabled : Z;
  Shared : Z;
  Total : Z;
  Used : Z;
  Available : Z
}.
End PStorage.

Module ClusterResource.
Record t := mk {
  ID : string;
  Type_ : string;
  Node : string;
  Status : string;
  Name : string;
  VMID : Z;
  CPU : float;
  MaxCPU : Z;
  Mem : Z;
  MaxMem : Z;
  Disk : Z;
  MaxDisk : Z;
  NetIn : Z;
  NetOut : Z;
  DiskRead : Z;
  DiskWrite : Z;
  Uptime : Z;
  Template : Z;
  Tags : string
}.
End ClusterResource.

(** *** Helpers *)

(** [int64(u)] for a [uint64] [u], and the difference of two [uint64]. *)
Definition int64_of_uint64 (u : Z) : Z := wrap64 u.
Definition uint64_sub (a b : Z) : Z := (a - b) `mod` 2 ^ 64.

(** [float64(u)] for a [uint64] [u]: values from 2^63 on are halved with a
    sticky bit, converted and doubled, which rounds as the direct conversion
    does. *)
Definition float64_of_uint64 (u : Z) : float :=
  if u <? 2 ^ 63 then PrimFloat.of_uint63 (Uint63.of_Z u)
  else PrimFloat.mul
         (PrimFloat.of_uint63 (Uint63.of_Z (Z.lor (Z.shiftr u 1) (Z.land u 1))))
         2%float.

(** [safePercentage] calculates percentage safely, returning 0 if divisor
    is 0. *)
Definition safePercentage (used total : float) : float :=
  if PrimFloat.eqb total 0%float then 0%float
  else
    let result := PrimFloat.mul (PrimFloat.div used total) 100%float in
    if PrimFloat.is_nan result || PrimFloat.is_infinity result then 0%float
    else result.

(** [maxInt64] returns the maximum of two int64 values. *)
Definition maxInt64 (a b : Z) : Z := if b <? a then a else b.

(** [safeFloat] ensures a float value is not NaN or Inf. *)
Definition safeFloat (val : float) : float :=
  if PrimFloat.is_nan val || PrimFloat.is_infinity val then 0%float else val.

(** [strings.Split(s, sep)] for a separator of one byte. *)
Fixpoint split (sep : Ascii.ascii) (s : string) : list string :=
  match s with
  | EmptyString => [""]
  | String c rest =>
    let parts := split sep rest in
    if Ascii.eqb c sep then "" :: parts
    else match parts with
         | p :: ps => String c p :: ps
         | [] => [String c ""]
         end
  end.

(** [strings.Join(parts, sep)] *)
Fixpoint join (sep : string) (parts : list string) : string :=
  match parts with
  | [] => ""
  | [p] => p
  | p :: ps => p +:+ sep +:+ join sep ps
  end.

(** [sort.Strings]: ascending in the order of the bytes. *)
Fixpoint insertSorted (s : string) (sorted : list string) : list string :=
  match sorted with
  | [] => [s]
  | t :: rest => if String.leb s t then s :: sorted else t :: insertSorted s rest
  end.

Definition sortStrings (parts : list string) : list string :=
  foldr insertSorted [] parts.

(** The byte of the comma. *)
Definition comma : Ascii.ascii := Ascii.ascii_of_nat 44.

(** [sortContent] sorts comma-separated content values for consistent
    display. *)
Definition sortContent (content : string) : string :=
  if String.eqb content "" then ""
  else join "," (sortStrings (split comma content)).

(** *** The state store ([models.State]) *)

(** The records of backups and snapshots are opaque to the monitor code
    modelled here; of their fields only the instance matters. *)
Record BackupTask := mkBackupTask { bt_ID : string; bt_Instance : string }.
Record StorageBackup := mkStorageBackup { sb_ID : string; sb_Instance : string }.
Record GuestSnapshot := mkGuestSnapshot { gs_ID : string; gs_Instance : string }.
Record PBSInstance := mkPBSInstance { pbs_Name : string; pbs_Host : string }.
Record PBSBackup := mkPBSBackup { pb_ID : string; pb_Instance : string }.

(** The calls that the monitor makes on the store. *)
Inductive StoreCall : Type :=
| CallUpdateNodes (instanceName : string) (nodes : list Models.Node.t)
| CallUpdateVMs (instanceName : string) (vms : list Models.Guest.t)
| CallUpdateContainers (instanceName : string) (containers : list Models.Guest.t)
| CallUpdateStorage (instanceName : string) (storage : list Models.Storage.t)
| CallUpdateBackupTasks (instanceName : string) (tasks : list BackupTask)
| CallUpdateStorageBackups (instanceName : string) (backups : list StorageBackup)
| CallUpdateGuestSnapshots (instanceName : string) (snapshots : list GuestSnapshot)
| CallUpdatePBSInstances (instances : list PBSInstance)
| CallUpdatePBSBackups (instanceName : string) (backups : list PBSBackup)
| CallSetConnectionHealth (instanceName : string) (healthy : bool).

(** The aggregate, together with the calls made on it, latest last. *)
Record State := mkState {
  Nodes : list Models.Node.t;
  VMs : list Models.Guest.t;
  Containers : list Models.Guest.t;
  Storage : list Models.Storage.t;
  BackupTasks : list BackupTask;
  StorageBackups : list StorageBackup;
  GuestSnapshots : list GuestSnapshot;
  PBSInstances : list PBSInstance;
  PBSBackups : list PBSBackup;
  ConnectionHealth : gmap string bool;
  calls : list StoreCall
}.

Definition emptyState : State := mkState [] [] [] [] [] [] [] [] [] ∅ [].

(** Modelled from the spec: the per-instance update of the state store,
    which is not part of the sources at hand.  "Each UpdateXForInstance
    atomically replaces only entries whose instance == name, preserving all
    others": the entries of other instances stay, those of [name] are
    replaced by the new ones. *)
Definition replaceForInstance {A : Type} (instanceOf : A -> string) (name : string)
    (new old : list A) : list A :=
  List.filter (fun x => negb (String.eqb (instanceOf x) name)) old ++ new.

(** The entries of one instance. *)
Definition ofInstance {A : Type} (instanceOf : A -> string) (name : string)
    (entries : list A) : list A :=
  List.filter (fun x => String.eqb (instanceOf x) name) entries.

(** Modelled from the spec: [State.UpdateNodesForInstance] and its
    siblings, with the semantics of [replaceForInstance]. *)
Definition UpdateNodesForInstance (name : string) (nodes : list Models.Node.t)
    (s : State) : State :=
  mkState (replaceForInstance Models.Node.Instance name nodes (Nodes s)) (VMs s)
    (Containers s) (Storage s) (BackupTasks s) (StorageBackups s) (GuestSnapshots s)
    (PBSInstances s) (PBSBackups s) (ConnectionHealth s)
    (calls s ++ [CallUpdateNodes name nodes]).

Definition UpdateVMsForInstance (name : string) (vms : list Models.Guest.t)
    (s : State) : State :=
  mkState (Nodes s) (replaceForInstance Models.Guest.Instance name vms (VMs s))
    (Containers s) (Storage s) (BackupTasks s) (StorageBackups s) (GuestSnapshots s)
    (PBSInstances s) (PBSBackups s) (ConnectionHealth s)
    (calls s ++ [CallUpdateVMs name vms]).

Definition UpdateContainersForInstance (name : string) (containers : list Models.Guest.t)
    (s : State) : State :=
  mkState (Nodes s) (VMs s)
    (replaceForInstance Models.Guest.Instance name containers (Containers s))
    (Storage s) (BackupTasks s) (StorageBackups s) (GuestSnapshots s)
    (PBSInstances s) (PBSBackups s) (ConnectionHealth s)
    (calls s ++ [CallUpdateContainers name containers]).

Definition UpdateStorageForInstance (name : string) (storage : list Models.Storage.t)
    (s : State) : State :=
  mkState (Nodes s) (VMs s) (Containers s)
    (replaceForInstance Models.Storage.Instance name storage (Storage s))
    (BackupTasks s) (StorageBackups s) (GuestSnapshots s)
    (PBSInstances s) (PBSBackups s) (ConnectionHealth s)
    (calls s ++ [CallUpdateStorage name storage]).

Definition UpdateBackupTasksForInstance (name : string) (tasks : list BackupTask)
    (s : State) : State :=
  mkState (Nodes s) (VMs s) (Containers s) (Storage s)
    (replaceForInstance bt_Instance name tasks (BackupTasks s))
    (StorageBackups s) (GuestSnapshots s)
    (PBSInstances s) (PBSBackups s) (ConnectionHealth s)
    (calls s ++ [CallUpdateBackupTasks name tasks]).

Definition UpdateStorageBackupsForInstance (name : string) (backups : list StorageBackup)
    (s : State) : State :=
  mkState (Nodes s) (VMs s) (Containers s) (Storage s) (BackupTasks s)
    (replaceForInstance sb_Instance name backups (StorageBackups s))
    (GuestSnapshots s) (PBSInstances s) (PBSBackups s) (ConnectionHealth s)
    (calls s ++ [CallUpdateStorageBackups name backups]).

Definition UpdateGuestSnapshotsForInstance (name : string) (snapshots : list GuestSnapshot)
    (s : State) : State :=
  mkState (Nodes s) (VMs s) (Containers s) (Storage s) (BackupTasks s)
    (StorageBackups s)
    (replaceForInstance gs_Instance name snapshots (GuestSnapshots s))
    (PBSInstances s) (PBSBackups s) (ConnectionHealth s)
    (calls s ++ [CallUpdateGuestSnapshots name snapshots]).

(** Modelled from the spec: the global setters [UpdatePBSInstances],
    [UpdatePBSBackups] and [SetConnectionHealth]. *)
Definition UpdatePBSInstances (instances : list PBSInstance) (s : State) : State :=
  mkState (Nodes s) (VMs s) (Containers s) (Storage s) (BackupTasks s)
    (StorageBackups s) (GuestSnapshots s) instances (PBSBackups s)
    (ConnectionHealth s) (calls s ++ [CallUpdatePBSInstances instances]).

Definition UpdatePBSBackups (name : string) (backups : list PBSBackup) (s : State) : State :=
  mkState (Nodes s) (VMs s) (Containers s) (Storage s) (BackupTasks s)
    (StorageBackups s) (GuestSnapshots s) (PBSInstances s)
    (replaceForInstance pb_Instance name backups (PBSBackups s))
    (ConnectionHealth s) (calls s ++ [CallUpdatePBSBackups name backups]).

Definition SetConnectionHealth (name : string) (healthy : bool) (s : State) : State :=
  mkState (Nodes s) (VMs s) (Containers s) (Storage s) (BackupTasks s)
    (StorageBackups s) (GuestSnapshots s) (PBSInstances s) (PBSBackups s)
    (<[name := healthy]> (ConnectionHealth s))
    (calls s ++ [CallSetConnectionHealth name healthy]).

(** *** The monitor *)

(** An entry of [config.PVEInstances]. *)
Record PVEInstance := mkPVEInstance {
  pve_Name : string;
  pve_Host : string
}.

(** The fields of [Monitor] that the modelled functions use. *)
Record Monitor := mkMonitor {
  PVEInstances : list PVEInstance;
  state : State;
  metricsHistory : History.MetricsHistory;
  alertManager : Alerts.Manager;
  authFailures : gmap string Z;
  lastAuthAttempt : gmap string Z
}.

Definition with_state (f : State -> State) (m : Monitor) : Monitor :=
  mkMonitor (PVEInstances m) (f (state m)) (metricsHistory m) (alertManager m)
    (authFailures m) (lastAuthAttempt m).

Definition with_metricsHistory (f : History.MetricsHistory -> History.MetricsHistory)
    (m : Monitor) : Monitor :=
  mkMonitor (PVEInstances m) (state m) (f (metricsHistory m)) (alertManager m)
    (authFailures m) (lastAuthAttempt m).

Definition with_alertManager (f : Alerts.Manager -> Alerts.Manager) (m : Monitor) : Monitor :=
  mkMonitor (PVEInstances m) (state m) (metricsHistory m) (f (alertManager m))
    (authFailures m) (lastAuthAttempt m).

Definition with_auth (failures attempts : gmap string Z) (m : Monitor) : Monitor :=
  mkMonitor (PVEInstances m) (state m) (metricsHistory m) (alertManager m)
    failures attempts.

(** [m.authFailures[nodeID]], zero for an absent key. *)
Definition failureCount (m : Monitor) (nodeID : string) : Z :=
  default 0 (authFailures m !! nodeID).

(** The key of the auth-failure maps. *)
Definition authNodeID (instanceName nodeType : string) : string :=
  if String.eqb nodeType "" then instanceName else nodeType +:+ "-" +:+ instanceName.

(** The host of the instance in the configuration, "" when it is missing. *)
Fixpoint hostOf (instanceName : string) (instances : list PVEInstance) : string :=
  match instances with
  | [] => ""
  | cfg :: rest =>
    if String.eqb (pve_Name cfg) instanceName then pve_Host cfg
    else hostOf instanceName rest
  end.

(** The entry shown for an instance whose authentication keeps failing. *)
Definition failedNode (now : Time) (instanceName hostURL : string) : Models.Node.t :=
  {| Models.Node.ID := instanceName +:+ "-failed";
     Models.Node.Name := instanceName;
     Models.Node.Instance := instanceName;
     Models.Node.Host := hostURL;
     Models.Node.Status := "offline";
     Models.Node.Type_ := "node";
     Models.Node.CPU := 0;
     Models.Node.Memory := Models.Memory.zero;
     Models.Node.Disk := Models.Disk.zero;
     Models.Node.Uptime := 0;
     Models.Node.LastSeen := now;
     Models.Node.ConnectionHealth := "error" |}.

(** [removeFailedPVENode] updates a PVE node to show failed authentication
    status. *)
Definition removeFailedPVENode (now : Time) (instanceName : string) (m : Monitor) : Monitor :=
  let hostURL := hostOf instanceName (PVEInstances m) in
  with_state
    (fun s =>
       SetConnectionHealth instanceName false
         (UpdateGuestSnapshotsForInstance instanceName []
           (UpdateStorageBackupsForInstance instanceName []
             (UpdateBackupTasksForInstance instanceName []
               (UpdateStorageForInstance instanceName []
                 (UpdateContainersForInstance instanceName []
                   (UpdateVMsForInstance instanceName []
                     (UpdateNodesForInstance instanceName
                        [failedNode now instanceName hostURL] s))))))))
    m.

(** [removeFailedPBSNode] removes a PBS node and all its resources from
    state. *)
Definition removeFailedPBSNode (instanceName : string) (m : Monitor) : Monitor :=
  with_state
    (fun s =>
       let updatedInstances :=
         List.filter (fun inst => negb (String.eqb (pbs_Name inst) instanceName))
           (PBSInstances s) in
       SetConnectionHealth ("pbs-" +:+ instanceName) false
         (UpdatePBSBackups instanceName [] (UpdatePBSInstances updatedInstances s)))
    m.

Definition maxAuthFailures : Z := 5.

(** [recordAuthFailure] records an authentication failure for a node. *)
Definition recordAuthFailure (now : Time) (instanceName nodeType : string)
    (m : Monitor) : Monitor :=
  let nodeID := authNodeID instanceName nodeType in
  let count := wrap64 (failureCount m nodeID + 1) in
  let m1 := with_auth (<[nodeID := count]> (authFailures m))
              (<[nodeID := now]> (lastAuthAttempt m)) m in
  if maxAuthFailures <=? count then
    let m2 := if String.eqb nodeType "pve" then removeFailedPVENode now instanceName m1
              else if String.eqb nodeType "pbs" then removeFailedPBSNode instanceName m1
              else m1 in
    with_auth (delete nodeID (authFailures m2)) (delete nodeID (lastAuthAttempt m2)) m2
  else m1.

(** [resetAuthFailures] resets the failure count for a node after
    successful auth. *)
Definition resetAuthFailures (instanceName nodeType : string) (m : Monitor) : Monitor :=
  let nodeID := authNodeID instanceName nodeType in
  match authFailures m !! nodeID with
  | Some count =>
    if 0 <? count
    then with_auth (delete nodeID (authFailures m)) (delete nodeID (lastAuthAttempt m)) m
    else m
  | None => m
  end.

(** The answer of [client.GetNodes]: the nodes, or an error together with
    what [errors.IsAuthError] says about it (package [errors] is not part of
    the sources at hand). *)
Inductive GetNodesResult : Type :=
| NodesOK (nodes : list PNode.t)
| NodesErr (errStr : string) (isAuthError : bool).

(** Whether the instance is in the configuration. *)
Definition configured (instanceName : string) (m : Monitor) : bool :=
  existsb (fun cfg => String.eqb (pve_Name cfg) instanceName) (PVEInstances m).

(** The head of [pollPVEInstance], up to the conversion of the nodes: the
    monitor after it, and the nodes to go on with when the poll goes on.
    [cancelled] says whether the context was done on entry. *)
Definition pollPVENodes (now : Time) (cancelled : bool) (instanceName : string)
    (result : GetNodesResult) (m : Monitor) : Monitor * option (list PNode.t) :=
  if cancelled then (m, None)
  else if negb (configured instanceName m) then (m, None)
  else
    match result with
    | NodesErr _ isAuthError =>
      let m1 := with_state (SetConnectionHealth instanceName false) m in
      (if isAuthError then recordAuthFailure now instanceName "pve" m1 else m1, None)
    | NodesOK nodes =>
      (with_state (SetConnectionHealth instanceName true)
         (resetAuthFailures instanceName "pve" m),
       Some nodes)
    end.

(** *** Polling storage *)

(** [int64(f)] for a [float64] [f]: the fraction is cut off; a value that
    does not fit, an infinity or a NaN gives the smallest [int64], as on
    amd64. *)
Definition int64_of_float64 (f : float) : Z :=
  match Prim2SF f with
  | S754_zero _ => 0
  | S754_finite s mant e =>
    let magnitude := if 0 <=? e then Z.pos mant * 2 ^ e else Z.pos mant / 2 ^ (- e) in
    let v := if s then - magnitude else magnitude in
    if (Go.minInt64 <=? v) && (v <=? Go.maxInt64) then v else Go.minInt64
  | _ => Go.minInt64
  end.

(** [clusterStorageMap]: the cluster's storage configuration by name; of
    two entries with one name the later one stays. *)
Definition clusterStorageMap (clusterStorages : list PStorage.t) : gmap string PStorage.t :=
  foldl (fun acc cs => <[PStorage.Storage cs := cs]> acc) ∅ clusterStorages.

(** [hasClusterConfig && clusterConfig.Shared == 1] *)
Definition isShared (configs : gmap string PStorage.t) (storage : PStorage.t) : bool :=
  match configs !! PStorage.Storage storage with
  | Some clusterConfig => PStorage.Shared clusterConfig =? 1
  | None => false
  end.

(** The entry built for a storage that node [nodeName] reports. *)
Definition toModelStorage (instanceName nodeName : string)
    (configs : gmap string PStorage.t) (storage : PStorage.t) : Models.Storage.t :=
  let clusterConfig := configs !! PStorage.Storage storage in
  let shared := isShared configs storage in
  let nodeID := if shared then "shared" else nodeName in
  let storageID :=
    if shared then "shared-" +:+ PStorage.Storage storage
    else instanceName +:+ "-" +:+ nodeName +:+ "-" +:+ PStorage.Storage storage in
  let total := int64_of_uint64 (PStorage.Total storage) in
  let used := int64_of_uint64 (PStorage.Used storage) in
  let content :=
    match clusterConfig with
    | Some cc =>
      if negb (String.eqb (PStorage.Content cc) "")
      then join "," (sortStrings (split comma (PStorage.Content cc)))
      else PStorage.Content cc
    | None => sortContent (PStorage.Content storage)
    end in
  let enabled :=
    match clusterConfig with Some cc => PStorage.Enabled cc =? 1 | None => true end in
  let active :=
    match clusterConfig with Some cc => PStorage.Active cc =? 1 | None => true end in
  let usage :=
    if 0 <? total
    then safePercentage (Alerts.float64_of_int64 used) (Alerts.float64_of_int64 total)
    else 0%float in
  let status :=
    if (PStorage.Active storage =? 1) || active then "available"
    else if enabled then "inactive"
    else "disabled" in
  {| Models.Storage.ID := storageID;
     Models.Storage.Name := PStorage.Storage storage;
     Models.Storage.Node := nodeID;
     Models.Storage.Instance := instanceName;
     Models.Storage.Type_ := PStorage.Type_ storage;
     Models.Storage.Status := status;
     Models.Storage.Total := total;
     Models.Storage.Used := used;
     Models.Storage.Free := int64_of_uint64 (PStorage.Available storage);
     Models.Storage.Usage := usage;
     Models.Storage.Content := content;
     Models.Storage.Shared := shared;
     Models.Storage.Enabled := enabled;
     Models.Storage.Active := active |}.

(** [st.Instance = instanceName] *)
Definition setStorageInstance (instanceName : string) (st : Models.Storage.t) : Models.Storage.t :=
  {| Models.Storage.ID := Models.Storage.ID st;
     Models.Storage.Name := Models.Storage.Name st;
     Models.Storage.Node := Models.Storage.Node st;
     Models.Storage.Instance := instanceName;
     Models.Storage.Type_ := Models.Storage.Type_ st;
     Models.Storage.Status := Models.Storage.Status st;
     Models.Storage.Total := Models.Storage.Total st;
     Models.Storage.Used := Models.Storage.Used st;
     Models.Storage.Free := Models.Storage.Free st;
     Models.Storage.Usage := Models.Storage.Usage st;
     Models.Storage.Content := Models.Storage.Content st;
     Models.Storage.Shared := Models.Storage.Shared st;
     Models.Storage.Enabled := Models.Storage.Enabled st;
     Models.Storage.Active := Models.Storage.Active st |}.

(** The variables of the loops of [pollStorageWithNodes]. *)
Record StorageLoop := mkStorageLoop {
  allStorage : list Models.Storage.t;
  seenStorage : gset string;
  storageMonitor : Monitor
}.

(** What a cumulative sample of a guest holds ([IOMetrics]). *)
Record IOMetrics := mkIOMetrics {
  io_DiskRead : Z;
  io_DiskWrite : Z;
  io_NetworkIn : Z;
  io_NetworkOut : Z;
  io_Timestamp : Time
}.

(** The four rates that [CalculateRates] returns: disk read, disk write,
    network in, network out. *)
Record Rates := mkRates {
  diskReadRate : float;
  diskWriteRate : float;
  netInRate : float;
  netOutRate : float
}.

(** The variables of the loop of [pollVMsAndContainersEfficient]. *)
Record GuestLoop (RateTracker : Type) := mkGuestLoop {
  allVMs : list Models.Guest.t;
  allContainers : list Models.Guest.t;
  guestTracker : RateTracker;
  guestMonitor : Monitor;
  iteration : nat
}.
Arguments mkGuestLoop {RateTracker}.
Arguments allVMs {RateTracker}.
Arguments allContainers {RateTracker}.
Arguments guestTracker {RateTracker}.
Arguments guestMonitor {RateTracker}.
Arguments iteration {RateTracker}.

Section Polling.

(** Taken as given: the thresholds of a guest and the quiet hours of the
    alert engine, and the rate tracker, whose code is not part of the sources
    at hand. *)
Variable getGuestThresholds : Alerts.AlertConfig -> Alerts.Guest -> Alerts.ThresholdConfig.
Variable isInQuietHours : Alerts.AlertConfig -> Time -> bool.
Variable RateTracker : Type.
Variable CalculateRates : string -> IOMetrics -> RateTracker -> Rates * RateTracker.

(** The body of the inner loop of [pollStorageWithNodes], for one storage
    that node [nodeName] reports.  [clock k] is the reading of the clock while
    the entry of index [k] is recorded. *)
Definition pollStorageEntry (clock : nat -> Time) (instanceName nodeName : string)
    (configs : gmap string PStorage.t) (st : StorageLoop) (storage : PStorage.t)
    : StorageLoop :=
  let shared := isShared configs storage in
  let storageKey := PStorage.Storage storage in
  if shared && bool_decide (storageKey ∈ seenStorage st) then st
  else
    let seen := if shared then {[storageKey]} ∪ seenStorage st else seenStorage st in
    let modelStorage := toModelStorage instanceName nodeName configs storage in
    let now := clock (length (allStorage st)) in
    let id := Models.Storage.ID modelStorage in
    let record mh :=
      History.AddStorageMetric now id "avail"
        (Alerts.float64_of_int64 (Models.Storage.Free modelStorage)) now
        (History.AddStorageMetric now id "total"
           (Alerts.float64_of_int64 (Models.Storage.Total modelStorage)) now
           (History.AddStorageMetric now id "used"
              (Alerts.float64_of_int64 (Models.Storage.Used modelStorage)) now
              (History.AddStorageMetric now id "usage"
                 (Models.Storage.Usage modelStorage) now mh))) in
    let check am :=
      Alerts.CheckStorage now (isInQuietHours (Alerts.config am) now) modelStorage am in
    mkStorageLoop (allStorage st ++ [modelStorage]) seen
      (with_alertManager check (with_metricsHistory record (storageMonitor st))).

(** The body of the outer loop: a node with the answer of
    [client.GetStorage] for it, [None] for an error. *)
Definition pollStorageNode (clock : nat -> Time) (instanceName : string)
    (configs : gmap string PStorage.t) (st : StorageLoop)
    (report : PNode.t * option (list PStorage.t)) : StorageLoop :=
  match report.2 with
  | None => st
  | Some nodeStorage =>
    foldl (pollStorageEntry clock instanceName (PNode.Node report.1) configs) st nodeStorage
  end.

(** The two loops of [pollStorageWithNodes]. *)
Definition collectStorage (clock : nat -> Time) (instanceName : string)
    (clusterStorages : list PStorage.t)
    (reports : list (PNode.t * option (list PStorage.t))) (m : Monitor) : StorageLoop :=
  foldl (pollStorageNode clock instanceName (clusterStorageMap clusterStorages))
    (mkStorageLoop [] ∅ m) reports.

(** [pollStorageWithNodes] polls storage using a provided nodes list.
    [clusterStorages] is the answer of [client.GetAllStorage], empty for an
    error; [reports] holds the nodes, each with the answer of
    [client.GetStorage] for it. *)
Definition pollStorageWithNodes (clock : nat -> Time) (instanceName : string)
    (clusterStorages : list PStorage.t)
    (reports : list (PNode.t * option (list PStorage.t))) (m : Monitor) : Monitor :=
  let st := collectStorage clock instanceName clusterStorages reports m in
  let instanceStorage := map (setStorageInstance instanceName) (allStorage st) in
  with_state (UpdateStorageForInstance instanceName instanceStorage) (storageMonitor st).

(** *** Polling guests through cluster/resources *)

(** [fmt.Sprintf("%s-%s-%d", instanceName, res.Node, res.VMID)] *)
Definition guestID (instanceName : string) (res : ClusterResource.t) : string :=
  instanceName +:+ "-" +:+ ClusterResource.Node res +:+ "-" +:+ pretty (ClusterResource.VMID res).

(** The guest built from a resource of type [type]. *)
Definition toGuest (now : Time) (instanceName type : string) (rates : Rates)
    (res : ClusterResource.t) : Models.Guest.t :=
  {| Models.Guest.ID := guestID instanceName res;
     Models.Guest.VMID := ClusterResource.VMID res;
     Models.Guest.Name := ClusterResource.Name res;
     Models.Guest.Node := ClusterResource.Node res;
     Models.Guest.Instance := instanceName;
     Models.Guest.Status := ClusterResource.Status res;
     Models.Guest.Type_ := type;
     Models.Guest.CPU := safeFloat (ClusterResource.CPU res);
     Models.Guest.CPUs := ClusterResource.MaxCPU res;
     Models.Guest.Memory :=
       {| Models.Memory.Total := int64_of_uint64 (ClusterResource.MaxMem res);
          Models.Memory.Used := int64_of_uint64 (ClusterResource.Mem res);
          Models.Memory.Free :=
            int64_of_uint64 (uint64_sub (ClusterResource.MaxMem res) (ClusterResource.Mem res));
          Models.Memory.Usage :=
            safePercentage (float64_of_uint64 (ClusterResource.Mem res))
              (float64_of_uint64 (ClusterResource.MaxMem res)) |};
     Models.Guest.Disk :=
       {| Models.Disk.Total := int64_of_uint64 (ClusterResource.MaxDisk res);
          Models.Disk.Used := int64_of_uint64 (ClusterResource.Disk res);
          Models.Disk.Free :=
            int64_of_uint64 (uint64_sub (ClusterResource.MaxDisk res) (ClusterResource.Disk res));
          Models.Disk.Usage :=
            safePercentage (float64_of_uint64 (ClusterResource.Disk res))
              (float64_of_uint64 (ClusterResource.MaxDisk res)) |};
     Models.Guest.NetworkIn := maxInt64 0 (int64_of_float64 (netInRate rates));
     Models.Guest.NetworkOut := maxInt64 0 (int64_of_float64 (netOutRate rates));
     Models.Guest.DiskRead := maxInt64 0 (int64_of_float64 (diskReadRate rates));
     Models.Guest.DiskWrite := maxInt64 0 (int64_of_float64 (diskWriteRate rates));
     Models.Guest.Uptime := int64_of_uint64 (ClusterResource.Uptime res);
     Models.Guest.Template := ClusterResource.Template res =? 1;
     Models.Guest.Tags :=
       if negb (String.eqb (ClusterResource.Tags res) "")
       then split (Ascii.ascii_of_nat 59) (ClusterResource.Tags res)
       else [];
     Models.Guest.LastSeen := now |}.

(** The body of the loop of [pollVMsAndContainersEfficient].  [clock k] is
    the reading of the clock in the iteration of index [k]. *)
Definition pollResource (clock : nat -> Time) (instanceName : string)
    (st : GuestLoop RateTracker) (res : ClusterResource.t) : GuestLoop RateTracker :=
  let now := clock (iteration st) in
  let currentMetrics :=
    {| io_DiskRead := int64_of_uint64 (ClusterResource.DiskRead res);
       io_DiskWrite := int64_of_uint64 (ClusterResource.DiskWrite res);
       io_NetworkIn := int64_of_uint64 (ClusterResource.NetIn res);
       io_NetworkOut := int64_of_uint64 (ClusterResource.NetOut res);
       io_Timestamp := now |} in
  let (rates, tracker) :=
    CalculateRates (guestID instanceName res) currentMetrics (guestTracker st) in
  let check guest am :=
    Alerts.CheckGuest getGuestThresholds now (isInQuietHours (Alerts.config am) now)
      guest instanceName am in
  if String.eqb (ClusterResource.Type_ res) "qemu" then
    if ClusterResource.Template res =? 1
    then mkGuestLoop (allVMs st) (allContainers st) tracker (guestMonitor st)
           (S (iteration st))
    else
      let vm := toGuest now instanceName "qemu" rates res in
      mkGuestLoop (allVMs st ++ [vm]) (allContainers st) tracker
        (with_alertManager (check (Alerts.VM vm)) (guestMonitor st)) (S (iteration st))
  else if String.eqb (ClusterResource.Type_ res) "lxc" then
    if ClusterResource.Template res =? 1
    then mkGuestLoop (allVMs st) (allContainers st) tracker (guestMonitor st)
           (S (iteration st))
    else
      let container := toGuest now instanceName "lxc" rates res in
      mkGuestLoop (allVMs st) (allContainers st ++ [container]) tracker
        (with_alertManager (check (Alerts.Container container)) (guestMonitor st))
        (S (iteration st))
  else mkGuestLoop (allVMs st) (allContainers st) tracker (guestMonitor st)
         (S (iteration st)).

(** The loop over the resources. *)
Definition collectGuests (clock : nat -> Time) (instanceName : string)
    (resources : list ClusterResource.t) (tracker : RateTracker) (m : Monitor)
    : GuestLoop RateTracker :=
  foldl (pollResource clock instanceName) (mkGuestLoop [] [] tracker m 0%nat) resources.

(** [pollVMsAndContainersEfficient] uses the cluster/resources endpoint to
    get all VMs and containers in one call.  [answer] is the answer of
    [client.GetClusterResources], [None] for an error.  Returns the boolean of
    the source, the rate tracker and the monitor. *)
Definition pollVMsAndContainersEfficient (clock : nat -> Time) (instanceName : string)
    (answer : option (list ClusterResource.t)) (tracker : RateTracker) (m : Monitor)
    : bool * RateTracker * Monitor :=
  match answer with
  | None => (false, tracker, m)
  | Some resources =>
    let st := collectGuests clock instanceName resources tracker m in
    let m1 :=
      if (0 <? length (allVMs st))%nat
      then with_state (UpdateVMsForInstance instanceName (allVMs st)) (guestMonitor st)
      else guestMonitor st in
    let m2 :=
      if (0 <? length (allContainers st))%nat
      then with_state (UpdateContainersForInstance instanceName (allContainers st)) m1
      else m1 in
    (true, guestTracker st, m2)
  end.

End Polling.

(** *** Notions used to state the properties *)

(** A resource that the efficient path publishes as a VM, or as a
    container. *)
Definition isVM (res : ClusterResource.t) : bool :=
  String.eqb (ClusterResource.Type_ res) "qemu" && negb (ClusterResource.Template res =? 1).

Definition isContainer (res : ClusterResource.t) : bool :=
  String.eqb (ClusterResource.Type_ res) "lxc" && negb (ClusterResource.Template res =? 1).

(** The storages that the nodes report, each with the name of its node, in
    the order of the loops; the answers with an error give none. *)
Definition reported (reports : list (PNode.t * option (list PStorage.t)))
    : list (string * PStorage.t) :=
  flat_map (fun report : PNode.t * option (list PStorage.t) =>
              map (fun storage => (PNode.Node report.1, storage)) (default [] report.2))
    reports.

(** [n] consecutive polls of an instance whose [GetNodes] fails with an
    authentication error, at the instants [start], [start + step], ... *)
Fixpoint authFailureRun (n : nat) (start step : Time) (instanceName : string)
    (m : Monitor) : Monitor :=
  match n with
  | O => m
  | S k =>
    authFailureRun k (start + step) step instanceName
      (pollPVENodes start false instanceName (NodesErr "401 Unauthorized" true) m).1
  end.

(** The instance is shown as failed: its only node is offline with
    connection health "error", it has no guests, storage, backups or
    snapshots, and its connection is marked unhealthy. *)
Definition lockedOut (instanceName : string) (m : Monitor) : Prop :=
  (exists node,
      ofInstance Models.Node.Instance instanceName (Nodes (state m)) = [node]
      /\ Models.Node.Status node = "offline"
      /\ Models.Node.ConnectionHealth node = "error")
  /\ ofInstance Models.Guest.Instance instanceName (VMs (state m)) = []
  /\ ofInstance Models.Guest.Instance instanceName (Containers (state m)) = []
  /\ ofInstance Models.Storage.Instance instanceName (Storage (state m)) = []
  /\ ofInstance bt_Instance instanceName (BackupTasks (state m)) = []
  /\ ofInstance sb_Instance instanceName (StorageBackups (state m)) = []
  /\ ofInstance gs_Instance instanceName (GuestSnapshots (state m)) = []
  /\ ConnectionHealth (state m) !! instanceName = Some false.

(** A monitor of the instances [badtoken] and [lab], with guests of both in
    the store. *)
Definition guestOf (instanceName : string) (vmid : Z) : Models.Guest.t :=
  {| Models.Guest.ID := instanceName +:+ "-n1-" +:+ pretty vmid;
     Models.Guest.VMID := vmid;
     Models.Guest.Name := "guest";
     Models.Guest.Node := "n1";
     Models.Guest.Instance := instanceName;
     Models.Guest.Status := "running";
     Models.Guest.Type_ := "qemu";
     Models.Guest.CPU := 0;
     Models.Guest.CPUs := 2;
     Models.Guest.Memory := Models.Memory.zero;
     Models.Guest.Disk := Models.Disk.zero;
     Models.Guest.NetworkIn := 0;
     Models.Guest.NetworkOut := 0;
     Models.Guest.DiskRead := 0;
     Models.Guest.DiskWrite := 0;
     Models.Guest.Uptime := 0;
     Models.Guest.Template := false;
     Models.Guest.Tags := [];
     Models.Guest.LastSeen := 0 |}.

Definition twoInstances : Monitor :=
  {| PVEInstances := [mkPVEInstance "badtoken" "https://10.0.0.1:8006";
                      mkPVEInstance "lab" "https://10.0.0.2:8006"];
     state :=
       UpdateContainersForInstance "badtoken" [guestOf "badtoken" 200]
         (UpdateVMsForInstance "lab" [guestOf "lab" 101]
            (UpdateVMsForInstance "badtoken" [guestOf "badtoken" 100] emptyState));
     metricsHistory := History.NewMetricsHistory 1000 (24 * Hour);
     alertManager := Alerts.newManager Alerts.defaultConfig;
     authFailures := ∅;
     lastAuthAttempt := ∅ |}.

(** Whether the cluster's configuration marks the storage of this name
    shared. *)
Definition markedShared (configs : gmap string PStorage.t) (name : string) : bool :=
  match configs !! name with
  | Some clusterConfig => PStorage.Shared clusterConfig =? 1
  | None => false
  end.

(** No hours are quiet, and a rate tracker without memory that returns
    zero rates. *)
Definition neverQuiet (cfg : Alerts.AlertConfig) (now : Time) : bool := false.

Definition zeroRates (guestID : string) (current : IOMetrics) (tracker : unit)
    : Rates * unit :=
  (mkRates 0 0 0 0, tracker).

(** A resource of the cluster. *)
Definition resourceOf (type node : string) (vmid template : Z) : ClusterResource.t :=
  {| ClusterResource.ID := type +:+ "/" +:+ pretty vmid;
     ClusterResource.Type_ := type;
     ClusterResource.Node := node;
     ClusterResource.Status := "running";
     ClusterResource.Name := "guest";
     ClusterResource.VMID := vmid;
     ClusterResource.CPU := 0;
     ClusterResource.MaxCPU := 2;
     ClusterResource.Mem := 1024;
     ClusterResource.MaxMem := 4096;
     ClusterResource.Disk := 0;
     ClusterResource.MaxDisk := 0;
     ClusterResource.NetIn := 0;
     ClusterResource.NetOut := 0;
     ClusterResource.DiskRead := 0;
     ClusterResource.DiskWrite := 0;
     ClusterResource.Uptime := 60;
     ClusterResource.Template := template;
     ClusterResource.Tags := "" |}.

(** A storage as the cluster configures it or as a node reports it. *)
Definition storageOf (name : string) (shared : Z) : PStorage.t :=
  {| PStorage.Storage := name;
     PStorage.Type_ := "dir";
     PStorage.Content := "images,backup";
     PStorage.Active := 1;
     PStorage.Enabled := 1;
     PStorage.Shared := shared;
     PStorage.Total := 1000;
     PStorage.Used := 250;
     PStorage.Available := 750 |}.

(** A node of the cluster, online. *)
Definition nodeOf (name : string) : PNode.t :=
  {| PNode.Node := name;
     PNode.Status := "online";
     PNode.CPU := 0;
     PNode.MaxCPU := 4;
     PNode.Mem := 0;
     PNode.MaxMem := 0;
     PNode.Disk := 0;
     PNode.MaxDisk := 0;
     PNode.Uptime := 60 |}.

(** The nodes [n1], [n2], [n3] report the shared storage [ceph-rbd] and
    their storage [local] each. *)
Definition cephCluster : list PStorage.t :=
  [storageOf "ceph-rbd" 1; storageOf "local" 0].

Definition cephReports : list (PNode.t * option (list PStorage.t)) :=
  [(nodeOf "n1", Some [storageOf "ceph-rbd" 1; storageOf "local" 0]);
   (nodeOf "n2", Some [storageOf "local" 0; storageOf "ceph-rbd" 1]);
   (nodeOf "n3", Some [storageOf "ceph-rbd" 1; storageOf "local" 0])].


(** An instance that is named [shared].  Its node [n1] reports its own
    storage [local] and a storage [n1-local] that the cluster's
    configuration marks shared. *)
Definition sharedInstance : Monitor :=
  {| PVEInstances := [mkPVEInstance "shared" "https://10.0.0.3:8006"];
     state := emptyState;
     metricsHistory := History.NewMetricsHistory 1000 (24 * Hour);
     alertManager := Alerts.newManager Alerts.defaultConfig;
     authFailures := ∅;
     lastAuthAttempt := ∅ |}.

Definition collidingCluster : list PStorage.t :=
  [storageOf "n1-local" 1; storageOf "local" 0].

Definition collidingReports : list (PNode.t * option (list PStorage.t)) :=
  [(nodeOf "n1", Some [storageOf "local" 0; storageOf "n1-local" 1])].

End Monitoring.

(** ** Acknowledging and cleaning up alerts ([internal/alerts/alerts.go]) *)

Module AlertsAdmin.
Import Go Alerts.

(** [alert.Acknowledged = true; alert.AckTime = &now; alert.AckUser = user] *)
Definition setAcknowledged (now : Time) (user : string) (a : Alert) : Alert :=
  mkAlert (ID a) (Type_ a) (Level a) (ResourceID a) (ResourceName a) (Node a)
    (Instance a) (Message a) (Value a) (Threshold a) (StartTime a) (LastSeen a)
    true (Some now) user (Metadata a) (LastEscalation a) (EscalationTimes a).

(** [AcknowledgeAlert] acknowledges an alert; the error is [None] for
    [nil]. *)
Definition AcknowledgeAlert (now : Time) (alertID user : string) (m : Manager)
    : option string * Manager :=
  match activeAlerts m !! alertID with
  | None => (Some ("alert not found: " +:+ alertID), m)
  | Some p => (None, with_heap (alter (setAcknowledged now user) p) m)
  end.

(** [ClearAlert] manually clears an alert. *)
Definition ClearAlert (alertID : string) (m : Manager) : Manager :=
  let m1 := with_activeAlerts (delete alertID) m in
  if onResolved m1 then emit [OnResolved alertID] m1 else m1.

(** The test of the first loop of [Cleanup], for the alert that [p] points
    to. *)
Definition ackExpired (now : Time) (maxAge : Duration) (m : Manager) (p : AlertPtr) : bool :=
  match heap m !! p with
  | Some alert =>
    Acknowledged alert
    && match AckTime alert with
       | Some ackTime => maxAge <? Sub now ackTime
       | None => false
       end
  | None => false
  end.

(** The test of the second loop. *)
Definition recentExpired (now : Time) (suppressionWindow : Duration) (m : Manager)
    (p : AlertPtr) : bool :=
  match heap m !! p with
  | Some alert => suppressionWindow <? Sub now (StartTime alert)
  | None => false
  end.

(** [Cleanup] removes old acknowledged alerts and cleans up tracking
    maps. *)
Definition Cleanup (now : Time) (maxAge : Duration) (m : Manager) : Manager :=
  let m1 :=
    with_activeAlerts
      (filter (fun entry : string * nat => ackExpired now maxAge m entry.2 = false)) m in
  let suppressionWindow :=
    if scale (SuppressionWindow (config m1)) Minute =? 0 then 5 * Minute
    else scale (SuppressionWindow (config m1)) Minute in
  let m2 :=
    with_recentAlerts
      (filter (fun entry : string * nat =>
                 recentExpired now suppressionWindow m1 entry.2 = false)) m1 in
  with_suppressedUntil
    (filter (fun entry : string * Z => Go.After now entry.2 = false)) m2.

(** *** Restoring the active alerts *)

(** Whether [LoadActiveAlerts] skips an alert read from the file: it
    started more than 24 hours ago, or it was acknowledged more than an hour
    ago. *)
Definition skippedOnRestore (now : Time) (alert : Alert) : bool :=
  (24 * Hour <? Sub now (StartTime alert))
  || (Acknowledged alert
      && match AckTime alert with
         | Some ackTime => Hour <? Sub now ackTime
         | None => false
         end).

(** The body of the loop of [LoadActiveAlerts] for one alert read from the
    file, which is an object of its own. *)
Definition restoreAlert (now : Time) (m : Manager) (alert : Alert) : Manager :=
  if skippedOnRestore now alert then m
  else
    let p := newPtr m in
    with_activeAlerts (insert (ID alert) p) (with_heap (insert p alert) m).

(** [LoadActiveAlerts] restores active alerts from disk; [alerts] is the
    list read from the file. *)
Definition restoreAlerts (now : Time) (alerts : list Alert) (m : Manager) : Manager :=
  foldl (restoreAlert now) m alerts.

(** *** Notions used to state the properties *)

(** No alert id has more notifications on record than the hourly limit. *)
Definition rateBounded (m : Manager) : Prop :=
  forall alertID times,
    alertRateLimit m !! alertID = Some times ->
    Z.of_nat (length times) <= MaxAlertsHour (Schedule (config m)).

(** Every active alert is an object of the store that carries the id it is
    filed under. *)
Definition wellFormed (m : Manager) : Prop :=
  forall alertID p,
    activeAlerts m !! alertID = Some p ->
    exists alert, heap m !! p = Some alert /\ ID alert = alertID.

(** Nothing is left to escalate for the alert at instant [now]: it is
    acknowledged, or no level of the ladder fires. *)
Definition settled (now : Time) (levels : list EscalationLevel) (a : Alert) : Prop :=
  Acknowledged a = true \/ escalateLevels now 0 levels a = (a, []).

(** A manager with the escalation ladder switched on and an alert on the
    memory of guest 100 that was raised at t = 0. *)
Definition oneAlert : Manager :=
  checkMetric 0 false "lab-px1-100" "guest" "px1" "lab" "VM" "memory" 91
    (Some (mkThreshold 85 80)) (newManager escalatingConfig).

End AlertsAdmin.

(** ** The thresholds of a guest ([getGuestThresholds]) *)

Module GuestThresholds.
Import Go Alerts.

(** The seven metrics that have a threshold. *)
Inductive Metric : Type :=
| MCPU | MMemory | MDisk | MDiskRead | MDiskWrite | MNetworkIn | MNetworkOut.

(** The threshold of a metric in a [ThresholdConfig]. *)
Definition thresholdOf (metric : Metric) (t : ThresholdConfig) : option HysteresisThreshold :=
  match metric with
  | MCPU => CPU t
  | MMemory => Memory t
  | MDisk => Disk t
  | MDiskRead => DiskRead t
  | MDiskWrite => DiskWrite t
  | MNetworkIn => NetworkIn t
  | MNetworkOut => NetworkOut t
  end.

(** A [ThresholdConfig] as a custom rule or an override holds it: for each
    metric the threshold with hysteresis and the legacy threshold, each of
    them optional. *)
Record LayerThresholds := mkLayer {
  modern : Metric -> option HysteresisThreshold;
  legacy : Metric -> option float
}.

(** [ensureHysteresisThreshold] ensures a threshold has hysteresis
    configured.  The source writes the clear level into the object that the
    pointer refers to; the value returned here is that object afterwards. *)
Definition ensureHysteresisThreshold (threshold : option HysteresisThreshold)
    : option HysteresisThreshold :=
  match threshold with
  | None => None
  | Some th =>
    if F64.le (Clear th) 0%float
    then Some (mkThreshold (Trigger th) (PrimFloat.sub (Trigger th) 5%float))
    else Some th
  end.

(** [convertLegacyThreshold] converts a legacy float64 threshold to
    HysteresisThreshold. *)
Definition convertLegacyThreshold (hysteresisMargin : float) (legacyValue : option float)
    : option HysteresisThreshold :=
  match legacyValue with
  | None => None
  | Some value =>
    if F64.le value 0%float then None
    else
      let margin := if F64.le hysteresisMargin 0%float then 5%float else hysteresisMargin in
      Some (mkThreshold value (PrimFloat.sub value margin))
  end.

Section Rules.

(** A filter condition and its evaluation against a guest are taken as
    given. *)
Variable FilterCondition : Type.
Variable evaluateFilterCondition : Guest -> FilterCondition -> bool.

Record FilterStack := mkFilterStack {
  Filters : list FilterCondition;
  LogicalOperator : string
}.

(** Of [CustomAlertRule] the fields that [getGuestThresholds] reads. *)
Record CustomAlertRule := mkRule {
  rule_Name : string;
  FilterConditions : FilterStack;
  Thresholds : LayerThresholds;
  Priority : Z;
  rule_Enabled : bool
}.

(** [evaluateFilterStack] evaluates a filter stack against a guest. *)
Definition evaluateFilterStack (guest : Guest) (stack : FilterStack) : bool :=
  match Filters stack with
  | [] => true
  | filters =>
    let results := map (evaluateFilterCondition guest) filters in
    if String.eqb (LogicalOperator stack) "AND"
    then forallb (fun result => result) results
    else existsb (fun result => result) results
  end.

(** The loop over the custom rules: the rule that applies so far and the
    highest priority seen. *)
Definition pickRule (guest : Guest) (acc : option CustomAlertRule * Z)
    (rule : CustomAlertRule) : option CustomAlertRule * Z :=
  if negb (rule_Enabled rule) then acc
  else if evaluateFilterStack guest (FilterConditions rule) then
    if acc.2 <? Priority rule then (Some rule, Priority rule) else acc
  else acc.

Definition applicableRule (guest : Guest) (rules : list CustomAlertRule)
    : option CustomAlertRule :=
  (foldl (pickRule guest) (None, -1) rules).1.

(** One of the seven [if ... else if ...] statements that lay the
    thresholds of a rule or an override over the current ones. *)
Definition layOver (hysteresisMargin : float) (layer : LayerThresholds) (metric : Metric)
    (current : option HysteresisThreshold) : option HysteresisThreshold :=
  match modern layer metric with
  | Some th => ensureHysteresisThreshold (Some th)
  | None =>
    match legacy layer metric with
    | Some value => convertLegacyThreshold hysteresisMargin (Some value)
    | None => current
    end
  end.

Definition layOverAll (hysteresisMargin : float) (layer : LayerThresholds)
    (t : ThresholdConfig) : ThresholdConfig :=
  mkThresholds (layOver hysteresisMargin layer MCPU (CPU t))
    (layOver hysteresisMargin layer MMemory (Memory t))
    (layOver hysteresisMargin layer MDisk (Disk t))
    (layOver hysteresisMargin layer MDiskRead (DiskRead t))
    (layOver hysteresisMargin layer MDiskWrite (DiskWrite t))
    (layOver hysteresisMargin layer MNetworkIn (NetworkIn t))
    (layOver hysteresisMargin layer MNetworkOut (NetworkOut t)).

(** [getGuestThresholds] returns the appropriate thresholds for a guest.
    Priority: guest-specific overrides > custom rules (by priority) > global
    defaults.  [rules] and [overrides] are [config.CustomRules] and
    [config.Overrides]. *)
Definition getGuestThresholds (cfg : AlertConfig) (rules : list CustomAlertRule)
    (overrides : gmap string LayerThresholds) (guest : Guest) (guestID : string)
    : ThresholdConfig :=
  let thresholds := GuestDefaults cfg in
  let thresholds :=
    match applicableRule guest rules with
    | Some rule => layOverAll (HysteresisMargin cfg) (Thresholds rule) thresholds
    | None => thresholds
    end in
  match overrides !! guestID with
  | Some override => layOverAll (HysteresisMargin cfg) override thresholds
  | None => thresholds
  end.

(** The rule is switched on and its filters match the guest. *)
Definition applies (guest : Guest) (rule : CustomAlertRule) : bool :=
  rule_Enabled rule && evaluateFilterStack guest (FilterConditions rule).

End Rules.

Arguments Filters {FilterCondition}.
Arguments LogicalOperator {FilterCondition}.
Arguments mkFilterStack {FilterCondition}.
Arguments mkRule {FilterCondition}.
Arguments rule_Name {FilterCondition}.
Arguments FilterConditions {FilterCondition}.
Arguments Thresholds {FilterCondition}.
Arguments Priority {FilterCondition}.
Arguments rule_Enabled {FilterCondition}.
Arguments evaluateFilterStack {FilterCondition}.
Arguments pickRule {FilterCondition}.
Arguments applicableRule {FilterCondition}.
Arguments getGuestThresholds {FilterCondition}.
Arguments applies {FilterCondition}.

(** A layer that sets nothing, and one that sets the memory threshold. *)
Definition noLayer : LayerThresholds := mkLayer (fun _ => None) (fun _ => None).

Definition memoryLayer (trigger clear : float) : LayerThresholds :=
  mkLayer (fun metric => match metric with
                         | MMemory => Some (mkThreshold trigger clear)
                         | _ => None
                         end)
    (fun _ => None).

(** Two rules that match every guest by a filter on the node, the second
    with the higher priority, and a rule with a negative priority. *)
Definition onNode (guest : Guest) (nodeName : string) : bool :=
  String.eqb (Models.Guest.Node (guestData guest)) nodeName.

Definition exampleRules : list (CustomAlertRule string) :=
  [mkRule "relaxed" (mkFilterStack ["px1"] "AND") (memoryLayer 95 90) 1 true;
   mkRule "strict" (mkFilterStack ["px1"; "px2"] "OR") (memoryLayer 70 0) 5 true;
   mkRule "ignored" (mkFilterStack [] "AND") (memoryLayer 50 45) (-1) true].

End GuestThresholds.

(** ** Notions for the health bookkeeping of the cluster client *)

Module ClusterHealth.
Import Go Cluster.

(** Whether an endpoint answers during attempt [i]: [NewClient] and the
    connectivity test [GetNodes] both succeed. *)
Definition answers (w : World) (i : nat) (endpoint : string) : bool :=
  match newClient w i endpoint, getNodes w i endpoint with
  | None, None => true
  | _, _ => false
  end.

(** Every endpoint is marked unhealthy and was checked less than 30 seconds
    before [now]. *)
Definition allCoolingDown (now : Time) (cc : ClusterClient) : Prop :=
  forall endpoint healthy,
    nodeHealth cc !! endpoint = Some healthy ->
    healthy = false
    /\ exists lastCheck,
        lastHealthCheck cc !! endpoint = Some lastCheck
        /\ Sub now lastCheck < 30 * Second.

(** A cluster of two endpoints, both marked unhealthy at t = 90 s and
    t = 95 s. *)
Definition twoDown : ClusterClient :=
  {| name := "lab";
     clients := {[ "e1"; "e2" ]};
     endpoints := ["e1"; "e2"];
     nodeHealth := {[ "e1" := false; "e2" := false ]};
     lastHealthCheck := {[ "e1" := 90 * Second; "e2" := 95 * Second ]} |}.

End ClusterHealth.

(** ** Queries and clean-up of the metrics history
    ([internal/monitoring/metrics_history.go]) *)

Module HistoryQueries.
Import Go History.

(** The loop "Filter by duration": the points after the cutoff, in their
    order. *)
Definition filterByTime (cutoff : Time) (data : list MetricPoint) : list MetricPoint :=
  List.filter (fun point => Go.After (Timestamp point) cutoff) data.

(** [GetGuestMetrics] returns historical metrics for a guest. *)
Definition GetGuestMetrics (now : Time) (guestID metricType : string) (duration : Duration)
    (mh : MetricsHistory) : list MetricPoint :=
  match guestMetrics mh !! guestID with
  | None => []
  | Some metrics =>
    let cutoff := cutoffTime now duration in
    match guestCase metricType with
    | Some fld => filterByTime cutoff (getGuestField fld metrics)
    | None => []
    end
  end.

(** [GetNodeMetrics] returns historical metrics for a node. *)
Definition GetNodeMetrics (now : Time) (nodeID metricType : string) (duration : Duration)
    (mh : MetricsHistory) : list MetricPoint :=
  match nodeMetrics mh !! nodeID with
  | None => []
  | Some metrics =>
    let cutoff := cutoffTime now duration in
    match nodeCase metricType with
    | Some fld => filterByTime cutoff (getGuestField fld metrics)
    | None => []
    end
  end.

(** [GetAllGuestMetrics] returns all metrics for a guest within a
    duration. *)
Definition GetAllGuestMetrics (now : Time) (guestID : string) (duration : Duration)
    (mh : MetricsHistory) : gmap string (list MetricPoint) :=
  let cutoff := cutoffTime now duration in
  match guestMetrics mh !! guestID with
  | None => ∅
  | Some metrics =>
    <["netout" := filterByTime cutoff (NetworkOut metrics)]>
      (<["netin" := filterByTime cutoff (NetworkIn metrics)]>
         (<["diskwrite" := filterByTime cutoff (DiskWrite metrics)]>
            (<["diskread" := filterByTime cutoff (DiskRead metrics)]>
               (<["disk" := filterByTime cutoff (Disk metrics)]>
                  (<["memory" := filterByTime cutoff (Memory metrics)]>
                     (<["cpu" := filterByTime cutoff (CPU metrics)]> ∅))))))
  end.

(** [GetAllStorageMetrics] returns all metrics for storage within a
    duration. *)
Definition GetAllStorageMetrics (now : Time) (storageID : string) (duration : Duration)
    (mh : MetricsHistory) : gmap string (list MetricPoint) :=
  let cutoff := cutoffTime now duration in
  match storageMetrics mh !! storageID with
  | None => ∅
  | Some metrics =>
    <["avail" := filterByTime cutoff (Avail metrics)]>
      (<["total" := filterByTime cutoff (Total metrics)]>
         (<["used" := filterByTime cutoff (Used metrics)]>
            (<["usage" := filterByTime cutoff (Usage metrics)]> ∅)))
  end.

(** [cleanupMetrics] removes points older than cutoff time. *)
Definition cleanupMetrics (metrics : list MetricPoint) (cutoff : Time) : list MetricPoint :=
  let startIdx := firstAfter cutoff 0 metrics in
  if (0 <? startIdx)%nat then drop startIdx metrics else metrics.

(** The bodies of the three loops of [Cleanup]. *)
Definition cleanupGuest (cutoff : Time) (metrics : GuestMetrics) : GuestMetrics :=
  mkGuestMetrics (cleanupMetrics (CPU metrics) cutoff) (cleanupMetrics (Memory metrics) cutoff)
    (cleanupMetrics (Disk metrics) cutoff) (cleanupMetrics (DiskRead metrics) cutoff)
    (cleanupMetrics (DiskWrite metrics) cutoff) (cleanupMetrics (NetworkIn metrics) cutoff)
    (cleanupMetrics (NetworkOut metrics) cutoff).

Definition cleanupNode (cutoff : Time) (metrics : GuestMetrics) : GuestMetrics :=
  mkGuestMetrics (cleanupMetrics (CPU metrics) cutoff) (cleanupMetrics (Memory metrics) cutoff)
    (cleanupMetrics (Disk metrics) cutoff) (DiskRead metrics) (DiskWrite metrics)
    (NetworkIn metrics) (NetworkOut metrics).

Definition cleanupStorage (cutoff : Time) (metrics : StorageMetrics) : StorageMetrics :=
  mkStorageMetrics (cleanupMetrics (Usage metrics) cutoff)
    (cleanupMetrics (Used metrics) cutoff) (cleanupMetrics (Total metrics) cutoff)
    (cleanupMetrics (Avail metrics) cutoff).

(** [Cleanup] removes old data points beyond retention time. *)
Definition Cleanup (now : Time) (mh : MetricsHistory) : MetricsHistory :=
  let cutoff := cutoffTime now (retentionTime mh) in
  mkHistory (cleanupGuest cutoff <$> guestMetrics mh) (cleanupNode cutoff <$> nodeMetrics mh)
    (cleanupStorage cutoff <$> storageMetrics mh) (maxDataPoints mh) (retentionTime mh).

(** *** Notions used to state the properties *)

(** The point is inside the window that starts at [cutoff]. *)
Definition inWindow (cutoff : Time) (point : MetricPoint) : Prop :=
  cutoff < Timestamp point.

(** Whether the history holds an entry for the resource. *)
Definition known (kind : Kind) (id : string) (mh : MetricsHistory) : bool :=
  match kind with
  | OfGuest => bool_decide (is_Some (guestMetrics mh !! id))
  | OfNode => bool_decide (is_Some (nodeMetrics mh !! id))
  | OfStorage => bool_decide (is_Some (storageMetrics mh !! id))
  end.

(** A series with an old point behind a newer one, and one whose points are
    all old at t = 200 s with a retention of one minute. *)
Definition staleHistory : MetricsHistory :=
  applyAll
    [AddGuest (10 * Second) "lab-px1-100" "cpu" 10 (10 * Second);
     AddGuest (20 * Second) "lab-px1-100" "cpu" 20 (20 * Second);
     AddStorage (150 * Second) "lab-n1-local" "usage" 40 (150 * Second);
     AddStorage (160 * Second) "lab-n1-local" "usage" 41 (160 * Second)]
    (NewMetricsHistory 1000 (60 * Second)).

(** What a query returns for a resource of [kind]; for a storage the entry
    of the map that [GetAllStorageMetrics] returns, empty when there is
    none. *)
Definition queryOf (kind : Kind) (now : Time) (id metricType : string) (duration : Duration)
    (mh : MetricsHistory) : list MetricPoint :=
  match kind with
  | OfGuest => GetGuestMetrics now id metricType duration mh
  | OfNode => GetNodeMetrics now id metricType duration mh
  | OfStorage => default [] (GetAllStorageMetrics now id duration mh !! metricType)
  end.

End HistoryQueries.

(** ** Runs of the monitor, and notions for its helpers *)

Module MonitoringRuns.
Import Go Monitoring.

(** Polls of one PVE instance, one after the other: each with the instant
    of the poll and the answer of [client.GetNodes]. *)
Definition pollRun (instanceName : string) (polls : list (Time * GetNodesResult))
    (m : Monitor) : Monitor :=
  foldl (fun acc (poll : Time * GetNodesResult) =>
           (pollPVENodes poll.1 false instanceName poll.2 acc).1) m polls.

Definition isSuccess (result : GetNodesResult) : bool :=
  match result with NodesOK _ => true | NodesErr _ _ => false end.

Definition isAuthFailure (result : GetNodesResult) : bool :=
  match result with NodesErr _ isAuthError => isAuthError | NodesOK _ => false end.

(** The answers that came after the last successful one. *)
Fixpoint afterLastSuccess (results : list GetNodesResult) : list GetNodesResult :=
  match results with
  | [] => []
  | result :: rest =>
    if existsb isSuccess results then afterLastSuccess rest else results
  end.

(** The number of authentication failures since the last success. *)
Definition authFailuresSinceSuccess (results : list GetNodesResult) : nat :=
  length (List.filter isAuthFailure (afterLastSuccess results)).

(** The instance that a call on the store names; the update of the list of
    PBS instances names none. *)
Definition callTarget (call : StoreCall) : option string :=
  match call with
  | CallUpdateNodes name _ | CallUpdateVMs name _ | CallUpdateContainers name _
  | CallUpdateStorage name _ | CallUpdateBackupTasks name _
  | CallUpdateStorageBackups name _ | CallUpdateGuestSnapshots name _
  | CallUpdatePBSBackups name _ | CallSetConnectionHealth name _ => Some name
  | CallUpdatePBSInstances _ => None
  end.

(** No byte of [s] is [sep]. *)
Fixpoint free (sep : Ascii.ascii) (s : string) : bool :=
  match s with
  | EmptyString => true
  | String c rest => negb (Ascii.eqb c sep) && free sep rest
  end.

(** Each string is at most the next one, in the order of [sort.Strings]. *)
Definition ascending (parts : list string) : Prop :=
  Sorted (fun a b => String.leb a b = true) parts.

(** A monitor with the PBS instances [vault] and [archive] in the store and
    four authentication failures of [vault] on record. *)
Definition pbsMonitor : Monitor :=
  {| PVEInstances := PVEInstances twoInstances;
     state :=
       UpdatePBSBackups "archive" [mkPBSBackup "b2" "archive"]
         (UpdatePBSBackups "vault" [mkPBSBackup "b1" "vault"]
            (UpdatePBSInstances
               [mkPBSInstance "vault" "https://10.0.0.9:8007";
                mkPBSInstance "archive" "https://10.0.0.8:8007"]
               (state twoInstances)));
     metricsHistory := metricsHistory twoInstances;
     alertManager := alertManager twoInstances;
     authFailures := {[ "pbs-vault" := 4 ]};
     lastAuthAttempt := {[ "pbs-vault" := 40 * Second ]} |}.

(** The four points that [pollStorageWithNodes] records for a storage. *)
Definition recordStorageMetrics (now : Time) (modelStorage : Models.Storage.t)
    (mh : History.MetricsHistory) : History.MetricsHistory :=
  let id := Models.Storage.ID modelStorage in
  History.AddStorageMetric now id "avail"
    (Alerts.float64_of_int64 (Models.Storage.Free modelStorage)) now
    (History.AddStorageMetric now id "total"
       (Alerts.float64_of_int64 (Models.Storage.Total modelStorage)) now
       (History.AddStorageMetric now id "used"
          (Alerts.float64_of_int64 (Models.Storage.Used modelStorage)) now
          (History.AddStorageMetric now id "usage"
             (Models.Storage.Usage modelStorage) now mh))).

(** The latest point of a series of a storage. *)
Definition latest (id metricType : string) (mh : History.MetricsHistory)
    : option History.MetricPoint :=
  last (History.seriesAt History.OfStorage id metricType mh).

End MonitoringRuns.
(** * Properties

    The lemmas below are stated about the definitions above. *)

(** ** Arithmetic of instants and of [float64] *)

Module GoFacts.
Import Go.

Lemma wrap64_small z : minInt64 <= z <= maxInt64 -> wrap64 z = z.
Proof.
  unfold wrap64, minInt64, maxInt64. intros Hz.
  rewrite Z.mod_small; lia.
Qed.

Lemma Sub_ge (now t d : Z) :
  d <= maxInt64 -> minInt64 < d -> (d <=? Sub now t) = (d <=? now - t).
Proof.
  unfold Sub. intros Hd Hd'.
  destruct (Z.ltb_spec (now - t) minInt64);
    [| destruct (Z.ltb_spec maxInt64 (now - t))];
    repeat match goal with |- context [?a <=? ?b] => destruct (Z.leb_spec a b) end;
    lia.
Qed.

Lemma SFcompare_Lt_Gt x y :
  SFcompare x y = Some Lt -> SFcompare y x = Some Gt.
Proof.
  destruct x as [[]|[]| |[] mx ex], y as [[]|[]| |[] my ey];
    simpl; try congruence.
  - rewrite (Z.compare_antisym ex ey).
    destruct (ex ?= ey)%Z eqn:He; simpl; try congruence.
    pose proof (Pos.compare_cont_antisym mx my Eq) as E; simpl in E.
    rewrite <- E. destruct (Pos.compare_cont Eq mx my); simpl; congruence.
  - rewrite (Z.compare_antisym ex ey).
    destruct (ex ?= ey)%Z eqn:He; simpl; try congruence.
    pose proof (Pos.compare_cont_antisym mx my Eq) as E; simpl in E.
    rewrite <- E. destruct (Pos.compare_cont Eq mx my); simpl; congruence.
Qed.

(** [x < y] excludes [x >= y]; the converse fails for NaN. *)
Lemma lt_not_ge x y : F64.lt x y = true -> F64.ge x y = false.
Proof.
  unfold F64.lt, F64.ge. rewrite ltb_spec, leb_spec. unfold SFltb, SFleb.
  destruct (SFcompare (Prim2SF x) (Prim2SF y)) as [[]|] eqn:Hc;
    try discriminate.
  intros _. now rewrite (SFcompare_Lt_Gt _ _ Hc).
Qed.

End GoFacts.

(** ** The alert engine *)

Module AlertsFacts.
Import Go GoFacts Alerts.

Lemma checkRateLimit_frame now alertID m :
  let m' := (checkRateLimit now alertID m).2 in
  config m' = config m /\ heap m' = heap m /\ activeAlerts m' = activeAlerts m
  /\ recentAlerts m' = recentAlerts m /\ suppressedUntil m' = suppressedUntil m
  /\ recentlyResolved m' = recentlyResolved m /\ pendingAlerts m' = pendingAlerts m
  /\ nodeOfflineCount m' = nodeOfflineCount m /\ onAlert m' = onAlert m
  /\ onResolved m' = onResolved m /\ onEscalate m' = onEscalate m
  /\ events m' = events m.
Proof.
  unfold checkRateLimit.
  destruct (MaxAlertsHour (Schedule (config m)) <=? 0); [simpl; tauto|].
  match goal with |- context [if ?b then _ else _] => destruct b end;
    simpl; tauto.
Qed.

Lemma positive_trigger th : F64.gt (Trigger th) 0%float = true -> F64.le (Trigger th) 0%float = false.
Proof. intros H. apply (lt_not_ge 0%float (Trigger th)). exact H. Qed.

Lemma isRecentDuplicate_pending now alertID value f m :
  isRecentDuplicate now alertID value (with_pendingAlerts f m)
  = isRecentDuplicate now alertID value m.
Proof. reflexivity. Qed.

(** An alert raised by [raiseAlert] is a fresh object that both
    [activeAlerts] and [recentAlerts] point to. *)
Lemma raiseAlert_creates now quiet rid rname node inst rtype mtype value th m :
  isRecentDuplicate now (metricAlertID rid mtype) value m = false ->
  let m' := raiseAlert now quiet rid rname node inst rtype mtype value th m in
  let alert := newMetricAlert now rid rname node inst rtype mtype value th in
  heap m !! newPtr m = None
  /\ heap m' = <[newPtr m := alert]> (heap m)
  /\ activeAlerts m' = <[metricAlertID rid mtype := newPtr m]> (activeAlerts m)
  /\ recentAlerts m' = <[metricAlertID rid mtype := newPtr m]> (recentAlerts m)
  /\ pendingAlerts m' = pendingAlerts m
  /\ recentlyResolved m' = recentlyResolved m
  /\ activeAlert m' (metricAlertID rid mtype) = Some alert.
Proof.
  intros Hdup. cbv zeta. unfold raiseAlert. rewrite Hdup.
  set (alert := newMetricAlert _ _ _ _ _ _ _ _ _).
  set (m1 := emit _ _).
  pose proof (checkRateLimit_frame now (metricAlertID rid mtype) m1) as Hf.
  destruct (checkRateLimit now (metricAlertID rid mtype) m1) as [allowed m2].
  cbv zeta in Hf. simpl in Hf.
  destruct Hf as (_ & Hh & Ha & Hr & _ & Hrr & Hp & _).
  assert (Hfresh : heap m !! newPtr m = None).
  { apply not_elem_of_dom. unfold newPtr. exact (is_fresh (dom (heap m))). }
  assert (Hgoal : forall m3, heap m3 = heap m2 -> activeAlerts m3 = activeAlerts m2 ->
            recentAlerts m3 = recentAlerts m2 -> pendingAlerts m3 = pendingAlerts m2 ->
            recentlyResolved m3 = recentlyResolved m2 ->
            heap m !! newPtr m = None
            /\ heap m3 = <[newPtr m := alert]> (heap m)
            /\ activeAlerts m3 = <[metricAlertID rid mtype := newPtr m]> (activeAlerts m)
            /\ recentAlerts m3 = <[metricAlertID rid mtype := newPtr m]> (recentAlerts m)
            /\ pendingAlerts m3 = pendingAlerts m
            /\ recentlyResolved m3 = recentlyResolved m
            /\ activeAlert m3 (metricAlertID rid mtype) = Some alert).
  { intros m3 E1 E2 E3 E4 E5. unfold activeAlert.
    rewrite E1, E2, E3, E4, E5, Hh, Ha, Hr, Hp, Hrr. subst m1. simpl.
    repeat split; try done.
    rewrite lookup_insert_eq. simpl. apply lookup_insert_eq. }
  destruct (negb allowed); [by apply Hgoal|].
  destruct (quiet && _); [by apply Hgoal|].
  destruct (onAlert m2); by apply Hgoal.
Qed.

Lemma checkMetric_raise now quiet rid rname node inst rtype mtype value th m :
  F64.gt (Trigger th) 0%float = true ->
  isSuppressed now (metricAlertID rid mtype) m = false ->
  F64.ge value (Trigger th) = true ->
  activeAlerts m !! metricAlertID rid mtype = None ->
  timeThresholdWaits now (metricAlertID rid mtype) m = false ->
  isRecentDuplicate now (metricAlertID rid mtype) value m = false ->
  let m' := checkMetric now quiet rid rname node inst rtype mtype value (Some th) m in
  activeAlert m' (metricAlertID rid mtype)
  = Some (newMetricAlert now rid rname node inst rtype mtype value th)
  /\ (0 < TimeThreshold (config m) -> pendingAlerts m' !! metricAlertID rid mtype = None).
Proof.
  intros Hpos Hsup Hge Hnone Hwait Hdup. unfold checkMetric. cbv zeta.
  rewrite (positive_trigger _ Hpos), Hsup, Hge, Hnone.
  unfold timeThresholdWaits in Hwait.
  destruct (Z.ltb_spec 0 (TimeThreshold (config m))) as [Htt|Htt].
  - destruct (pendingAlerts m !! metricAlertID rid mtype) as [pt|] eqn:Hp;
      [|discriminate].
    apply negb_false_iff in Hwait. rewrite Hwait.
    rewrite <- (isRecentDuplicate_pending _ _ _ (delete (metricAlertID rid mtype))) in Hdup.
    destruct (raiseAlert_creates now quiet rid rname node inst rtype mtype value th _ Hdup)
      as (_ & _ & _ & _ & Hpend & _ & Hact).
    split; [exact Hact|]. intros _. rewrite Hpend. simpl. apply lookup_delete_eq.
  - destruct (raiseAlert_creates now quiet rid rname node inst rtype mtype value th _ Hdup)
      as (_ & _ & _ & _ & _ & _ & Hact).
    split; [exact Hact | lia].
Qed.

Lemma checkMetric_update now quiet rid rname node inst rtype mtype value th m p a :
  F64.gt (Trigger th) 0%float = true ->
  isSuppressed now (metricAlertID rid mtype) m = false ->
  F64.ge value (Trigger th) = true ->
  activeAlerts m !! metricAlertID rid mtype = Some p ->
  heap m !! p = Some a ->
  let m' := checkMetric now quiet rid rname node inst rtype mtype value (Some th) m in
  activeAlerts m' = activeAlerts m
  /\ heap m' = <[p := setSeen now value (levelFor value th) a]> (heap m)
  /\ events m' = events m.
Proof.
  intros Hpos Hsup Hge Hact Hp. unfold checkMetric. cbv zeta.
  rewrite (positive_trigger _ Hpos), Hsup, Hge, Hact. simpl.
  repeat split; try done.
  apply map_eq. intros q. rewrite lookup_alter. rewrite lookup_insert.
  case_decide; subst; [by rewrite Hp|done].
Qed.

Lemma checkMetric_below now quiet rid rname node inst rtype mtype value th m p :
  F64.gt (Trigger th) 0%float = true ->
  isSuppressed now (metricAlertID rid mtype) m = false ->
  F64.lt value (Trigger th) = true ->
  activeAlerts m !! metricAlertID rid mtype = Some p ->
  let alertID := metricAlertID rid mtype in
  let m' := checkMetric now quiet rid rname node inst rtype mtype value (Some th) m in
  if F64.le value (effectiveClear th)
  then activeAlerts m' = delete alertID (activeAlerts m)
       /\ recentlyResolved m' = <[alertID := mkResolved p now]> (recentlyResolved m)
       /\ events m' = events m ++ [GoSaveActiveAlerts; GoResolvedCleanup alertID]
                        ++ (if onResolved m then [OnResolved alertID] else [])
  else activeAlerts m' = activeAlerts m
       /\ recentlyResolved m' = recentlyResolved m
       /\ events m' = events m.
Proof.
  intros Hpos Hsup Hlt Hact. unfold checkMetric. cbv zeta.
  rewrite (positive_trigger _ Hpos), Hsup, (lt_not_ge _ _ Hlt), Hact.
  fold (effectiveClear th).
  destruct (F64.le value (effectiveClear th)); [|done].
  unfold resolveAlert. simpl.
  destruct (onResolved m); simpl; rewrite <- ?app_assoc; done.
Qed.

(** C1, as amended.  For a sample evaluated by [checkMetric] against a
    threshold with [Trigger > 0], for an alert id that is not inside a
    suppression window:
    - at [value >= Trigger] with no active alert, no time-threshold wait and
      no recent duplicate, an alert is created, [critical] when
      [value >= Trigger + 10] and [warning] otherwise;
    - at [value >= Trigger] with an active alert, its [LastSeen], [Value] and
      [Level] are updated;
    - at [value < Trigger] an active alert is resolved (removed from
      [activeAlerts], entered in [recentlyResolved], resolved callback
      called) exactly when [value <= clear], where a [Clear] that is [<= 0]
      counts as [Trigger];
    and with [Trigger = 80], [Clear = 75] the samples 70, 80, 82, 78, 76, 75,
    74 create the alert at the sample 80 and resolve it at the sample 75. *)
Theorem hysteresis_evaluation :
  (forall now quiet rid rname node inst rtype mtype value th m,
     let alertID := metricAlertID rid mtype in
     let m' := checkMetric now quiet rid rname node inst rtype mtype value (Some th) m in
     F64.gt (Trigger th) 0%float = true ->
     isSuppressed now alertID m = false ->
     (F64.ge value (Trigger th) = true ->
      activeAlerts m !! alertID = None ->
      timeThresholdWaits now alertID m = false ->
      isRecentDuplicate now alertID value m = false ->
      exists a, activeAlert m' alertID = Some a
        /\ ID a = rid +:+ "-" +:+ mtype /\ ResourceID a = rid /\ Type_ a = mtype
        /\ Value a = value /\ Threshold a = Trigger th /\ StartTime a = now
        /\ Level a = (if F64.ge value (PrimFloat.add (Trigger th) 10%float)
                      then AlertLevelCritical else AlertLevelWarning))
     /\ (forall p a,
          F64.ge value (Trigger th) = true ->
          activeAlerts m !! alertID = Some p -> heap m !! p = Some a ->
          exists a', activeAlert m' alertID = Some a'
            /\ LastSeen a' = now /\ Value a' = value
            /\ Level a' = (if F64.ge value (PrimFloat.add (Trigger th) 10%float)
                           then AlertLevelCritical else AlertLevelWarning)
            /\ ID a' = ID a /\ StartTime a' = StartTime a)
     /\ (forall p,
          F64.lt value (Trigger th) = true ->
          activeAlerts m !! alertID = Some p ->
          let clear := if F64.le (Clear th) 0%float then Trigger th else Clear th in
          if F64.le value clear
          then activeAlerts m' !! alertID = None
               /\ recentlyResolved m' !! alertID = Some (mkResolved p now)
               /\ (onResolved m = true -> last (events m') = Some (OnResolved alertID))
          else activeAlerts m' !! alertID = Some p
               /\ recentlyResolved m' = recentlyResolved m
               /\ events m' = events m))
  /\ map (isActive "lab-px1-100-cpu") boundaryRun
     = [false; true; true; true; true; false; false]
  /\ map (isRecentlyResolved "lab-px1-100-cpu") boundaryRun
     = [false; false; false; false; false; true; true]
  /\ map callbacks boundaryRun
     = [ []; [OnAlert 0%nat]; [OnAlert 0%nat]; [OnAlert 0%nat]; [OnAlert 0%nat];
         [OnAlert 0%nat; OnResolved "lab-px1-100-cpu"];
         [OnAlert 0%nat; OnResolved "lab-px1-100-cpu"] ].
Proof.
  split; [|by vm_compute].
  intros now quiet rid rname node inst rtype mtype value th m alertID m' Hpos Hsup.
  subst alertID m'. repeat split.
  - intros Hge Hnone Hwait Hdup.
    destruct (checkMetric_raise now quiet rid rname node inst rtype mtype value th m
                Hpos Hsup Hge Hnone Hwait Hdup) as [Hact _].
    eexists. split; [exact Hact|]. by repeat split.
  - intros p a Hge Hact Hp.
    destruct (checkMetric_update now quiet rid rname node inst rtype mtype value th m p a
                Hpos Hsup Hge Hact Hp) as (Ha & Hh & _).
    exists (setSeen now value (levelFor value th) a).
    split; [|by repeat split].
    unfold activeAlert. rewrite Ha, Hh, Hact. simpl. apply lookup_insert_eq.
  - intros p Hlt Hact clear.
    pose proof (checkMetric_below now quiet rid rname node inst rtype mtype value th m p
                  Hpos Hsup Hlt Hact) as H.
    cbv zeta in H. unfold effectiveClear in H. fold clear in H.
    destruct (F64.le value clear).
    + destruct H as (Ha & Hr & He). rewrite Ha, Hr, He.
      split; [apply lookup_delete_eq|]. split; [apply lookup_insert_eq|].
      intros ->. rewrite app_assoc. apply last_snoc.
    + destruct H as (Ha & Hr & He). by rewrite Ha, Hr, He.
Qed.

Lemma hysteresis_evaluation_witness :
  let th := mkThreshold 80 75 in
  let m0 := newManager defaultConfig in
  let m1 := checkMetric 0 false "lab-px1-100" "guest" "px1" "lab" "VM" "cpu" 91 (Some th) m0 in
  let m2 := checkMetric 10 false "lab-px1-100" "guest" "px1" "lab" "VM" "cpu" 82 (Some th) m1 in
  let m3 := checkMetric 20 false "lab-px1-100" "guest" "px1" "lab" "VM" "cpu" 75 (Some th) m2 in
  (exists a, activeAlert m1 "lab-px1-100-cpu" = Some a /\ Level a = AlertLevelCritical)
  /\ (exists a, activeAlert m2 "lab-px1-100-cpu" = Some a
        /\ Level a = AlertLevelWarning /\ LastSeen a = 10)
  /\ activeAlerts m3 !! "lab-px1-100-cpu" = None
  /\ last (events m3) = Some (OnResolved "lab-px1-100-cpu").
Proof.
  intros th m0 m1 m2 m3. split; [|split].
  - destruct (proj1 hysteresis_evaluation 0 false "lab-px1-100" "guest" "px1" "lab"
                "VM" "cpu" 91%float th m0 eq_refl eq_refl)
      as (H & _ & _).
    destruct (H eq_refl eq_refl eq_refl eq_refl) as (a & Ha & _ & _ & _ & _ & _ & _ & Hl).
    exists a. split; [exact Ha | exact Hl].
  - destruct (proj1 hysteresis_evaluation 10 false "lab-px1-100" "guest" "px1" "lab"
                "VM" "cpu" 82%float th m1 eq_refl eq_refl)
      as (_ & H & _).
    destruct (H 0%nat (newMetricAlert 0 "lab-px1-100" "guest" "px1" "lab" "VM" "cpu" 91 th)
                eq_refl eq_refl eq_refl) as (a & Ha & Hs & _ & Hl & _).
    exists a. split; [exact Ha | split; [exact Hl | exact Hs]].
  - destruct (proj1 hysteresis_evaluation 20 false "lab-px1-100" "guest" "px1" "lab"
                "VM" "cpu" 75%float th m2 eq_refl eq_refl)
      as (_ & _ & H).
    destruct (H 0%nat eq_refl eq_refl) as (Ha & _ & He).
    split; [exact Ha | exact (He eq_refl)].
Defined.

(** C1 as stated fails where [Clear] is not set: with [Trigger = 80] and
    [Clear = 0] a sample of 50 is below the trigger and above [Clear], and
    the active alert is resolved all the same. *)
Lemma hysteresis_unset_clear_counterexample :
  let th := mkThreshold 80 0 in
  let m0 := newManager defaultConfig in
  let m1 := checkMetric 0 false "lab-local" "local" "px1" "lab" "Storage" "usage" 85 (Some th) m0 in
  let m2 := checkMetric 10 false "lab-local" "local" "px1" "lab" "Storage" "usage" 50 (Some th) m1 in
  activeAlerts m1 !! "lab-local-usage" = Some 0%nat
  /\ F64.lt 50 (Trigger th) = true
  /\ F64.le 50 (Clear th) = false
  /\ activeAlerts m2 !! "lab-local-usage" = None
  /\ recentlyResolved m2 !! "lab-local-usage" = Some (mkResolved 0%nat 10)
  /\ last (events m2) = Some (OnResolved "lab-local-usage").
Proof. by vm_compute. Qed.

Lemma scale_seconds (T : Z) :
  0 < T <= 9223372036 -> scale T Second = T * 1000000000.
Proof.
  intros HT. unfold scale, Second. apply wrap64_small.
  unfold minInt64, maxInt64. lia.
Qed.

Lemma timeThreshold_elapsed (T now pt : Z) :
  0 < T <= 9223372036 ->
  (scale T Second <=? Since now pt) = (T * 1000000000 <=? now - pt).
Proof.
  intros HT. rewrite (scale_seconds _ HT). unfold Since.
  apply Sub_ge; unfold minInt64, maxInt64; lia.
Qed.

(** C4, as amended.  With a positive [TimeThreshold] (in seconds, within the
    range of a [time.Duration]), a threshold with [Trigger > 0], an alert id
    that is not inside a suppression window and has no active alert:
    - the first sample at or above the trigger only records
      [pendingAlerts[alertID] = now];
    - a later sample at or above the trigger changes nothing while less than
      [TimeThreshold] seconds have passed since the recorded instant; once at
      least that long has passed it clears the pending entry and creates the
      alert, unless the sample is a recent duplicate, in which case the id is
      suppressed and no alert is created;
    - a sample below the trigger deletes the pending entry and creates no
      alert;
    and with [TimeThreshold = 30] and samples of 86 at t = 0, 10, 20, 30 s the
    alert is created at t = 30 s, while a sample of 70 at t = 20 s clears the
    pending entry. *)
Theorem time_threshold_confirmation :
  (forall now quiet rid rname node inst rtype mtype value th m,
     let alertID := metricAlertID rid mtype in
     let m' := checkMetric now quiet rid rname node inst rtype mtype value (Some th) m in
     let T := TimeThreshold (config m) in
     F64.gt (Trigger th) 0%float = true ->
     isSuppressed now alertID m = false ->
     0 < T <= 9223372036 ->
     activeAlerts m !! alertID = None ->
     (F64.ge value (Trigger th) = true ->
      pendingAlerts m !! alertID = None ->
      pendingAlerts m' = <[alertID := now]> (pendingAlerts m)
      /\ activeAlerts m' = activeAlerts m /\ heap m' = heap m
      /\ events m' = events m)
     /\ (forall pendingTime,
          F64.ge value (Trigger th) = true ->
          pendingAlerts m !! alertID = Some pendingTime ->
          (now - pendingTime < T * 1000000000 -> m' = m)
          /\ (T * 1000000000 <= now - pendingTime ->
              pendingAlerts m' !! alertID = None
              /\ if isRecentDuplicate now alertID value m
                 then activeAlerts m' !! alertID = None
                      /\ is_Some (suppressedUntil m' !! alertID)
                 else exists a, activeAlert m' alertID = Some a
                        /\ StartTime a = now /\ Value a = value
                        /\ ID a = rid +:+ "-" +:+ mtype))
     /\ (F64.lt value (Trigger th) = true ->
         pendingAlerts m' = delete alertID (pendingAlerts m)
         /\ activeAlerts m' = activeAlerts m /\ heap m' = heap m
         /\ events m' = events m))
  /\ map (isActive "lab-px1-100-memory") (timeThresholdRun 86)
     = [false; false; false; true]
  /\ map (fun m => pendingAlerts m !! "lab-px1-100-memory") (timeThresholdRun 86)
     = [Some 0; Some 0; Some 0; None]
  /\ map (isActive "lab-px1-100-memory") (timeThresholdRun 70)
     = [false; false; false; false]
  /\ map (fun m => pendingAlerts m !! "lab-px1-100-memory") (timeThresholdRun 70)
     = [Some 0; Some 0; None; Some (30 * Second)].
Proof.
  split; [|by vm_compute].
  intros now quiet rid rname node inst rtype mtype value th m alertID m' T
    Hpos Hsup HT Hnone.
  assert (Htt : (0 <? TimeThreshold (config m)) = true) by (apply Z.ltb_lt; apply HT).
  subst alertID m' T. repeat split.
  - unfold checkMetric. cbv zeta.
    rewrite (positive_trigger _ Hpos), Hsup, H, Hnone, Htt, H0. done.
  - unfold checkMetric. cbv zeta.
    rewrite (positive_trigger _ Hpos), Hsup, H, Hnone, Htt, H0. done.
  - unfold checkMetric. cbv zeta.
    rewrite (positive_trigger _ Hpos), Hsup, H, Hnone, Htt, H0. done.
  - unfold checkMetric. cbv zeta.
    rewrite (positive_trigger _ Hpos), Hsup, H, Hnone, Htt, H0. done.
  - intros Hearly. unfold checkMetric. cbv zeta.
    rewrite (positive_trigger _ Hpos), Hsup, H, Hnone, Htt, H0.
    rewrite (timeThreshold_elapsed _ _ _ HT).
    destruct (Z.leb_spec (TimeThreshold (config m) * 1000000000) (now - pendingTime));
      [lia | done].
  - unfold checkMetric. cbv zeta.
    rewrite (positive_trigger _ Hpos), Hsup, H, Hnone, Htt, H0.
    rewrite (timeThreshold_elapsed _ _ _ HT).
    destruct (Z.leb_spec (TimeThreshold (config m) * 1000000000) (now - pendingTime));
      [|lia].
    destruct (isRecentDuplicate now (metricAlertID rid mtype) value m) eqn:Hdup.
    + unfold raiseAlert. rewrite isRecentDuplicate_pending, Hdup. simpl.
      apply lookup_delete_eq.
    + rewrite <- (isRecentDuplicate_pending _ _ _ (delete (metricAlertID rid mtype))) in Hdup.
      destruct (raiseAlert_creates now quiet rid rname node inst rtype mtype value th _ Hdup)
        as (_ & _ & _ & _ & Hpend & _).
      rewrite Hpend. simpl. apply lookup_delete_eq.
  - unfold checkMetric. cbv zeta.
    rewrite (positive_trigger _ Hpos), Hsup, H, Hnone, Htt, H0.
    rewrite (timeThreshold_elapsed _ _ _ HT).
    destruct (Z.leb_spec (TimeThreshold (config m) * 1000000000) (now - pendingTime));
      [|lia].
    destruct (isRecentDuplicate now (metricAlertID rid mtype) value m) eqn:Hdup.
    + unfold raiseAlert. rewrite isRecentDuplicate_pending, Hdup. simpl.
      split; [exact Hnone|]. rewrite lookup_insert_eq. by eexists.
    + rewrite <- (isRecentDuplicate_pending _ _ _ (delete (metricAlertID rid mtype))) in Hdup.
      destruct (raiseAlert_creates now quiet rid rname node inst rtype mtype value th _ Hdup)
        as (_ & _ & _ & _ & _ & _ & Hact).
      eexists. split; [exact Hact|]. done.
  - unfold checkMetric. cbv zeta.
    rewrite (positive_trigger _ Hpos), Hsup, (lt_not_ge _ _ H), Hnone. done.
  - unfold checkMetric. cbv zeta.
    rewrite (positive_trigger _ Hpos), Hsup, (lt_not_ge _ _ H), Hnone. done.
  - unfold checkMetric. cbv zeta.
    rewrite (positive_trigger _ Hpos), Hsup, (lt_not_ge _ _ H), Hnone. done.
  - unfold checkMetric. cbv zeta.
    rewrite (positive_trigger _ Hpos), Hsup, (lt_not_ge _ _ H), Hnone. done.
Qed.

Lemma time_threshold_confirmation_witness :
  let th := mkThreshold 85 80 in
  let m0 := newManager (withTimeThreshold 30 defaultConfig) in
  let m1 := checkMetric 0 false "lab-px1-100" "guest" "px1" "lab" "VM" "memory" 86 (Some th) m0 in
  let m2 := checkMetric (30 * Second) false "lab-px1-100" "guest" "px1" "lab" "VM"
              "memory" 86 (Some th) m1 in
  pendingAlerts m1 = <["lab-px1-100-memory" := 0]> (pendingAlerts m0)
  /\ activeAlerts m1 = activeAlerts m0
  /\ pendingAlerts m2 !! "lab-px1-100-memory" = None
  /\ exists a, activeAlert m2 "lab-px1-100-memory" = Some a /\ StartTime a = 30 * Second.
Proof.
  intros th m0 m1 m2.
  assert (HT : 0 < 30 <= 9223372036) by lia.
  destruct (proj1 time_threshold_confirmation 0 false "lab-px1-100" "guest" "px1" "lab"
              "VM" "memory" 86%float th m0 eq_refl eq_refl HT eq_refl)
    as (H1 & _ & _).
  destruct (H1 eq_refl eq_refl) as (Hp & Ha & _).
  destruct (proj1 time_threshold_confirmation (30 * Second) false "lab-px1-100" "guest"
              "px1" "lab" "VM" "memory" 86%float th m1 eq_refl eq_refl HT eq_refl)
    as (_ & H2 & _).
  destruct (H2 0 eq_refl eq_refl) as (_ & H3).
  assert (Hel : 30 * 1000000000 <= 30 * Second - 0) by (unfold Second; lia).
  destruct (H3 Hel) as (Hp2 & a & Hact & Hst & _).
  split; [exact Hp|]. split; [exact Ha|]. split; [exact Hp2|].
  exists a. split; [exact Hact | exact Hst].
Defined.

(** C4 as stated fails after a recent alert: with [TimeThreshold = 30] the
    alert raised at t = 30 s is resolved by the sample 70 at t = 40 s; the
    sample 86 at t = 50 s is recorded as pending, and at t = 80 s, thirty
    seconds later, the sample 86 clears the pending entry but raises no
    alert: it is a duplicate of the alert of t = 30 s and the id is
    suppressed instead. *)
Lemma time_threshold_duplicate_counterexample :
  map (isActive "lab-px1-100-memory") duplicateRun = [false; true; false; false; false]
  /\ map (fun m => pendingAlerts m !! "lab-px1-100-memory") duplicateRun
     = [Some 0; None; None; Some (50 * Second); None]
  /\ F64.ge 86 (Trigger (mkThreshold 85 80)) = true
  /\ 30 * Second <= 80 * Second - 50 * Second
  /\ map (fun m => suppressedUntil m !! "lab-px1-100-memory") duplicateRun
     = [None; None; None; None; Some (80 * Second + 5 * Minute)].
Proof. by vm_compute. Qed.


(** *** Node-offline confirmation *)

Lemma nodeIsOffline_spec node :
  nodeIsOffline node = true <->
  Models.Node.Status node = "offline"
  \/ Models.Node.ConnectionHealth node = "error"
  \/ Models.Node.ConnectionHealth node = "failed".
Proof.
  unfold nodeIsOffline. rewrite !orb_true_iff, !String.eqb_eq. tauto.
Qed.

Lemma offlineCount_insert id c m :
  offlineCount (with_nodeOfflineCount (insert id c) m) id = c.
Proof. unfold offlineCount. simpl. by rewrite lookup_insert_eq. Qed.

(** One offline observation of a node without offline alert. *)
Lemma checkNodeOffline_counts now node m :
  activeAlerts m !! offlineAlertID node = None ->
  0 <= offlineCount m (Models.Node.ID node) < maxInt64 ->
  let c := offlineCount m (Models.Node.ID node) in
  let m' := checkNodeOffline now node m in
  offlineCount m' (Models.Node.ID node) = c + 1
  /\ (c + 1 < requiredOfflineCount ->
      m' = with_nodeOfflineCount (insert (Models.Node.ID node) (c + 1)) m)
  /\ (requiredOfflineCount <= c + 1 ->
      activeAlert m' (offlineAlertID node) = Some (newOfflineAlert now node)
      /\ events m' = events m ++ [HistoryAddAlert (newOfflineAlert now node)]
                       ++ (if onAlert m then [OnAlert (newPtr m)] else [])).
Proof.
  intros Hnone Hc. cbv zeta. unfold checkNodeOffline. cbv zeta. rewrite Hnone.
  rewrite wrap64_small by (unfold minInt64, maxInt64 in *; lia).
  destruct (Z.ltb_spec (offlineCount m (Models.Node.ID node) + 1) requiredOfflineCount)
    as [Hlt|Hge].
  - split; [apply offlineCount_insert|]. split; [done | lia].
  - assert (Hcount : forall es m0,
      offlineCount (emit es m0) (Models.Node.ID node)
      = offlineCount m0 (Models.Node.ID node)) by done.
    destruct (onAlert m) eqn:Hcb; simpl; rewrite Hcb.
    + split; [apply offlineCount_insert|]. split; [lia|]. intros _.
      unfold activeAlert. simpl. rewrite lookup_insert_eq. simpl.
      rewrite lookup_insert_eq. split; [done|]. by rewrite <- app_assoc.
    + split; [apply offlineCount_insert|]. split; [lia|]. intros _.
      unfold activeAlert. simpl. rewrite lookup_insert_eq. simpl.
      rewrite lookup_insert_eq. done.
Qed.

(** An observation of the node back online. *)
Lemma clearNodeOfflineAlert_resets now node m :
  0 <= offlineCount m (Models.Node.ID node) ->
  let alertID := offlineAlertID node in
  let m' := clearNodeOfflineAlert now node m in
  offlineCount m' (Models.Node.ID node) = 0
  /\ activeAlerts m' !! alertID = None
  /\ match activeAlerts m !! alertID with
     | Some p =>
       recentlyResolved m' !! alertID = Some (mkResolved p now)
       /\ events m' = events m ++ (if onResolved m then [OnResolved alertID] else [])
     | None => recentlyResolved m' = recentlyResolved m /\ events m' = events m
     end.
Proof.
  intros Hc. cbv zeta. unfold clearNodeOfflineAlert. cbv zeta.
  set (m1 := if 0 <? offlineCount m (Models.Node.ID node) then _ else m).
  assert (H1 : offlineCount m1 (Models.Node.ID node) = 0
               /\ activeAlerts m1 = activeAlerts m
               /\ recentlyResolved m1 = recentlyResolved m
               /\ events m1 = events m /\ onResolved m1 = onResolved m).
  { subst m1.
    destruct (Z.ltb_spec 0 (offlineCount m (Models.Node.ID node))).
    - unfold offlineCount. simpl. by rewrite lookup_delete_eq.
    - repeat split; lia. }
  destruct H1 as (Hc1 & Ha1 & Hr1 & He1 & Ho1). rewrite Ha1.
  destruct (activeAlerts m !! offlineAlertID node) as [p|] eqn:Hact.
  - simpl. rewrite Ho1. destruct (onResolved m); simpl; rewrite Ha1, Hr1, He1;
      rewrite lookup_delete_eq, lookup_insert_eq; repeat split;
      try done; by rewrite app_nil_r.
  - rewrite Ha1, Hr1, He1, Hact. done.
Qed.

(** C5.  A node counts as offline when its status is "offline" or its
    connection health is "error" or "failed".  Starting from a node with
    offline counter zero and no offline alert, the first two consecutive
    offline observations only raise the counter to 1 and 2; the third creates
    the alert "node-offline-<node id>", of level critical, and notifies.  In
    general an offline observation without active offline alert raises the
    counter by one and creates the alert, always critical, exactly when the
    counter reaches three.  An observation of the node back online resets the
    counter to zero and resolves an existing offline alert: it leaves
    [activeAlerts], enters [recentlyResolved], and the resolved callback is
    called. *)
Theorem node_offline_confirmation :
  (forall node,
     nodeIsOffline node = true <->
     Models.Node.Status node = "offline"
     \/ Models.Node.ConnectionHealth node = "error"
     \/ Models.Node.ConnectionHealth node = "failed")
  /\ (forall t1 t2 t3 node m,
        activeAlerts m !! offlineAlertID node = None ->
        offlineCount m (Models.Node.ID node) = 0 ->
        let m1 := checkNodeOffline t1 node m in
        let m2 := checkNodeOffline t2 node m1 in
        let m3 := checkNodeOffline t3 node m2 in
        (offlineCount m1 (Models.Node.ID node) = 1
         /\ activeAlerts m1 = activeAlerts m /\ events m1 = events m)
        /\ (offlineCount m2 (Models.Node.ID node) = 2
            /\ activeAlerts m2 = activeAlerts m /\ events m2 = events m)
        /\ exists a, activeAlert m3 (offlineAlertID node) = Some a
             /\ ID a = "node-offline-" +:+ Models.Node.ID node
             /\ Level a = AlertLevelCritical /\ StartTime a = t3
             /\ (onAlert m = true -> exists p, last (events m3) = Some (OnAlert p)))
  /\ (forall now node m,
        activeAlerts m !! offlineAlertID node = None ->
        0 <= offlineCount m (Models.Node.ID node) < maxInt64 ->
        let m' := checkNodeOffline now node m in
        offlineCount m' (Models.Node.ID node) = offlineCount m (Models.Node.ID node) + 1
        /\ (isActive (offlineAlertID node) m' = true
            <-> 3 <= offlineCount m (Models.Node.ID node) + 1)
        /\ (forall a, activeAlert m' (offlineAlertID node) = Some a ->
            Level a = AlertLevelCritical))
  /\ (forall now node m,
        0 <= offlineCount m (Models.Node.ID node) ->
        let alertID := offlineAlertID node in
        let m' := clearNodeOfflineAlert now node m in
        offlineCount m' (Models.Node.ID node) = 0
        /\ activeAlerts m' !! alertID = None
        /\ forall p, activeAlerts m !! alertID = Some p ->
             recentlyResolved m' !! alertID = Some (mkResolved p now)
             /\ (onResolved m = true -> last (events m') = Some (OnResolved alertID))).
Proof.
  split; [exact nodeIsOffline_spec|]. split; [|split].
  - intros t1 t2 t3 node m Hnone Hzero m1 m2 m3.
    destruct (checkNodeOffline_counts t1 node m Hnone) as (Hc1 & Hm1 & _).
    { rewrite Hzero. unfold maxInt64. lia. }
    rewrite Hzero in Hc1, Hm1. specialize (Hm1 ltac:(unfold requiredOfflineCount; lia)).
    fold m1 in Hc1, Hm1.
    assert (Hnone1 : activeAlerts m1 !! offlineAlertID node = None) by by rewrite Hm1.
    destruct (checkNodeOffline_counts t2 node m1 Hnone1) as (Hc2 & Hm2 & _).
    { rewrite Hc1. unfold maxInt64. lia. }
    rewrite Hc1 in Hc2, Hm2. specialize (Hm2 ltac:(unfold requiredOfflineCount; lia)).
    fold m2 in Hc2, Hm2.
    assert (Hnone2 : activeAlerts m2 !! offlineAlertID node = None) by by rewrite Hm2.
    destruct (checkNodeOffline_counts t3 node m2 Hnone2) as (_ & _ & Hm3).
    { rewrite Hc2. unfold maxInt64. lia. }
    rewrite Hc2 in Hm3.
    destruct (Hm3 ltac:(unfold requiredOfflineCount; lia)) as (Hact & Hev).
    fold m3 in Hact, Hev.
    split; [by rewrite Hc1, Hm1|]. split; [by rewrite Hc2, Hm2, Hm1|].
    exists (newOfflineAlert t3 node). split; [exact Hact|]. repeat split.
    intros Hcb. exists (newPtr m2). rewrite Hev.
    replace (onAlert m2) with true by (by rewrite Hm2, Hm1).
    rewrite app_assoc. apply last_snoc.
  - intros now node m Hnone Hc m'.
    destruct (checkNodeOffline_counts now node m Hnone Hc) as (Hc' & Hlt & Hge).
    fold m' in Hc', Hlt, Hge. split; [exact Hc'|].
    destruct (Z.lt_ge_cases (offlineCount m (Models.Node.ID node) + 1) requiredOfflineCount)
      as [Hsmall|Hbig].
    + rewrite (Hlt Hsmall). unfold isActive, activeAlert. simpl. rewrite Hnone.
      unfold requiredOfflineCount in Hsmall. split; [split; [done | lia] | done].
    + destruct (Hge Hbig) as (Hact & _). unfold isActive. revert Hact.
      unfold activeAlert.
      destruct (activeAlerts m' !! offlineAlertID node) as [p|]; simpl; [|done].
      intros Hp. unfold requiredOfflineCount in Hbig. split; [done|].
      intros a Ha. rewrite Hp in Ha. by inversion Ha.
  - intros now node m Hc alertID m'.
    destruct (clearNodeOfflineAlert_resets now node m Hc) as (H0 & Ha & Hres).
    fold alertID m' in H0, Ha, Hres. split; [exact H0|]. split; [exact Ha|].
    intros p Hp. rewrite Hp in Hres. destruct Hres as (Hr & He).
    split; [exact Hr|]. intros Hcb. rewrite He, Hcb. apply last_snoc.
Qed.

Lemma node_offline_confirmation_witness :
  let m0 := newManager defaultConfig in
  let m3 := checkNodeOffline (30 * Second) offlineNode
              (checkNodeOffline (20 * Second) offlineNode
                (checkNodeOffline (10 * Second) offlineNode m0)) in
  let m4 := clearNodeOfflineAlert (40 * Second) offlineNode m3 in
  (exists a, activeAlert m3 "node-offline-lab-px1" = Some a
     /\ Level a = AlertLevelCritical /\ StartTime a = 30 * Second)
  /\ offlineCount m4 "lab-px1" = 0
  /\ activeAlerts m4 !! "node-offline-lab-px1" = None
  /\ recentlyResolved m4 !! "node-offline-lab-px1" = Some (mkResolved 0%nat (40 * Second)).
Proof.
  intros m0 m3 m4.
  destruct node_offline_confirmation as (_ & Hthree & _ & Hback).
  destruct (Hthree (10 * Second) (20 * Second) (30 * Second) offlineNode m0
              eq_refl eq_refl) as (_ & _ & a & Ha & _ & Hl & Hs & _).
  assert (Hc : 0 <= offlineCount m3 (Models.Node.ID offlineNode)) by by vm_compute.
  destruct (Hback (40 * Second) offlineNode m3 Hc) as (H0 & Hnone & Hres).
  destruct (Hres 0%nat eq_refl) as (Hr & _).
  split; [exists a; split; [exact Ha | split; [exact Hl | exact Hs]]|].
  split; [exact H0|]. split; [exact Hnone | exact Hr].
Defined.

(** *** Stopped guests *)

Lemma clearAlertsOf_lookup guestID m alertID p :
  activeAlerts (clearAlertsOf guestID m) !! alertID = Some p <->
  activeAlerts m !! alertID = Some p /\ refersTo m guestID p = false.
Proof. unfold clearAlertsOf. simpl. apply map_lookup_filter_Some. Qed.

(** C6, as amended.  While alerting is enabled, a call of [CheckGuest] for a
    guest with status "stopped" deletes every active alert whose
    [ResourceID] is the id of the guest, keeps the others, and performs no
    threshold check: nothing but [activeAlerts] changes.  After the call no
    active alert refers to the guest. *)
Theorem stopped_guest_alerts_cleared
    (getGuestThresholds : AlertConfig -> Guest -> ThresholdConfig)
    (now : Time) (quiet : bool) (guest : Guest) (instanceName : string) (m : Manager) :
  Enabled (config m) = true ->
  Models.Guest.Status (guestData guest) = "stopped" ->
  let guestID := Models.Guest.ID (guestData guest) in
  let m' := CheckGuest getGuestThresholds now quiet guest instanceName m in
  (forall alertID p a,
     activeAlerts m !! alertID = Some p -> heap m !! p = Some a ->
     ResourceID a = guestID -> activeAlerts m' !! alertID = None)
  /\ (forall alertID p a,
        activeAlerts m !! alertID = Some p -> heap m !! p = Some a ->
        ResourceID a <> guestID -> activeAlerts m' !! alertID = Some p)
  /\ (forall alertID a, activeAlert m' alertID = Some a -> ResourceID a <> guestID)
  /\ heap m' = heap m /\ recentAlerts m' = recentAlerts m
  /\ pendingAlerts m' = pendingAlerts m /\ suppressedUntil m' = suppressedUntil m
  /\ recentlyResolved m' = recentlyResolved m /\ alertRateLimit m' = alertRateLimit m
  /\ nodeOfflineCount m' = nodeOfflineCount m /\ events m' = events m.
Proof.
  intros Hen Hstopped guestID m'.
  assert (Hm' : m' = clearAlertsOf guestID m).
  { subst m'. unfold CheckGuest. rewrite Hen. cbv zeta. rewrite Hstopped. done. }
  rewrite Hm'. split; [|split; [|split]]; [| | |by repeat split].
  - intros alertID p a Hact Hp Hres.
    destruct (activeAlerts (clearAlertsOf guestID m) !! alertID) as [q|] eqn:Hq; [|done].
    apply clearAlertsOf_lookup in Hq as [Hq Href].
    rewrite Hact in Hq. inversion Hq; subst q.
    unfold refersTo in Href. rewrite Hp in Href.
    apply String.eqb_neq in Href. done.
  - intros alertID p a Hact Hp Hres.
    apply clearAlertsOf_lookup. split; [exact Hact|].
    unfold refersTo. rewrite Hp. by apply String.eqb_neq.
  - intros alertID a. unfold activeAlert.
    destruct (activeAlerts (clearAlertsOf guestID m) !! alertID) as [q|] eqn:Hq;
      simpl; [|done].
    apply clearAlertsOf_lookup in Hq as [Hq Href]. intros Hp.
    unfold refersTo in Href. rewrite Hp in Href. by apply String.eqb_neq.
Qed.

Lemma stopped_guest_alerts_cleared_witness :
  let m0 := newManager defaultConfig in
  let m1 := CheckGuest guestDefaultsOnly 0 false (guest100 "running" 90) "lab" m0 in
  let m2 := CheckGuest guestDefaultsOnly (10 * Second) false (guest100 "stopped" 0) "lab" m1 in
  activeAlerts m1 !! "lab-px1-100-memory" = Some 0%nat
  /\ activeAlerts m2 !! "lab-px1-100-memory" = None
  /\ events m2 = events m1.
Proof.
  intros m0 m1 m2.
  destruct (stopped_guest_alerts_cleared guestDefaultsOnly (10 * Second) false
              (guest100 "stopped" 0) "lab" m1 eq_refl eq_refl)
    as (Hdel & _ & _ & _ & _ & _ & _ & _ & _ & _ & Hev).
  split; [reflexivity|]. split; [|exact Hev].
  exact (Hdel "lab-px1-100-memory" 0%nat
           (newMetricAlert 0 "lab-px1-100" "web" "px1" "lab" "VM" "memory" 90
              (mkThreshold 85 80)) eq_refl eq_refl eq_refl).
Defined.

(** C6 as stated fails while alerting is disabled: [CheckGuest] returns
    before it looks at the guest, and the alert of the stopped guest stays
    active. *)
Lemma stopped_guest_disabled_counterexample :
  let m0 := newManager defaultConfig in
  let m1 := CheckGuest guestDefaultsOnly 0 false (guest100 "running" 90) "lab" m0 in
  let m2 := UpdateConfig (withEnabled false defaultConfig) m1 in
  let m3 := CheckGuest guestDefaultsOnly (10 * Second) false (guest100 "stopped" 0) "lab" m2 in
  Models.Guest.Status (guestData (guest100 "stopped" 0)) = "stopped"
  /\ (exists a, activeAlert m3 "lab-px1-100-memory" = Some a
        /\ ResourceID a = Models.Guest.ID (guestData (guest100 "stopped" 0))).
Proof. split; [reflexivity|]. eexists. split; by vm_compute. Qed.

(** *** Escalation of the node-offline alert *)






Lemma escalationsOf_emit p es m :
  List.filter (isEscalationOf p) es = [] ->
  escalationsOf p (emit es m) = escalationsOf p m.
Proof.
  intros Hes. unfold escalationsOf. simpl.
  by rewrite List.filter_app, Hes, app_nil_r.
Qed.











(** Without the polls the same alert does escalate: sixteen minutes after it
    was raised the escalation check takes it to level 1. *)
Lemma offline_alert_escalates_without_polls :
  let m' := checkEscalations (30 * Second + 16 * Minute) offlineConfirmed in
  (LastEscalation <$> activeAlert m' "node-offline-lab-px1") = Some 1
  /\ escalationsOf 0%nat m' = [OnEscalate 0%nat 1].
Proof. by vm_compute. Qed.
End AlertsFacts.

(** ** The cluster client *)

Module ClusterFacts.
Import Go Cluster.

Lemma healthyEndpoints_spec cc ep :
  ep ∈ healthyEndpoints cc <-> nodeHealth cc !! ep = Some true.
Proof.
  unfold healthyEndpoints. rewrite list_elem_of_fmap. split.
  - intros ([e h] & -> & Hin). rewrite list_elem_of_In, filter_In in Hin.
    destruct Hin as [Hin Hh]. simpl in *. subst h.
    by apply elem_of_map_to_list, list_elem_of_In.
  - intros Hep. exists (ep, true). split; [done|].
    rewrite list_elem_of_In, filter_In. split; [|done].
    by apply list_elem_of_In, elem_of_map_to_list.
Qed.

Lemma selectEndpoint_in w i healthy :
  healthy <> [] -> selectEndpoint w i healthy ∈ healthy.
Proof.
  intros Hne. unfold selectEndpoint. apply list_elem_of_In, nth_In.
  apply Nat.mod_upper_bound. by destruct healthy.
Qed.

Lemma recoverEndpoint_keeps w i now ep cc e :
  nodeHealth cc !! e = Some true ->
  nodeHealth (recoverEndpoint w i now ep cc) !! e = Some true.
Proof.
  intros He. unfold recoverEndpoint.
  destruct (newClient w i ep); [done|]. destruct (getNodes w i ep); [done|].
  simpl. rewrite lookup_insert. by case_decide.
Qed.

Lemma recoverUnhealthyNodes_keeps w i cc e :
  nodeHealth cc !! e = Some true ->
  nodeHealth (recoverUnhealthyNodes w i cc) !! e = Some true.
Proof.
  unfold recoverUnhealthyNodes. generalize (dueForRecovery (clock w i) cc).
  intros due. revert cc. induction due as [|ep due IH]; intros cc He; [done|].
  simpl. by apply IH, recoverEndpoint_keeps.
Qed.

(** A client handed out by [getHealthyClient] belongs to an endpoint that is
    healthy and cached; no endpoint was demoted on the way, and when some
    endpoint was healthy to begin with the health map did not change. *)
Lemma getHealthyClient_selected w i cc ep cc1 :
  getHealthyClient w i cc = (inr ep, cc1) ->
  ep ∈ clients cc1
  /\ nodeHealth cc1 !! ep = Some true
  /\ (forall e, nodeHealth cc !! e = Some true -> nodeHealth cc1 !! e = Some true)
  /\ (healthyEndpoints cc <> [] ->
      nodeHealth cc1 = nodeHealth cc /\ lastHealthCheck cc1 = lastHealthCheck cc).
Proof.
  unfold getHealthyClient.
  set (cc0 := match healthyEndpoints cc with [] => _ | _ => cc end).
  assert (Hkeep : forall e, nodeHealth cc !! e = Some true -> nodeHealth cc0 !! e = Some true).
  { subst cc0. destruct (healthyEndpoints cc); [|done].
    intros e. apply recoverUnhealthyNodes_keeps. }
  assert (Hsame : healthyEndpoints cc <> [] -> cc0 = cc).
  { subst cc0. by destruct (healthyEndpoints cc). }
  destruct (healthyEndpoints cc0) as [|h healthy] eqn:Hh; [discriminate|].
  set (sel := selectEndpoint w i (h :: healthy)).
  assert (Hsel : nodeHealth cc0 !! sel = Some true).
  { apply healthyEndpoints_spec. rewrite Hh. by apply selectEndpoint_in. }
  case_bool_decide as Hcached.
  - intros [= <- <-]. split; [exact Hcached|]. split; [exact Hsel|].
    split; [exact Hkeep|]. intros Hne. by rewrite (Hsame Hne).
  - destruct (newClient w i sel); [discriminate|].
    destruct (getNodes w i sel); [discriminate|].
    intros [= <- <-]. simpl. split; [set_solver|]. split; [exact Hsel|].
    split; [exact Hkeep|]. intros Hne. by rewrite (Hsame Hne).
Qed.






End ClusterFacts.

(** ** The metrics history *)

Module HistoryFacts.
Import Go History.

(** *** One series *)

Lemma chronological_cons_inv p rest :
  chronological (p :: rest) ->
  chronological rest /\ Forall (fun q => Timestamp p <= Timestamp q) rest.
Proof.
  intros Hc. split.
  - intros i j a b Hij Ha Hb. exact (Hc (S i) (S j) a b ltac:(lia) Ha Hb).
  - apply Forall_lookup. intros j q Hq.
    exact (Hc 0%nat (S j) p q ltac:(lia) eq_refl Hq).
Qed.

Lemma chronological_drop k series :
  chronological series -> chronological (drop k series).
Proof.
  intros Hc i j p q Hij Hp Hq. rewrite lookup_drop in Hp, Hq.
  exact (Hc (k + i)%nat (k + j)%nat p q ltac:(lia) Hp Hq).
Qed.

Lemma chronological_snoc series point :
  chronological series -> notAfter (Timestamp point) series ->
  chronological (series ++ [point]).
Proof.
  intros Hc Hb i j p q Hij Hp Hq.
  apply lookup_app_Some in Hp as [Hp|[Hlen Hp]];
    apply lookup_app_Some in Hq as [Hq|[Hlen' Hq]].
  - exact (Hc i j p q Hij Hp Hq).
  - apply list_lookup_singleton_Some in Hq as [_ <-].
    unfold notAfter in Hb. rewrite Forall_lookup in Hb. exact (Hb i p Hp).
  - apply lookup_lt_Some in Hq. lia.
  - apply list_lookup_singleton_Some in Hp as [_ <-].
    apply list_lookup_singleton_Some in Hq as [_ <-]. lia.
Qed.

(** On a series in the order of its timestamps that holds a point after the
    cutoff, the loop finds the first such point, and every point from there
    on is after the cutoff. *)
Lemma firstAfter_fresh cutoff series i :
  chronological series ->
  Exists (fun p => cutoff < Timestamp p) series ->
  exists k, firstAfter cutoff i series = (i + k)%nat
    /\ Forall (fun p => cutoff < Timestamp p) (drop k series).
Proof.
  revert i. induction series as [|p rest IH]; intros i Hc Hex.
  - inversion Hex.
  - destruct (chronological_cons_inv _ _ Hc) as [Hrest Hle]. simpl.
    unfold Go.After. destruct (Z.ltb_spec cutoff (Timestamp p)) as [Hfresh|Hstale].
    + exists 0%nat. split; [lia|]. simpl. constructor; [exact Hfresh|].
      eapply Forall_impl; [exact Hle|]. simpl. intros q Hq. lia.
    + inversion Hex as [? ? Hp|? ? Hin]; subst; [lia|].
      destruct (IH (S i) Hrest Hin) as (k & Hk & Hall).
      exists (S k). split; [lia | exact Hall].
Qed.



(** The loop stops at the first point inside the window: its index is the
    number of points in front of it, none of which is inside the window. *)
Lemma firstAfter_split cutoff stale p rest i :
  Forall (fun q => Timestamp q <= cutoff) stale ->
  cutoff < Timestamp p ->
  firstAfter cutoff i (stale ++ p :: rest) = (i + length stale)%nat.
Proof.
  revert i. induction stale as [|q stale IH]; intros i Hold Hp; simpl; unfold Go.After.
  - destruct (Z.ltb_spec cutoff (Timestamp p)); lia.
  - inversion Hold as [|? ? Hq Hrest]; subst.
    destruct (Z.ltb_spec cutoff (Timestamp q)); [lia|].
    rewrite IH by done. lia.
Qed.

(** The loop finds nothing when no point is inside the window. *)
Lemma firstAfter_none cutoff series i :
  Forall (fun q => Timestamp q <= cutoff) series -> firstAfter cutoff i series = 0%nat.
Proof.
  revert i. induction series as [|q series IH]; intros i Hold; simpl; [done|].
  inversion Hold as [|? ? Hq Hrest]; subst. unfold Go.After.
  destruct (Z.ltb_spec cutoff (Timestamp q)); [lia|]. by apply IH.
Qed.


(** When no point is inside the window, the new one included, the loop
    leaves [startIdx] at 0 and nothing is dropped for its age. *)
Lemma appendMetric_all_stale now maxPoints retention series point :
  Forall (fun q => Timestamp q <= cutoffTime now retention) (series ++ [point]) ->
  appendMetric now maxPoints retention series point
  = drop (length (series ++ [point]) - maxPoints) (series ++ [point]).
Proof.
  intros Hold. unfold appendMetric. cbv zeta.
  rewrite (firstAfter_none _ _ 0 Hold). change (0 <? 0)%nat with false. cbv iota.
  destruct (Nat.ltb_spec maxPoints (length (series ++ [point]))) as [|Hle]; [done|].
  by replace (length (series ++ [point]) - maxPoints)%nat with 0%nat by lia.
Qed.


(** On a series in the order of its timestamps, a new point that is the
    latest and inside the retention window leaves only points inside the
    window, still in order. *)
Lemma appendMetric_retained now maxPoints retention series point :
  cutoffTime now retention < Timestamp point ->
  chronological series -> notAfter (Timestamp point) series ->
  let series' := appendMetric now maxPoints retention series point in
  retained now retention series'
  /\ chronological series'
  /\ notAfter (Timestamp point) series'.
Proof.
  intros Hfresh Hc Hb.
  assert (Hc1 : chronological (series ++ [point])) by by apply chronological_snoc.
  assert (Hb1 : notAfter (Timestamp point) (series ++ [point])).
  { apply Forall_app. split; [exact Hb|]. constructor; [lia | constructor]. }
  destruct (firstAfter_fresh (cutoffTime now retention) (series ++ [point]) 0 Hc1)
    as (k & Hk & Hall).
  { apply Exists_app. right. by constructor. }
  cbv zeta. unfold appendMetric. cbv zeta. rewrite Hk. simpl.
  set (s2 := if (0 <? k)%nat then drop k (series ++ [point]) else series ++ [point]).
  assert (Hs2 : s2 = drop k (series ++ [point])).
  { subst s2. destruct (Nat.ltb_spec 0 k); [done|]. by replace k with 0%nat by lia. }
  rewrite Hs2. unfold retained, notAfter.
  destruct (Nat.ltb_spec maxPoints (length (drop k (series ++ [point])))).
  - split; [by apply Forall_drop|].
    split; [by apply chronological_drop, chronological_drop|].
    by apply Forall_drop, Forall_drop.
  - split; [exact Hall|]. split; [by apply chronological_drop | by apply Forall_drop].
Qed.


(** *** The three maps *)

Lemma getGuestField_set fld fld' series g :
  getGuestField fld' (setGuestField fld series g)
  = if decide (fld' = fld) then series else getGuestField fld' g.
Proof. destruct fld, fld'; reflexivity. Qed.

Lemma getStorageField_set fld fld' series s :
  getStorageField fld' (setStorageField fld series s)
  = if decide (fld' = fld) then series else getStorageField fld' s.
Proof. destruct fld, fld'; reflexivity. Qed.

(** The case that a metric type selects determines the metric type. *)
Lemma guestCase_inj metricType metricType' fld :
  guestCase metricType = Some fld -> guestCase metricType' = Some fld ->
  metricType = metricType'.
Proof.
  unfold guestCase. intros H H'.
  repeat match type of H with
         | context [String.eqb metricType ?c] =>
           destruct (String.eqb_spec metricType c) as [->|?]
         end;
  repeat match type of H' with
         | context [String.eqb metricType' ?c] =>
           destruct (String.eqb_spec metricType' c) as [->|?]
         end; congruence.
Qed.

Lemma nodeCase_inj metricType metricType' fld :
  nodeCase metricType = Some fld -> nodeCase metricType' = Some fld ->
  metricType = metricType'.
Proof.
  unfold nodeCase. intros H H'.
  repeat match type of H with
         | context [String.eqb metricType ?c] =>
           destruct (String.eqb_spec metricType c) as [->|?]
         end;
  repeat match type of H' with
         | context [String.eqb metricType' ?c] =>
           destruct (String.eqb_spec metricType' c) as [->|?]
         end; congruence.
Qed.

Lemma storageCase_inj metricType metricType' fld :
  storageCase metricType = Some fld -> storageCase metricType' = Some fld ->
  metricType = metricType'.
Proof.
  unfold storageCase. intros H H'.
  repeat match type of H with
         | context [String.eqb metricType ?c] =>
           destruct (String.eqb_spec metricType c) as [->|?]
         end;
  repeat match type of H' with
         | context [String.eqb metricType' ?c] =>
           destruct (String.eqb_spec metricType' c) as [->|?]
         end; congruence.
Qed.

Lemma getGuestField_empty fld : getGuestField fld emptyGuestMetrics = [].
Proof. by destruct fld. Qed.

Lemma getStorageField_empty fld : getStorageField fld emptyStorageMetrics = [].
Proof. by destruct fld. Qed.

(** The effect of the [switch] of an add on the series of every id and
    metric type. *)
Lemma guest_update_lookup (m : gmap string GuestMetrics) id0 mt0 f id mt :
  default [] (g ← <[id0 := updateGuestSeries mt0 f (default emptyGuestMetrics (m !! id0))]> m
                    !! id; guestSeries mt g)
  = if bool_decide (id = id0 /\ mt = mt0) && bool_decide (is_Some (guestCase mt))
    then f (default [] (g ← m !! id; guestSeries mt g))
    else default [] (g ← m !! id; guestSeries mt g).
Proof.
  destruct (decide (id = id0)) as [->|Hid].
  - rewrite lookup_insert_eq.
    destruct (decide (mt = mt0)) as [->|Hmt].
    + rewrite (bool_decide_eq_true_2 (id0 = id0 /\ mt0 = mt0)) by done.
      unfold guestSeries, updateGuestSeries.
      destruct (guestCase mt0) as [fld0|] eqn:Hm0.
      * rewrite bool_decide_eq_true_2 by by eexists.
        cbn [andb]. simpl. rewrite getGuestField_set, decide_True by done.
        destruct (m !! id0); simpl; by rewrite ?getGuestField_empty.
      * rewrite bool_decide_eq_false_2 by (by intros [? ?]).
        cbn [andb]. simpl. by destruct (m !! id0).
    + rewrite (bool_decide_eq_false_2 (id0 = id0 /\ mt = mt0)) by (by intros [_ ?]).
      cbn [andb]. unfold guestSeries, updateGuestSeries.
      destruct (guestCase mt) as [fld|] eqn:Hm; destruct (guestCase mt0) as [fld0|] eqn:Hm0;
        simpl; try (by destruct (m !! id0)).
      * rewrite getGuestField_set. rewrite decide_False.
        { destruct (m !! id0); simpl; by rewrite ?getGuestField_empty. }
        { intros ->. apply Hmt. exact (guestCase_inj _ _ _ Hm Hm0). }
      * destruct (m !! id0); simpl; by rewrite ?getGuestField_empty.
  - rewrite lookup_insert_ne by done.
    by rewrite bool_decide_eq_false_2 by (by intros [? _]).
Qed.

Lemma node_update_lookup (m : gmap string GuestMetrics) id0 mt0 f id mt :
  default [] (g ← <[id0 := updateNodeSeries mt0 f (default emptyGuestMetrics (m !! id0))]> m
                    !! id; nodeSeries mt g)
  = if bool_decide (id = id0 /\ mt = mt0) && bool_decide (is_Some (nodeCase mt))
    then f (default [] (g ← m !! id; nodeSeries mt g))
    else default [] (g ← m !! id; nodeSeries mt g).
Proof.
  destruct (decide (id = id0)) as [->|Hid].
  - rewrite lookup_insert_eq.
    destruct (decide (mt = mt0)) as [->|Hmt].
    + rewrite (bool_decide_eq_true_2 (id0 = id0 /\ mt0 = mt0)) by done.
      unfold nodeSeries, updateNodeSeries.
      destruct (nodeCase mt0) as [fld0|] eqn:Hm0.
      * rewrite bool_decide_eq_true_2 by by eexists.
        cbn [andb]. simpl. rewrite getGuestField_set, decide_True by done.
        destruct (m !! id0); simpl; by rewrite ?getGuestField_empty.
      * rewrite bool_decide_eq_false_2 by (by intros [? ?]).
        cbn [andb]. simpl. by destruct (m !! id0).
    + rewrite (bool_decide_eq_false_2 (id0 = id0 /\ mt = mt0)) by (by intros [_ ?]).
      cbn [andb]. unfold nodeSeries, updateNodeSeries.
      destruct (nodeCase mt) as [fld|] eqn:Hm; destruct (nodeCase mt0) as [fld0|] eqn:Hm0;
        simpl; try (by destruct (m !! id0)).
      * rewrite getGuestField_set. rewrite decide_False.
        { destruct (m !! id0); simpl; by rewrite ?getGuestField_empty. }
        { intros ->. apply Hmt. exact (nodeCase_inj _ _ _ Hm Hm0). }
      * destruct (m !! id0); simpl; by rewrite ?getGuestField_empty.
  - rewrite lookup_insert_ne by done.
    by rewrite bool_decide_eq_false_2 by (by intros [? _]).
Qed.

Lemma storage_update_lookup (m : gmap string StorageMetrics) id0 mt0 f id mt :
  default [] (s ← <[id0 := updateStorageSeries mt0 f (default emptyStorageMetrics (m !! id0))]> m
                    !! id; storageSeries mt s)
  = if bool_decide (id = id0 /\ mt = mt0) && bool_decide (is_Some (storageCase mt))
    then f (default [] (s ← m !! id; storageSeries mt s))
    else default [] (s ← m !! id; storageSeries mt s).
Proof.
  destruct (decide (id = id0)) as [->|Hid].
  - rewrite lookup_insert_eq.
    destruct (decide (mt = mt0)) as [->|Hmt].
    + rewrite (bool_decide_eq_true_2 (id0 = id0 /\ mt0 = mt0)) by done.
      unfold storageSeries, updateStorageSeries.
      destruct (storageCase mt0) as [fld0|] eqn:Hm0.
      * rewrite bool_decide_eq_true_2 by by eexists.
        cbn [andb]. simpl. rewrite getStorageField_set, decide_True by done.
        destruct (m !! id0); simpl; by rewrite ?getStorageField_empty.
      * rewrite bool_decide_eq_false_2 by (by intros [? ?]).
        cbn [andb]. simpl. by destruct (m !! id0).
    + rewrite (bool_decide_eq_false_2 (id0 = id0 /\ mt = mt0)) by (by intros [_ ?]).
      cbn [andb]. unfold storageSeries, updateStorageSeries.
      destruct (storageCase mt) as [fld|] eqn:Hm; destruct (storageCase mt0) as [fld0|] eqn:Hm0;
        simpl; try (by destruct (m !! id0)).
      * rewrite getStorageField_set. rewrite decide_False.
        { destruct (m !! id0); simpl; by rewrite ?getStorageField_empty. }
        { intros ->. apply Hmt. exact (storageCase_inj _ _ _ Hm Hm0). }
      * destruct (m !! id0); simpl; by rewrite ?getStorageField_empty.
  - rewrite lookup_insert_ne by done.
    by rewrite bool_decide_eq_false_2 by (by intros [? _]).
Qed.


Lemma apply_config op mh :
  maxDataPoints (apply op mh) = maxDataPoints mh
  /\ retentionTime (apply op mh) = retentionTime mh.
Proof. by destruct op. Qed.


(** An add changes the series it names, when its metric type is one of the
    cases, and no other. *)
Lemma seriesAt_apply op mh kind id mt :
  seriesAt kind id mt (apply op mh)
  = if bool_decide (kind = addKind op /\ id = addID op /\ mt = addMetricType op)
       && recognized kind mt
    then appendMetric (addNow op) (maxDataPoints mh) (retentionTime mh)
           (seriesAt kind id mt mh) (addPoint op)
    else seriesAt kind id mt mh.
Proof.
  destruct op as [now id0 mt0 v t|now id0 mt0 v t|now id0 mt0 v t], kind;
    unfold seriesAt, apply, AddGuestMetric, AddNodeMetric, AddStorageMetric, recognized;
    cbn [guestMetrics nodeMetrics storageMetrics addKind addID addMetricType addNow
         addPoint];
    try (rewrite bool_decide_eq_false_2 by (by intros [? _]); reflexivity).
  - rewrite guest_update_lookup.
    destruct (decide (id = id0 /\ mt = mt0)) as [[-> ->]|Hne].
    + rewrite (bool_decide_eq_true_2 (id0 = id0 /\ mt0 = mt0)) by done.
      by rewrite (bool_decide_eq_true_2 (OfGuest = OfGuest /\ id0 = id0 /\ mt0 = mt0)) by done.
    + rewrite (bool_decide_eq_false_2 (id = id0 /\ mt = mt0)) by done.
      by rewrite (bool_decide_eq_false_2 (OfGuest = OfGuest /\ id = id0 /\ mt = mt0))
        by (intros (_ & ? & ?); by apply Hne).
  - rewrite node_update_lookup.
    destruct (decide (id = id0 /\ mt = mt0)) as [[-> ->]|Hne].
    + rewrite (bool_decide_eq_true_2 (id0 = id0 /\ mt0 = mt0)) by done.
      by rewrite (bool_decide_eq_true_2 (OfNode = OfNode /\ id0 = id0 /\ mt0 = mt0)) by done.
    + rewrite (bool_decide_eq_false_2 (id = id0 /\ mt = mt0)) by done.
      by rewrite (bool_decide_eq_false_2 (OfNode = OfNode /\ id = id0 /\ mt = mt0))
        by (intros (_ & ? & ?); by apply Hne).
  - rewrite storage_update_lookup.
    destruct (decide (id = id0 /\ mt = mt0)) as [[-> ->]|Hne].
    + rewrite (bool_decide_eq_true_2 (id0 = id0 /\ mt0 = mt0)) by done.
      by rewrite (bool_decide_eq_true_2 (OfStorage = OfStorage /\ id0 = id0 /\ mt0 = mt0)) by done.
    + rewrite (bool_decide_eq_false_2 (id = id0 /\ mt = mt0)) by done.
      by rewrite (bool_decide_eq_false_2 (OfStorage = OfStorage /\ id = id0 /\ mt = mt0))
        by (intros (_ & ? & ?); by apply Hne).
Qed.

Lemma targetSeries_apply op mh :
  recognized (addKind op) (addMetricType op) = true ->
  targetSeries op (apply op mh)
  = appendMetric (addNow op) (maxDataPoints mh) (retentionTime mh)
      (targetSeries op mh) (addPoint op).
Proof.
  intros Hrec. unfold targetSeries. rewrite seriesAt_apply, Hrec.
  by rewrite bool_decide_eq_true_2 by done.
Qed.

(** *** Sequences of adds *)


(** Every series is in the order of its timestamps, none after [bound]. *)
Definition ordered (bound : Time) (mh : MetricsHistory) : Prop :=
  forall kind id mt,
    chronological (seriesAt kind id mt mh) /\ notAfter bound (seriesAt kind id mt mh).


Lemma ordered_new bound maxPoints retention :
  ordered bound (NewMetricsHistory maxPoints retention).
Proof.
  assert (Hnil : chronological [] /\ notAfter bound []).
  { split; [|constructor]. intros i j p q _ Hp. by rewrite lookup_nil in Hp. }
  intros [] id mt; unfold seriesAt; simpl; by rewrite lookup_empty.
Qed.



Lemma notAfter_mono bound bound' series :
  bound <= bound' -> notAfter bound series -> notAfter bound' series.
Proof.
  intros Hle Hb. unfold notAfter in *. eapply Forall_impl; [exact Hb|].
  simpl. intros p Hp. lia.
Qed.

Lemma ordered_apply bound op mh :
  ordered bound mh -> bound <= addTimestamp op ->
  cutoffTime (addNow op) (retentionTime mh) < addTimestamp op ->
  ordered (addTimestamp op) (apply op mh).
Proof.
  intros Ho Hle Hfresh kind id mt. destruct (Ho kind id mt) as [Hc Hb].
  apply (notAfter_mono _ _ _ Hle) in Hb.
  rewrite seriesAt_apply. destruct (_ && _); [|done].
  assert (Hts : Timestamp (addPoint op) = addTimestamp op) by by destruct op.
  rewrite <- Hts in Hb, Hfresh |- *.
  by destruct (appendMetric_retained (addNow op) (maxDataPoints mh) (retentionTime mh)
                 _ _ Hfresh Hc Hb) as (_ & ? & ?).
Qed.

Lemma ordered_applyAll ops : forall from mh,
  ordered from mh -> inOrder (retentionTime mh) from ops ->
  ordered (lastStamp from ops) (applyAll ops mh).
Proof.
  induction ops as [|op ops IH]; intros from mh Ho Hin; [done|].
  destruct Hin as (Hle & Hfresh & Hrest). unfold applyAll, lastStamp in *. simpl.
  apply IH; [by apply (ordered_apply from)|].
  by destruct (apply_config op mh) as [_ ->].
Qed.




End HistoryFacts.

(** ** Facts about the monitor *)

Module MonitoringFacts.
Import Go GoFacts Monitoring.

(** *** The state store *)

Lemma ofInstance_app {A : Type} (instanceOf : A -> string) (name : string) (l1 l2 : list A) :
  ofInstance instanceOf name (l1 ++ l2)
  = ofInstance instanceOf name l1 ++ ofInstance instanceOf name l2.
Proof. unfold ofInstance. apply List.filter_app. Qed.

Lemma ofInstance_all {A : Type} (instanceOf : A -> string) (name : string) (l : list A) :
  Forall (fun x => instanceOf x = name) l -> ofInstance instanceOf name l = l.
Proof.
  induction 1 as [|x l Hx _ IH]; [reflexivity|].
  unfold ofInstance in *. simpl. rewrite Hx, String.eqb_refl. by rewrite IH.
Qed.

Lemma ofInstance_none {A : Type} (instanceOf : A -> string) (name : string) (l : list A) :
  Forall (fun x => instanceOf x <> name) l -> ofInstance instanceOf name l = [].
Proof.
  induction 1 as [|x l Hx _ IH]; [reflexivity|].
  unfold ofInstance in *. simpl.
  apply String.eqb_neq in Hx. by rewrite Hx.
Qed.

Lemma ofInstance_removed {A : Type} (instanceOf : A -> string) (name : string) (l : list A) :
  ofInstance instanceOf name
    (List.filter (fun x => negb (String.eqb (instanceOf x) name)) l) = [].
Proof.
  induction l as [|x l IH]; [reflexivity|].
  simpl. destruct (String.eqb (instanceOf x) name) eqn:E; simpl; [exact IH|].
  unfold ofInstance in *. simpl. by rewrite E.
Qed.

Lemma ofInstance_kept {A : Type} (instanceOf : A -> string) (name other : string)
    (l : list A) :
  other <> name ->
  ofInstance instanceOf other
    (List.filter (fun x => negb (String.eqb (instanceOf x) name)) l)
  = ofInstance instanceOf other l.
Proof.
  intros Hne. induction l as [|x l IH]; [reflexivity|].
  unfold ofInstance in *. simpl.
  destruct (String.eqb (instanceOf x) name) eqn:E; simpl.
  - apply String.eqb_eq in E.
    assert (String.eqb (instanceOf x) other = false) as ->
      by (apply String.eqb_neq; congruence).
    exact IH.
  - destruct (String.eqb (instanceOf x) other); [by rewrite IH | exact IH].
Qed.

(** After a per-instance update the entries of the instance are the new
    ones, when these carry the instance's name. *)
Lemma ofInstance_replace {A : Type} (instanceOf : A -> string) (name : string)
    (new old : list A) :
  Forall (fun x => instanceOf x = name) new ->
  ofInstance instanceOf name (replaceForInstance instanceOf name new old) = new.
Proof.
  intros Hnew. unfold replaceForInstance.
  by rewrite ofInstance_app, ofInstance_removed, ofInstance_all.
Qed.

(** A per-instance update leaves the entries of the other instances. *)
Lemma ofInstance_replace_other {A : Type} (instanceOf : A -> string) (name other : string)
    (new old : list A) :
  other <> name ->
  Forall (fun x => instanceOf x = name) new ->
  ofInstance instanceOf other (replaceForInstance instanceOf name new old)
  = ofInstance instanceOf other old.
Proof.
  intros Hne Hnew. unfold replaceForInstance.
  rewrite ofInstance_app, ofInstance_kept by done.
  rewrite (ofInstance_none instanceOf other new), app_nil_r; [done|].
  eapply Forall_impl; [exact Hnew|]. simpl. congruence.
Qed.

(** *** Authentication failures *)

Lemma failureCount_insert (m : Monitor) (failures attempts : gmap string Z)
    (nodeID : string) (count : Z) :
  failureCount (with_auth (<[nodeID := count]> failures) attempts m) nodeID = count.
Proof. unfold failureCount. simpl. by rewrite lookup_insert_eq. Qed.

Lemma failureCount_delete (m : Monitor) (failures attempts : gmap string Z)
    (nodeID : string) :
  failureCount (with_auth (delete nodeID failures) attempts m) nodeID = 0.
Proof. unfold failureCount. simpl. by rewrite lookup_delete_eq. Qed.

(** Below the limit [recordAuthFailure] only counts. *)
Lemma recordAuthFailure_counts (now : Time) (instanceName nodeType : string) (m : Monitor) :
  0 <= failureCount m (authNodeID instanceName nodeType) < 4 ->
  let m' := recordAuthFailure now instanceName nodeType m in
  failureCount m' (authNodeID instanceName nodeType)
  = failureCount m (authNodeID instanceName nodeType) + 1
  /\ state m' = state m /\ PVEInstances m' = PVEInstances m.
Proof.
  intros Hc. unfold recordAuthFailure. cbv zeta.
  rewrite wrap64_small by (unfold Go.minInt64, Go.maxInt64; lia).
  destruct (Z.leb_spec maxAuthFailures
              (failureCount m (authNodeID instanceName nodeType) + 1)) as [H|H];
    [unfold maxAuthFailures in H; lia|].
  split; [apply failureCount_insert | done].
Qed.

(** At the limit the PVE instance is shown as failed and the counter is
    dropped. *)
Lemma recordAuthFailure_locks (now : Time) (instanceName : string) (m : Monitor) :
  4 <= failureCount m (authNodeID instanceName "pve") < Go.maxInt64 ->
  let m' := recordAuthFailure now instanceName "pve" m in
  failureCount m' (authNodeID instanceName "pve") = 0
  /\ state m' = state (removeFailedPVENode now instanceName m)
  /\ PVEInstances m' = PVEInstances m.
Proof.
  intros Hc. unfold recordAuthFailure. cbv zeta.
  rewrite wrap64_small by (unfold Go.minInt64, Go.maxInt64 in *; lia).
  destruct (Z.leb_spec maxAuthFailures
              (failureCount m (authNodeID instanceName "pve") + 1)) as [H|H];
    [|unfold maxAuthFailures in H; lia].
  rewrite String.eqb_refl.
  split; [apply failureCount_delete | done].
Qed.

Lemma resetAuthFailures_zero (instanceName nodeType : string) (m : Monitor) :
  0 <= failureCount m (authNodeID instanceName nodeType) ->
  let m' := resetAuthFailures instanceName nodeType m in
  failureCount m' (authNodeID instanceName nodeType) = 0 /\ state m' = state m.
Proof.
  intros Hc. unfold resetAuthFailures. cbv zeta.
  unfold failureCount in Hc.
  destruct (authFailures m !! authNodeID instanceName nodeType) as [count|] eqn:E;
    simpl in Hc.
  - destruct (Z.ltb_spec 0 count).
    + split; [apply failureCount_delete | done].
    + split; [|done]. unfold failureCount. rewrite E. simpl. lia.
  - split; [|done]. unfold failureCount. by rewrite E.
Qed.

(** What [removeFailedPVENode] leaves in the store for the instance. *)
Lemma removeFailedPVENode_state (now : Time) (instanceName : string) (m : Monitor) :
  let s := state (removeFailedPVENode now instanceName m) in
  ofInstance Models.Node.Instance instanceName (Nodes s)
  = [failedNode now instanceName (hostOf instanceName (PVEInstances m))]
  /\ ofInstance Models.Guest.Instance instanceName (VMs s) = []
  /\ ofInstance Models.Guest.Instance instanceName (Containers s) = []
  /\ ofInstance Models.Storage.Instance instanceName (Storage s) = []
  /\ ofInstance bt_Instance instanceName (BackupTasks s) = []
  /\ ofInstance sb_Instance instanceName (StorageBackups s) = []
  /\ ofInstance gs_Instance instanceName (GuestSnapshots s) = []
  /\ ConnectionHealth s !! instanceName = Some false.
Proof.
  simpl. repeat split.
  - apply ofInstance_replace. by constructor.
  - by apply ofInstance_replace.
  - by apply ofInstance_replace.
  - by apply ofInstance_replace.
  - by apply ofInstance_replace.
  - by apply ofInstance_replace.
  - by apply ofInstance_replace.
  - by rewrite lookup_insert_eq.
Qed.

(** *** The head of a poll *)

Lemma pollPVENodes_failure (now : Time) (instanceName errStr : string) (m : Monitor) :
  configured instanceName m = true ->
  (pollPVENodes now false instanceName (NodesErr errStr true) m).1
  = recordAuthFailure now instanceName "pve"
      (with_state (SetConnectionHealth instanceName false) m).
Proof. intros H. unfold pollPVENodes. by rewrite H. Qed.

Lemma removeFailedPVENode_lockedOut (now : Time) (instanceName : string) (m m' : Monitor) :
  state m' = state (removeFailedPVENode now instanceName m) ->
  lockedOut instanceName m'.
Proof.
  intros Hs'. unfold lockedOut. rewrite Hs'.
  destruct (removeFailedPVENode_state now instanceName m)
    as (Hn & Hv & Hc & Hs & Hb & Hsb & Hg & Hh).
  split; [|done].
  eexists. split; [exact Hn|]. done.
Qed.

(** A failed poll below the limit counts and leaves the instance
    configured. *)
Lemma pollPVENodes_counts (now : Time) (instanceName errStr : string) (m : Monitor) :
  configured instanceName m = true ->
  0 <= failureCount m (authNodeID instanceName "pve") < 4 ->
  let m' := (pollPVENodes now false instanceName (NodesErr errStr true) m).1 in
  configured instanceName m' = true
  /\ failureCount m' (authNodeID instanceName "pve")
     = failureCount m (authNodeID instanceName "pve") + 1
  /\ state m' = SetConnectionHealth instanceName false (state m).
Proof.
  intros Hcfg Hc. cbv zeta. rewrite pollPVENodes_failure by done.
  destruct (recordAuthFailure_counts now instanceName "pve"
              (with_state (SetConnectionHealth instanceName false) m) Hc)
    as (Hf & Hs & Hp).
  split; [|split].
  - unfold configured in *. by rewrite Hp.
  - exact Hf.
  - exact Hs.
Qed.

(** The failed poll that reaches the limit shows the instance as failed. *)
Lemma pollPVENodes_locks (now : Time) (instanceName errStr : string) (m : Monitor) :
  configured instanceName m = true ->
  4 <= failureCount m (authNodeID instanceName "pve") < Go.maxInt64 ->
  let m' := (pollPVENodes now false instanceName (NodesErr errStr true) m).1 in
  lockedOut instanceName m' /\ failureCount m' (authNodeID instanceName "pve") = 0.
Proof.
  intros Hcfg Hc. cbv zeta. rewrite pollPVENodes_failure by done.
  destruct (recordAuthFailure_locks now instanceName
              (with_state (SetConnectionHealth instanceName false) m) Hc)
    as (Hf & Hs & _).
  split; [|exact Hf].
  by eapply removeFailedPVENode_lockedOut.
Qed.

Lemma authFailureRun_locks (n : nat) (start step : Time) (instanceName : string)
    (m : Monitor) :
  configured instanceName m = true ->
  0 <= failureCount m (authNodeID instanceName "pve") ->
  failureCount m (authNodeID instanceName "pve") + Z.of_nat n = 4 ->
  let m' := authFailureRun (S n) start step instanceName m in
  lockedOut instanceName m' /\ failureCount m' (authNodeID instanceName "pve") = 0.
Proof.
  revert start m. induction n as [|n IH]; intros start m Hcfg H0 Hn.
  - apply (pollPVENodes_locks start instanceName "401 Unauthorized" m); [done|].
    unfold Go.maxInt64. lia.
  - change (authFailureRun (S (S n)) start step instanceName m)
      with (authFailureRun (S n) (start + step) step instanceName
              (pollPVENodes start false instanceName (NodesErr "401 Unauthorized" true) m).1).
    destruct (pollPVENodes_counts start instanceName "401 Unauthorized" m Hcfg
                ltac:(lia)) as (Hcfg' & Hf & _).
    apply IH; [done | lia | lia].
Qed.

(** C3: when GetNodes of a configured PVE instance fails with an
    authentication error, the poll counts the failure (the store keeps its
    nodes, guests and storage, the connection is marked unhealthy); the
    failure that takes the counter to 5 leaves as the instance's nodes one
    node with status "offline" and connection health "error", no VMs,
    containers, storage, backup tasks, storage backups or guest snapshots of
    the instance, the connection unhealthy, and the counter dropped; a
    successful GetNodes takes the counter to zero and the poll goes on with
    the nodes; five failures in a row from a counter of zero end in the
    failed display. *)
Theorem auth_failure_lockout (now : Time) (instanceName errStr : string) (m : Monitor) :
  configured instanceName m = true ->
  0 <= failureCount m (authNodeID instanceName "pve") ->
  let nodeID := authNodeID instanceName "pve" in
  let failed := (pollPVENodes now false instanceName (NodesErr errStr true) m).1 in
  (failureCount m nodeID < 4 ->
     failureCount failed nodeID = failureCount m nodeID + 1
     /\ Nodes (state failed) = Nodes (state m)
     /\ VMs (state failed) = VMs (state m)
     /\ Containers (state failed) = Containers (state m)
     /\ Storage (state failed) = Storage (state m)
     /\ ConnectionHealth (state failed) !! instanceName = Some false)
  /\ (failureCount m nodeID = 4 ->
        lockedOut instanceName failed /\ failureCount failed nodeID = 0)
  /\ (forall nodes,
        let ok := pollPVENodes now false instanceName (NodesOK nodes) m in
        failureCount ok.1 nodeID = 0 /\ ok.2 = Some nodes)
  /\ (forall step,
        failureCount m nodeID = 0 ->
        lockedOut instanceName (authFailureRun 5 now step instanceName m)).
Proof.
  intros Hcfg H0. cbv zeta. split; [|split; [|split]].
  - intros Hlt.
    destruct (pollPVENodes_counts now instanceName errStr m Hcfg ltac:(lia))
      as (_ & Hf & Hs).
    rewrite Hs. split; [exact Hf|]. simpl. by rewrite lookup_insert_eq.
  - intros H4. apply (pollPVENodes_locks now instanceName errStr m); [done|].
    unfold Go.maxInt64. lia.
  - intros nodes. unfold pollPVENodes. rewrite Hcfg. simpl.
    split; [|done].
    destruct (resetAuthFailures_zero instanceName "pve" m H0) as (Hf & _).
    exact Hf.
  - intros step Hz.
    apply (authFailureRun_locks 4 now step instanceName m Hcfg H0). lia.
Qed.

(** Instance [badtoken] of [twoInstances]: one failure counts, five in a
    row show it as failed. *)
Lemma auth_failure_lockout_witness :
  failureCount
    (pollPVENodes 0 false "badtoken" (NodesErr "401 Unauthorized" true) twoInstances).1
    "pve-badtoken" = 1
  /\ lockedOut "badtoken" (authFailureRun 5 0 (10 * Second) "badtoken" twoInstances).
Proof.
  destruct (auth_failure_lockout 0 "badtoken" "401 Unauthorized" twoInstances
              eq_refl ltac:(vm_compute; discriminate))
    as (Hcount & _ & _ & Hrun).
  split.
  - destruct (Hcount ltac:(vm_compute; reflexivity)) as (Hc & _). exact Hc.
  - apply Hrun. vm_compute. reflexivity.
Defined.

(** *** The efficient path *)

Lemma isVM_not_container (res : ClusterResource.t) :
  String.eqb (ClusterResource.Type_ res) "qemu" = true ->
  String.eqb (ClusterResource.Type_ res) "lxc" = false.
Proof. intros H. apply String.eqb_eq in H. by rewrite H. Qed.

(** The loop of the efficient path leaves the store alone and collects the
    resources that are VMs, and those that are containers, in their order,
    under the instance's name. *)
Lemma pollResource_fold
    (getGuestThresholds : Alerts.AlertConfig -> Alerts.Guest -> Alerts.ThresholdConfig)
    (isInQuietHours : Alerts.AlertConfig -> Time -> bool) (RateTracker : Type)
    (CalculateRates : string -> IOMetrics -> RateTracker -> Rates * RateTracker)
    (clock : nat -> Time) (instanceName : string) (resources : list ClusterResource.t)
    (st : GuestLoop RateTracker) :
  let st' :=
    foldl (pollResource getGuestThresholds isInQuietHours RateTracker CalculateRates
             clock instanceName) st resources in
  state (guestMonitor st') = state (guestMonitor st)
  /\ map Models.Guest.ID (allVMs st')
     = map Models.Guest.ID (allVMs st)
       ++ map (guestID instanceName) (List.filter isVM resources)
  /\ map Models.Guest.ID (allContainers st')
     = map Models.Guest.ID (allContainers st)
       ++ map (guestID instanceName) (List.filter isContainer resources)
  /\ (Forall (fun g => Models.Guest.Instance g = instanceName) (allVMs st) ->
      Forall (fun g => Models.Guest.Instance g = instanceName) (allVMs st'))
  /\ (Forall (fun g => Models.Guest.Instance g = instanceName) (allContainers st) ->
      Forall (fun g => Models.Guest.Instance g = instanceName) (allContainers st')).
Proof.
  revert st. induction resources as [|res resources IH]; intros st.
  - simpl. by rewrite !app_nil_r.
  - cbv zeta. simpl foldl.
    specialize (IH (pollResource getGuestThresholds isInQuietHours RateTracker
                      CalculateRates clock instanceName st res)).
    cbv zeta in IH. destruct IH as (Hs & Hv & Hc & Hfv & Hfc).
    rewrite Hs, Hv, Hc. clear Hs Hv Hc.
    assert (forall (l : list Models.Guest.t) g,
              Forall (fun g => Models.Guest.Instance g = instanceName) l ->
              Models.Guest.Instance g = instanceName ->
              Forall (fun g => Models.Guest.Instance g = instanceName) (l ++ [g])) as Hsnoc.
    { intros l g Hl Hg. apply Forall_app. split; [done|]. by constructor. }
    unfold pollResource in *. cbv zeta in *.
    destruct (CalculateRates (guestID instanceName res) _ (guestTracker st))
      as [rates tracker].
    unfold isVM, isContainer. simpl List.filter.
    destruct (String.eqb (ClusterResource.Type_ res) "qemu") eqn:Eq.
    + rewrite (isVM_not_container res Eq).
      destruct (ClusterResource.Template res =? 1) eqn:Et; simpl in *.
      * done.
      * rewrite map_app, <- app_assoc. simpl.
        split; [done|]. split; [done|]. split; [done|].
        split; [|done]. intros Hall. apply Hfv. by apply Hsnoc.
    + destruct (String.eqb (ClusterResource.Type_ res) "lxc") eqn:El.
      * destruct (ClusterResource.Template res =? 1) eqn:Et; simpl in *.
        -- done.
        -- rewrite map_app, <- app_assoc. simpl.
           split; [done|]. split; [done|]. split; [done|].
           split; [done|]. intros Hall. apply Hfc. by apply Hsnoc.
      * simpl in *. done.
Qed.

(** C10: after a successful GetClusterResources the efficient path calls
    UpdateVMsForInstance exactly when a resource is a VM that is no template,
    with these VMs, and UpdateContainersForInstance exactly when a resource is
    a container that is no template, and makes no other call on the store;
    when no VM is among the resources the VMs in the store stay as they were,
    and likewise the containers. *)
Theorem efficient_path_updates
    (getGuestThresholds : Alerts.AlertConfig -> Alerts.Guest -> Alerts.ThresholdConfig)
    (isInQuietHours : Alerts.AlertConfig -> Time -> bool) (RateTracker : Type)
    (CalculateRates : string -> IOMetrics -> RateTracker -> Rates * RateTracker)
    (clock : nat -> Time) (instanceName : string) (resources : list ClusterResource.t)
    (tracker : RateTracker) (m : Monitor) :
  let vms := List.filter isVM resources in
  let containers := List.filter isContainer resources in
  let result :=
    pollVMsAndContainersEfficient getGuestThresholds isInQuietHours RateTracker
      CalculateRates clock instanceName (Some resources) tracker m in
  let s' := state result.2 in
  result.1.1 = true
  /\ (exists allVMs allContainers,
        map Models.Guest.ID allVMs = map (guestID instanceName) vms
        /\ map Models.Guest.ID allContainers = map (guestID instanceName) containers
        /\ calls s'
           = calls (state m)
             ++ (if vms is [] then [] else [CallUpdateVMs instanceName allVMs])
             ++ (if containers is [] then []
                 else [CallUpdateContainers instanceName allContainers])
        /\ (vms <> [] -> ofInstance Models.Guest.Instance instanceName (VMs s') = allVMs)
        /\ (containers <> [] ->
            ofInstance Models.Guest.Instance instanceName (Containers s') = allContainers))
  /\ (vms = [] -> VMs s' = VMs (state m))
  /\ (containers = [] -> Containers s' = Containers (state m)).
Proof.
  cbv zeta. unfold pollVMsAndContainersEfficient, collectGuests. cbv zeta.
  pose proof (pollResource_fold getGuestThresholds isInQuietHours RateTracker
                CalculateRates clock instanceName resources
                (mkGuestLoop [] [] tracker m 0%nat)) as H.
  cbv zeta in H. simpl in H.
  set (st := foldl _ _ resources) in *.
  destruct H as (Hs & Hv & Hc & Hfv & Hfc).
  specialize (Hfv ltac:(constructor)). specialize (Hfc ltac:(constructor)).
  assert (allVMs st = [] <-> List.filter isVM resources = []) as Hve.
  { split; intros E.
    - rewrite E in Hv. simpl in Hv. symmetry in Hv. by apply map_eq_nil in Hv.
    - rewrite E in Hv. simpl in Hv. by apply map_eq_nil in Hv. }
  assert (allContainers st = [] <-> List.filter isContainer resources = []) as Hce.
  { split; intros E.
    - rewrite E in Hc. simpl in Hc. symmetry in Hc. by apply map_eq_nil in Hc.
    - rewrite E in Hc. simpl in Hc. by apply map_eq_nil in Hc. }
  split; [reflexivity|]. split.
  - exists (allVMs st), (allContainers st).
    split; [exact Hv|]. split; [exact Hc|].
    destruct (allVMs st) as [|vm vms] eqn:Ev;
      destruct (allContainers st) as [|ct cts] eqn:Ec; simpl.
    + rewrite (proj1 Hve eq_refl), (proj1 Hce eq_refl), Hs. simpl.
      rewrite app_nil_r. done.
    + rewrite (proj1 Hve eq_refl), Hs. simpl.
      destruct (List.filter isContainer resources) eqn:Ef;
        [by destruct Hce as [_ Hce]; specialize (Hce eq_refl)|].
      split; [done|]. split; [done|]. intros _.
      by apply ofInstance_replace.
    + rewrite (proj1 Hce eq_refl), Hs. simpl.
      destruct (List.filter isVM resources) eqn:Ef;
        [by destruct Hve as [_ Hve]; specialize (Hve eq_refl)|].
      rewrite app_nil_r. split; [done|]. split; [|done]. intros _.
      by apply ofInstance_replace.
    + rewrite Hs. simpl.
      destruct (List.filter isVM resources) eqn:Ef;
        [by destruct Hve as [_ Hve]; specialize (Hve eq_refl)|].
      destruct (List.filter isContainer resources) eqn:Ef';
        [by destruct Hce as [_ Hce]; specialize (Hce eq_refl)|].
      rewrite <- app_assoc. simpl.
      split; [done|]. split; intros _; by apply ofInstance_replace.
  - split.
    + intros E. apply Hve in E. rewrite E. simpl.
      destruct (0 <? length (allContainers st))%nat; simpl; by rewrite Hs.
    + intros E. apply Hce in E. rewrite E. simpl.
      destruct (0 <? length (allVMs st))%nat; simpl; by rewrite Hs.
Qed.

(** A template is the only resource: no call is made and the VM of [lab]
    stays in the store. *)
Lemma efficient_path_updates_witness :
  VMs (state (pollVMsAndContainersEfficient Alerts.guestDefaultsOnly neverQuiet unit
                zeroRates (fun _ => 0) "lab" (Some [resourceOf "qemu" "n1" 900 1]) tt
                twoInstances).2)
  = VMs (state twoInstances).
Proof.
  destruct (efficient_path_updates Alerts.guestDefaultsOnly neverQuiet unit zeroRates
              (fun _ => 0) "lab" [resourceOf "qemu" "n1" 900 1] tt twoInstances)
    as (_ & _ & Hvms & _).
  apply Hvms. reflexivity.
Defined.

(** *** Storage *)

Lemma toModelStorage_fields (instanceName nodeName : string)
    (configs : gmap string PStorage.t) (storage : PStorage.t) :
  let e := toModelStorage instanceName nodeName configs storage in
  Models.Storage.Name e = PStorage.Storage storage
  /\ Models.Storage.Shared e = markedShared configs (PStorage.Storage storage)
  /\ Models.Storage.Instance e = instanceName
  /\ Models.Storage.Node e
     = (if markedShared configs (PStorage.Storage storage) then "shared" else nodeName)
  /\ Models.Storage.ID e
     = (if markedShared configs (PStorage.Storage storage)
        then "shared-" +:+ PStorage.Storage storage
        else instanceName +:+ "-" +:+ nodeName +:+ "-" +:+ PStorage.Storage storage).
Proof. cbv zeta. repeat split. Qed.

Lemma setStorageInstance_same (instanceName : string) (e : Models.Storage.t) :
  Models.Storage.Instance e = instanceName -> setStorageInstance instanceName e = e.
Proof. intros <-. by destruct e. Qed.

(** One round of the inner loop: a shared storage seen before is skipped,
    any other is appended; the store is not touched. *)
Lemma pollStorageEntry_step (isInQuietHours : Alerts.AlertConfig -> Time -> bool)
    (clock : nat -> Time) (instanceName nodeName : string)
    (configs : gmap string PStorage.t) (st : StorageLoop) (storage : PStorage.t) :
  let st' := pollStorageEntry isInQuietHours clock instanceName nodeName configs st storage in
  let name := PStorage.Storage storage in
  state (storageMonitor st') = state (storageMonitor st)
  /\ ((markedShared configs name = true /\ (name ∈ seenStorage st) /\ st' = st)
      \/ (markedShared configs name = true /\ (name ∉ seenStorage st)
          /\ allStorage st' = allStorage st
                              ++ [toModelStorage instanceName nodeName configs storage]
          /\ seenStorage st' = {[name]} ∪ seenStorage st)
      \/ (markedShared configs name = false
          /\ allStorage st' = allStorage st
                              ++ [toModelStorage instanceName nodeName configs storage]
          /\ seenStorage st' = seenStorage st)).
Proof.
  cbv zeta. unfold pollStorageEntry. cbv zeta.
  change (isShared configs storage) with (markedShared configs (PStorage.Storage storage)).
  destruct (markedShared configs (PStorage.Storage storage)) eqn:Es.
  - case_bool_decide as Hin; cbn [andb].
    + split; [done|]. left. done.
    + split; [done|]. right. left. done.
  - cbn [andb]. split; [done|]. right. right. done.
Qed.

Lemma foldl_map_list {A B C : Type} (f : A -> B -> A) (g : C -> B) (l : list C) (a : A) :
  foldl f a (map g l) = foldl (fun acc x => f acc (g x)) a l.
Proof. revert a. induction l as [|x l IH]; intros a; [done|]. simpl. apply IH. Qed.

(** The two loops go through the reported storages in order. *)
Lemma collectStorage_flat (isInQuietHours : Alerts.AlertConfig -> Time -> bool)
    (clock : nat -> Time) (instanceName : string) (clusterStorages : list PStorage.t)
    (reports : list (PNode.t * option (list PStorage.t))) (m : Monitor) :
  collectStorage isInQuietHours clock instanceName clusterStorages reports m
  = foldl (fun st (r : string * PStorage.t) =>
             pollStorageEntry isInQuietHours clock instanceName r.1
               (clusterStorageMap clusterStorages) st r.2)
      (mkStorageLoop [] ∅ m) (reported reports).
Proof.
  unfold collectStorage. generalize (mkStorageLoop [] ∅ m).
  induction reports as [|report reports IH]; intros st; [done|].
  unfold reported in *. simpl. rewrite foldl_app, <- IH. f_equal.
  unfold pollStorageNode. destruct report as [node [nodeStorage|]]; simpl; [|done].
  by rewrite foldl_map_list.
Qed.

(** What the loops keep, over the storages reported so far. *)
Lemma storage_loop_invariant (isInQuietHours : Alerts.AlertConfig -> Time -> bool)
    (clock : nat -> Time) (instanceName : string) (configs : gmap string PStorage.t)
    (m : Monitor) (rs : list (string * PStorage.t)) :
  let st :=
    foldl (fun st (r : string * PStorage.t) =>
             pollStorageEntry isInQuietHours clock instanceName r.1 configs st r.2)
      (mkStorageLoop [] ∅ m) rs in
  (forall name,
      name ∈ seenStorage st
      <-> exists r, r ∈ rs /\ markedShared configs (PStorage.Storage r.2) = true
                    /\ PStorage.Storage r.2 = name)
  /\ List.filter (fun e => negb (Models.Storage.Shared e)) (allStorage st)
     = map (fun r : string * PStorage.t => toModelStorage instanceName r.1 configs r.2)
         (List.filter
            (fun r : string * PStorage.t =>
               negb (markedShared configs (PStorage.Storage r.2))) rs)
  /\ NoDup (map Models.Storage.Name (List.filter Models.Storage.Shared (allStorage st)))
  /\ (forall e, e ∈ allStorage st ->
        Models.Storage.Instance e = instanceName
        /\ Models.Storage.Shared e = markedShared configs (Models.Storage.Name e)
        /\ (Models.Storage.Shared e = true ->
            Models.Storage.Name e ∈ seenStorage st
            /\ Models.Storage.Node e = "shared"
            /\ Models.Storage.ID e = "shared-" +:+ Models.Storage.Name e))
  /\ (forall name,
        markedShared configs name = true ->
        if bool_decide (name ∈ seenStorage st)
        then exists e,
            List.filter (fun e => String.eqb (Models.Storage.Name e) name) (allStorage st)
            = [e]
        else List.filter (fun e => String.eqb (Models.Storage.Name e) name) (allStorage st)
             = [])
  /\ state (storageMonitor st) = state m.
Proof.
  induction rs as [|r rs IH] using rev_ind.
  - simpl. split; [|split; [|split; [|split; [|split]]]]; try done.
    + intros name. split; [set_solver|]. intros (r & Hr & _). by apply elem_of_nil in Hr.
    + constructor.
    + intros e He. by apply elem_of_nil in He.
  - cbv zeta in *. rewrite foldl_app. simpl foldl.
    set (st := foldl _ _ rs) in *.
    destruct IH as (Hseen & Hplain & Hnodup & Hall & Hcount & Hstate).
    destruct (pollStorageEntry_step isInQuietHours clock instanceName r.1 configs st r.2)
      as (Hs' & Hstep).
    destruct (toModelStorage_fields instanceName r.1 configs r.2)
      as (Fname & Fshared & Finst & Fnode & Fid).
    remember (toModelStorage instanceName r.1 configs r.2) as e' eqn:He' in *.
    set (st' := pollStorageEntry _ _ _ _ _ st _) in *.
    clearbody st'.
    destruct Hstep as [(Hm & Hin & Heq) | [(Hm & Hnin & Hal & Hse) | (Hm & Hal & Hse)]].
    + (* a shared storage seen before *)
      rewrite Heq. split; [|split; [|split; [|split; [|split]]]]; try done.
      * intros name. rewrite Hseen. split.
        -- intros (r0 & Hr0 & H1 & H2). exists r0. split; [|done].
           apply elem_of_app. by left.
        -- intros (r0 & Hr0 & H1 & H2). apply elem_of_app in Hr0 as [Hr0|Hr0].
           ++ by exists r0.
           ++ apply list_elem_of_singleton in Hr0. subst r0.
              apply Hseen. by rewrite <- H2.
      * rewrite List.filter_app. simpl. rewrite Hm. simpl. by rewrite app_nil_r.
    + (* a shared storage seen for the first time *)
      rewrite Hal, Hse. split; [|split; [|split; [|split; [|split]]]].
      * intros name. rewrite elem_of_union, elem_of_singleton, Hseen. split.
        -- intros [-> | (r0 & Hr0 & H1 & H2)].
           ++ exists r. split; [|done]. apply elem_of_app. right. by constructor.
           ++ exists r0. split; [|done]. apply elem_of_app. by left.
        -- intros (r0 & Hr0 & H1 & H2). apply elem_of_app in Hr0 as [Hr0|Hr0].
           ++ right. by exists r0.
           ++ apply list_elem_of_singleton in Hr0. subst r0. by left.
      * rewrite !List.filter_app. simpl. rewrite Fshared, Hm. simpl.
        by rewrite !app_nil_r.
      * rewrite List.filter_app. simpl. rewrite Fshared, Hm, map_app. simpl.
        apply NoDup_app. split; [done|]. split; [|apply NoDup_singleton].
        intros name Hname Hname'. apply list_elem_of_singleton in Hname'. subst name.
        apply list_elem_of_fmap in Hname as (e & He & Hin).
        apply list_elem_of_In, List.filter_In in Hin as [Hin Hsh].
        apply list_elem_of_In in Hin.
        destruct (Hall e Hin) as (_ & _ & Hsh'). destruct (Hsh' Hsh) as (Hin' & _).
        apply Hnin. rewrite <- Fname, He. exact Hin'.
      * intros e He. apply elem_of_app in He as [He|He].
        -- destruct (Hall e He) as (H1 & H2 & H3). split; [done|]. split; [done|].
           intros Hsh. destruct (H3 Hsh) as (H4 & H5 & H6).
           split; [|done]. apply elem_of_union. by right.
        -- apply list_elem_of_singleton in He. subst e.
           split; [done|]. split; [by rewrite Fname|]. intros _.
           rewrite Fnode, Fid, Fname, Hm. split; [|done].
           apply elem_of_union. left. by apply elem_of_singleton.
      * intros name Hname. specialize (Hcount name Hname).
        rewrite List.filter_app. simpl. rewrite Fname.
        destruct (String.eqb (PStorage.Storage r.2) name) eqn:En.
        -- apply String.eqb_eq in En. subst name.
           rewrite bool_decide_eq_true_2 by (apply elem_of_union; left; by apply elem_of_singleton).
           rewrite (bool_decide_eq_false_2 _ Hnin) in Hcount. rewrite Hcount.
           by exists e'.
        -- apply String.eqb_neq in En. rewrite app_nil_r.
           destruct (bool_decide (name ∈ seenStorage st)) eqn:Eb.
           ++ apply bool_decide_eq_true_1 in Eb.
              rewrite bool_decide_eq_true_2 by (apply elem_of_union; by right).
              exact Hcount.
           ++ apply bool_decide_eq_false_1 in Eb.
              rewrite bool_decide_eq_false_2; [exact Hcount|].
              rewrite elem_of_union, elem_of_singleton. intros [?|?]; congruence.
      * congruence.
    + (* a storage that is not shared *)
      rewrite Hal, Hse. split; [|split; [|split; [|split; [|split]]]].
      * intros name. rewrite Hseen. split.
        -- intros (r0 & Hr0 & H1 & H2). exists r0. split; [|done].
           apply elem_of_app. by left.
        -- intros (r0 & Hr0 & H1 & H2). apply elem_of_app in Hr0 as [Hr0|Hr0].
           ++ by exists r0.
           ++ apply list_elem_of_singleton in Hr0. subst r0. congruence.
      * rewrite !List.filter_app. simpl. rewrite Fshared, Hm. simpl.
        rewrite map_app. simpl. by rewrite <- He', Hplain.
      * rewrite List.filter_app. simpl. rewrite Fshared, Hm. simpl.
        by rewrite app_nil_r.
      * intros e He. apply elem_of_app in He as [He|He].
        -- by apply Hall.
        -- apply list_elem_of_singleton in He. subst e.
           split; [done|]. split; [by rewrite Fname|].
           rewrite Fshared, Hm. discriminate.
      * intros name Hname. specialize (Hcount name Hname).
        rewrite List.filter_app. simpl. rewrite Fname.
        destruct (String.eqb (PStorage.Storage r.2) name) eqn:En.
        -- apply String.eqb_eq in En. congruence.
        -- by rewrite app_nil_r.
      * congruence.
Qed.

(** The storage published for the instance is the list that the loops
    build, whatever the store held before. *)
Lemma pollStorageWithNodes_published (isInQuietHours : Alerts.AlertConfig -> Time -> bool)
    (clock : nat -> Time) (instanceName : string) (clusterStorages : list PStorage.t)
    (reports : list (PNode.t * option (list PStorage.t))) (m : Monitor) :
  ofInstance Models.Storage.Instance instanceName
    (Storage (state (pollStorageWithNodes isInQuietHours clock instanceName
                       clusterStorages reports m)))
  = allStorage (collectStorage isInQuietHours clock instanceName clusterStorages reports m).
Proof.
  unfold pollStorageWithNodes. cbv zeta.
  pose proof (storage_loop_invariant isInQuietHours clock instanceName
                (clusterStorageMap clusterStorages) m (reported reports)) as H.
  cbv zeta in H. rewrite <- collectStorage_flat in H.
  destruct H as (_ & _ & _ & Hall & _ & _).
  set (st := collectStorage _ _ _ _ _ _) in *. clearbody st.
  cbn [state with_state UpdateStorageForInstance Storage].
  assert (map (setStorageInstance instanceName) (allStorage st) = allStorage st) as ->.
  { induction (allStorage st) as [|e l IH]; [done|]. simpl.
    rewrite setStorageInstance_same by (apply Hall; by left).
    rewrite IH; [done|]. intros e0 He0. apply Hall. by right. }
  apply ofInstance_replace. apply Forall_forall. intros e He. by apply Hall.
Qed.

Lemma append_String (a : Ascii.ascii) (s t : string) :
  String a s +:+ t = String a (s +:+ t).
Proof. reflexivity. Qed.

Lemma append_empty (t : string) : "" +:+ t = t.
Proof. reflexivity. Qed.

(** An id <instance>-<node>-<name> starts with [shared-] only when the
    instance's name, followed by a dash, does. *)
Lemma instance_id_prefix (instanceName rest : string) :
  String.prefix "shared-" (instanceName +:+ "-") = false ->
  String.prefix "shared-" (instanceName +:+ "-" +:+ rest) = false.
Proof.
  do 7 (destruct instanceName as [|? instanceName];
        rewrite ?append_String, ?append_empty; cbn [String.prefix];
        [ repeat (destruct (Ascii.ascii_dec _ _) as [Heq|]; try discriminate Heq; try done)
        | destruct (Ascii.ascii_dec _ _); [|done] ]).
  destruct instanceName; rewrite ?append_String, ?append_empty; done.
Qed.

(** The instance names for which that is so: the name [shared] and the
    names that start with [shared-]. *)
Lemma shared_instance_names (instanceName : string) :
  String.prefix "shared-" (instanceName +:+ "-") = true
  <-> instanceName = "shared" \/ String.prefix "shared-" instanceName = true.
Proof.
  do 6 (destruct instanceName as [|? instanceName];
        rewrite ?append_String, ?append_empty; cbn [String.prefix];
        [ split; [|intros [|]]; try discriminate;
          repeat (destruct (Ascii.ascii_dec _ _) as [Heq|]; try discriminate Heq; try done)
        | destruct (Ascii.ascii_dec _ _) as [<-|Hne];
          [| split; [|intros [[=]|]]; try discriminate; try congruence ] ]).
  destruct instanceName as [|? instanceName];
    rewrite ?append_String, ?append_empty; cbn [String.prefix].
  - split; [by left|]. intros _. by destruct (Ascii.ascii_dec _ _).
  - destruct (Ascii.ascii_dec _ _) as [<-|Hne].
    + split; [intros _; right|intros _]; by destruct instanceName.
    + split; [done|]. by intros [[=]|].
Qed.

(** When each element is selected by [f] exactly when its image is selected
    by [g], filtering commutes with [map]. *)
Lemma filter_map_agree {A B : Type} (f : A -> bool) (g : B -> bool) (h : A -> B)
    (l : list A) :
  (forall a, List.In a l -> g (h a) = f a) ->
  List.filter g (map h l) = map h (List.filter f l).
Proof.
  induction l as [|a l IH]; intros H; [done|]. simpl.
  rewrite (H a (or_introl eq_refl)), IH by (intros b Hb; apply H; by right).
  by destruct (f a).
Qed.

(** C7, as amended: in the storage that a poll publishes for an instance, a
    storage that the cluster's configuration marks shared and that some node
    reports appears exactly once, with node "shared" and id "shared-<name>";
    the storages that are not marked shared appear once for each report of a
    node, in the order of the reports, with id <instance>-<node>-<name>; no
    two of the published entries that are flagged shared have the same id;
    and when the name of the instance followed by a dash does not start with
    "shared-" (the name is not "shared" and does not start with "shared-"),
    no two published entries at all have the same id that starts with
    "shared-". *)
Theorem shared_storage_once (isInQuietHours : Alerts.AlertConfig -> Time -> bool)
    (clock : nat -> Time) (instanceName : string) (clusterStorages : list PStorage.t)
    (reports : list (PNode.t * option (list PStorage.t))) (m : Monitor) :
  let configs := clusterStorageMap clusterStorages in
  let published :=
    ofInstance Models.Storage.Instance instanceName
      (Storage (state (pollStorageWithNodes isInQuietHours clock instanceName
                         clusterStorages reports m))) in
  (forall name node storage,
      markedShared configs name = true ->
      (node, storage) ∈ reported reports ->
      PStorage.Storage storage = name ->
      exists e,
        List.filter (fun e => String.eqb (Models.Storage.Name e) name) published = [e]
        /\ Models.Storage.Node e = "shared"
        /\ Models.Storage.ID e = "shared-" +:+ name
        /\ Models.Storage.Shared e = true)
  /\ map (fun e => (Models.Storage.ID e, Models.Storage.Node e, Models.Storage.Name e))
       (List.filter (fun e => negb (Models.Storage.Shared e)) published)
     = map (fun r : string * PStorage.t =>
              (instanceName +:+ "-" +:+ r.1 +:+ "-" +:+ PStorage.Storage r.2, r.1,
               PStorage.Storage r.2))
         (List.filter
            (fun r : string * PStorage.t =>
               negb (markedShared configs (PStorage.Storage r.2)))
            (reported reports))
  /\ NoDup (map Models.Storage.ID (List.filter Models.Storage.Shared published))
  /\ (String.prefix "shared-" (instanceName +:+ "-") = false ->
      List.filter (String.prefix "shared-") (map Models.Storage.ID published)
      = map Models.Storage.ID (List.filter Models.Storage.Shared published)
      /\ NoDup (List.filter (String.prefix "shared-") (map Models.Storage.ID published))).
Proof.
  cbv zeta. rewrite pollStorageWithNodes_published.
  pose proof (storage_loop_invariant isInQuietHours clock instanceName
                (clusterStorageMap clusterStorages) m (reported reports)) as H.
  cbv zeta in H. rewrite <- collectStorage_flat in H.
  destruct H as (Hseen & Hplain & Hnodup & Hall & Hcount & _).
  set (st := collectStorage _ _ _ _ _ _) in *. clearbody st.
  assert (Hids : map Models.Storage.ID (List.filter Models.Storage.Shared (allStorage st))
                 = map (String.append "shared-")
                     (map Models.Storage.Name
                        (List.filter Models.Storage.Shared (allStorage st)))).
  { rewrite map_map. apply map_ext_in. intros e He.
    apply List.filter_In in He as [He Hsh]. apply list_elem_of_In in He.
    destruct (Hall e He) as (_ & _ & Hshared). by destruct (Hshared Hsh) as (_ & _ & ->). }
  assert (Hshared_ids :
            NoDup (map Models.Storage.ID
                     (List.filter Models.Storage.Shared (allStorage st)))).
  { rewrite Hids. by apply (NoDup_fmap_2 (String.append "shared-")). }
  split; [|split; [|split]].
  - intros name node storage Hname Hin Heq.
    specialize (Hcount name Hname).
    rewrite bool_decide_eq_true_2 in Hcount
      by (apply Hseen; exists (node, storage); simpl; rewrite Heq; done).
    destruct Hcount as (e & He). exists e. split; [exact He|].
    assert (List.In e (List.filter
                         (fun e => String.eqb (Models.Storage.Name e) name)
                         (allStorage st))) as Hine by (rewrite He; by left).
    apply List.filter_In in Hine as [Hine En]. apply String.eqb_eq in En.
    apply list_elem_of_In in Hine.
    destruct (Hall e Hine) as (_ & Hsh & Hshared).
    rewrite En, Hname in Hsh. destruct (Hshared Hsh) as (_ & Hnode & Hid).
    rewrite En in Hid. done.
  - rewrite Hplain, map_map.
    apply map_ext_in. intros r Hr.
    apply List.filter_In in Hr as [_ Hr]. apply negb_true_iff in Hr.
    destruct (toModelStorage_fields instanceName r.1 (clusterStorageMap clusterStorages)
                r.2) as (Fname & _ & _ & Fnode & Fid).
    by rewrite Fname, Fnode, Fid, Hr.
  - exact Hshared_ids.
  - intros Hinst.
    assert (Hsel : List.filter (String.prefix "shared-")
                     (map Models.Storage.ID (allStorage st))
                   = map Models.Storage.ID
                       (List.filter Models.Storage.Shared (allStorage st))).
    { apply filter_map_agree. intros e He.
      destruct (Models.Storage.Shared e) eqn:Hsh.
      - apply list_elem_of_In in He.
        destruct (Hall e He) as (_ & _ & Hshared).
        destruct (Hshared Hsh) as (_ & _ & ->).
        change (String.prefix "shared-" ("shared-" +:+ Models.Storage.Name e))
          with (String.prefix "" (Models.Storage.Name e)).
        by destruct (Models.Storage.Name e).
      - assert (List.In e (List.filter (fun e => negb (Models.Storage.Shared e))
                             (allStorage st))) as Hplain_e
            by (apply List.filter_In; split; [done | by rewrite Hsh]).
        rewrite Hplain in Hplain_e. apply List.in_map_iff in Hplain_e as (r & <- & Hr).
        apply List.filter_In in Hr as [_ Hr]. apply negb_true_iff in Hr.
        destruct (toModelStorage_fields instanceName r.1
                    (clusterStorageMap clusterStorages) r.2) as (_ & _ & _ & _ & ->).
        rewrite Hr. by apply instance_id_prefix. }
    rewrite Hsel. by split.
Qed.

(** The nodes [n1], [n2], [n3] all report [ceph-rbd]: it is published
    once, as shared, and no other entry of the instance [lab] has its id. *)
Lemma shared_storage_once_witness :
  (exists e,
      List.filter (fun e => String.eqb (Models.Storage.Name e) "ceph-rbd")
        (ofInstance Models.Storage.Instance "lab"
           (Storage (state (pollStorageWithNodes neverQuiet (fun _ => 0) "lab" cephCluster
                              cephReports twoInstances))))
      = [e]
      /\ Models.Storage.Node e = "shared"
      /\ Models.Storage.ID e = "shared-ceph-rbd"
      /\ Models.Storage.Shared e = true)
  /\ NoDup
       (List.filter (String.prefix "shared-")
          (map Models.Storage.ID
             (ofInstance Models.Storage.Instance "lab"
                (Storage (state (pollStorageWithNodes neverQuiet (fun _ => 0) "lab"
                                   cephCluster cephReports twoInstances)))))).
Proof.
  destruct (shared_storage_once neverQuiet (fun _ => 0) "lab" cephCluster cephReports
              twoInstances) as (Hshared & _ & _ & Hids).
  split.
  - apply (Hshared "ceph-rbd" "n2" (storageOf "ceph-rbd" 1)).
    + vm_compute. reflexivity.
    + apply list_elem_of_In. vm_compute. tauto.
    + reflexivity.
  - apply Hids. reflexivity.
Defined.

(** C7 as stated fails for an instance whose name is [shared]: the storage
    [local] of its node [n1], which is not shared, gets the id
    <instance>-<node>-<name> = [shared-n1-local], and so does the shared
    storage [n1-local].  One poll publishes two entries with that id. *)
Lemma shared_id_collision_counterexample :
  let published :=
    ofInstance Models.Storage.Instance "shared"
      (Storage (state (pollStorageWithNodes neverQuiet (fun _ => 0) "shared"
                         collidingCluster collidingReports sharedInstance))) in
  map (fun e => (Models.Storage.ID e, Models.Storage.Node e, Models.Storage.Name e,
                 Models.Storage.Shared e)) published
  = [("shared-n1-local", "n1", "local", false);
     ("shared-n1-local", "shared", "n1-local", true)]
  /\ ~ NoDup (List.filter (String.prefix "shared-") (map Models.Storage.ID published)).
Proof.
  cbv zeta.
  assert (map Models.Storage.ID
            (ofInstance Models.Storage.Instance "shared"
               (Storage (state (pollStorageWithNodes neverQuiet (fun _ => 0) "shared"
                                  collidingCluster collidingReports sharedInstance))))
          = ["shared-n1-local"; "shared-n1-local"]) as Hids by (vm_compute; reflexivity).
  split; [vm_compute; reflexivity|].
  rewrite Hids. intros Hnd.
  change (List.filter (String.prefix "shared-") ["shared-n1-local"; "shared-n1-local"])
    with ["shared-n1-local"; "shared-n1-local"] in Hnd.
  apply NoDup_cons in Hnd as [Hnot _]. apply Hnot. by left.
Qed.

End MonitoringFacts.

(** ** Rate limit, acknowledgement, escalation and clean-up of alerts *)

Module AlertsAdminFacts.
Import Go GoFacts Alerts AlertsAdmin.

(** *** The rate limit *)

Lemma rateBounded_ext (m m' : Manager) :
  alertRateLimit m' = alertRateLimit m -> config m' = config m ->
  rateBounded m -> rateBounded m'.
Proof. unfold rateBounded. intros -> ->. done. Qed.

Lemma checkRateLimit_bounded (now : Time) (alertID : string) (m : Manager) :
  rateBounded m -> rateBounded (checkRateLimit now alertID m).2.
Proof.
  intros Hb. unfold checkRateLimit. cbv zeta.
  destruct (MaxAlertsHour (Schedule (config m)) <=? 0) eqn:E0; [done|].
  set (recent := match alertRateLimit m !! alertID with
                 | Some times => _ | None => [] end).
  destruct (Z.leb_spec (MaxAlertsHour (Schedule (config m))) (Z.of_nat (length recent)));
    [done|].
  intros id times. simpl.
  destruct (decide (id = alertID)) as [->|Hne].
  - rewrite lookup_insert_eq. intros [= <-]. rewrite length_app. simpl. lia.
  - rewrite lookup_insert_ne by done. apply Hb.
Qed.

Lemma raiseAlert_bounded now quiet rid rname node inst rtype mtype value th m :
  rateBounded m ->
  rateBounded (raiseAlert now quiet rid rname node inst rtype mtype value th m).
Proof.
  intros Hb. unfold raiseAlert. cbv zeta.
  destruct (isRecentDuplicate _ _ _ m); [by apply (rateBounded_ext m)|].
  set (m1 := emit _ _).
  assert (rateBounded m1) as Hb1 by by apply (rateBounded_ext m).
  pose proof (checkRateLimit_bounded now (metricAlertID rid mtype) m1 Hb1) as Hb2.
  destruct (checkRateLimit now (metricAlertID rid mtype) m1) as [allowed m2].
  simpl in Hb2.
  destruct (negb allowed); [done|]. destruct (quiet && _); [done|].
  destruct (onAlert m2); [|done]. by apply (rateBounded_ext m2).
Qed.

Lemma checkMetric_bounded now quiet rid rname node inst rtype mtype value threshold m :
  rateBounded m ->
  rateBounded (checkMetric now quiet rid rname node inst rtype mtype value threshold m).
Proof.
  intros Hb. unfold checkMetric. destruct threshold as [th|]; [|done].
  destruct (F64.le (Trigger th) 0); [done|]. cbv zeta.
  destruct (isSuppressed _ _ m); [done|].
  destruct (F64.ge value (Trigger th)).
  - destruct (activeAlerts m !! _) as [p|].
    + by apply (rateBounded_ext m).
    + destruct (0 <? TimeThreshold (config m)).
      * destruct (pendingAlerts m !! _) as [pendingTime|].
        -- destruct (_ <=? _); [|done]. apply raiseAlert_bounded.
           by apply (rateBounded_ext m).
        -- by apply (rateBounded_ext m).
      * by apply raiseAlert_bounded.
  - destruct (activeAlerts m !! _) as [p|].
    + destruct (F64.le value _).
      * unfold resolveAlert. cbv zeta.
        match goal with |- context [if ?b then _ else _] => destruct b end;
          by apply (rateBounded_ext m).
      * by apply (rateBounded_ext m).
    + by apply (rateBounded_ext m).
Qed.

Lemma filter_bool {A : Type} (f : A -> bool) (l : list A) :
  filter (fun x => f x = true) l = List.filter f l.
Proof.
  induction l as [|x l IH]; [done|]. rewrite filter_cons, IH. simpl.
  destruct (f x); [by rewrite decide_True | by rewrite decide_False].
Qed.

Lemma recent_filter (now : Time) (alertID : string) (m : Manager) :
  match alertRateLimit m !! alertID with
  | Some times => filter (fun t => Go.After t (Add now (-1 * Hour)) = true) times
  | None => []
  end
  = List.filter (fun t => Go.After t (Add now (-1 * Hour)))
      (default [] (alertRateLimit m !! alertID)).
Proof.
  destruct (alertRateLimit m !! alertID) as [times|]; [|done]. apply filter_bool.
Qed.

(** X18: with a positive hourly limit, [checkRateLimit] allows a
    notification exactly when fewer than [MaxAlertsHour] notifications of the
    alert id are on record for the last hour; an allowed one is recorded
    behind those of the last hour and the older ones are forgotten, a refused
    one changes nothing.  The list on record for an id never grows beyond the
    limit, over [checkRateLimit] as over [checkMetric]. *)
Theorem rate_limit_bounds (now : Time) (alertID : string) (m : Manager) :
  0 < MaxAlertsHour (Schedule (config m)) ->
  let result := checkRateLimit now alertID m in
  let recent :=
    List.filter (fun t => Go.After t (Add now (-1 * Hour)))
      (default [] (alertRateLimit m !! alertID)) in
  result.1 = bool_decide (Z.of_nat (length recent) < MaxAlertsHour (Schedule (config m)))
  /\ (result.1 = true ->
      alertRateLimit result.2 = <[alertID := recent ++ [now]]> (alertRateLimit m))
  /\ (result.1 = false -> result.2 = m)
  /\ (rateBounded m -> rateBounded result.2)
  /\ (forall quiet rid rname node inst rtype mtype value threshold,
        rateBounded m ->
        rateBounded
          (checkMetric now quiet rid rname node inst rtype mtype value threshold m)).
Proof.
  intros Hpos. cbv zeta.
  split; [|split; [|split; [|split]]].
  - unfold checkRateLimit. cbv zeta.
    destruct (Z.leb_spec (MaxAlertsHour (Schedule (config m))) 0); [lia|].
    rewrite (recent_filter now alertID m).
    destruct (Z.leb_spec (MaxAlertsHour (Schedule (config m)))
                (Z.of_nat (length (List.filter (fun t => Go.After t (Add now (-1 * Hour)))
                                     (default [] (alertRateLimit m !! alertID)))))).
    + simpl. by rewrite bool_decide_eq_false_2 by lia.
    + simpl. by rewrite bool_decide_eq_true_2 by lia.
  - unfold checkRateLimit. cbv zeta.
    destruct (Z.leb_spec (MaxAlertsHour (Schedule (config m))) 0); [lia|].
    rewrite (recent_filter now alertID m).
    destruct (_ <=? _); [discriminate|]. done.
  - unfold checkRateLimit. cbv zeta.
    destruct (Z.leb_spec (MaxAlertsHour (Schedule (config m))) 0); [lia|].
    destruct (_ <=? _); [done | discriminate].
  - apply checkRateLimit_bounded.
  - intros. by apply checkMetric_bounded.
Qed.

(** The first notification of an alert id is allowed. *)
Lemma rate_limit_bounds_witness :
  (checkRateLimit 0 "lab-px1-100-memory" (newManager defaultConfig)).1 = true.
Proof.
  destruct (rate_limit_bounds 0 "lab-px1-100-memory" (newManager defaultConfig)
              ltac:(by vm_compute)) as (Hallowed & _).
  rewrite Hallowed. reflexivity.
Defined.

(** *** Acknowledged alerts *)

Lemma escalateAlert_acknowledged (later : Time) (q : nat) (m : Manager) (p : nat)
    (a : Alert) :
  heap m !! p = Some a -> Acknowledged a = true ->
  let m' := escalateAlert later q m in
  heap m' !! p = Some a /\ escalationsOf p m' = escalationsOf p m.
Proof.
  intros Hp Hack. cbv zeta. unfold escalateAlert.
  destruct (heap m !! q) as [b|] eqn:Hq; [|done].
  destruct (Acknowledged b) eqn:Hb; [done|].
  assert (q <> p) as Hne by (intros ->; congruence).
  destruct (escalateLevels later 0 _ b) as [b' fired].
  cbn [onEscalate with_heap].
  assert (Hfired : List.filter (isEscalationOf p) (map (OnEscalate q) fired) = []).
  { induction fired as [|l fired IH]; [done|]. simpl.
    destruct (Nat.eqb_spec q p); [done | exact IH]. }
  destruct (onEscalate m).
  - rewrite AlertsFacts.escalationsOf_emit by exact Hfired.
    simpl. by rewrite lookup_insert_ne.
  - simpl. by rewrite lookup_insert_ne.
Qed.

Lemma checkEscalations_acknowledged (later : Time) (m : Manager) (p : nat) (a : Alert) :
  heap m !! p = Some a -> Acknowledged a = true ->
  let m' := checkEscalations later m in
  heap m' !! p = Some a /\ escalationsOf p m' = escalationsOf p m.
Proof.
  intros Hp Hack. cbv zeta. unfold checkEscalations.
  destruct (negb _); [done|].
  generalize (map_to_list (activeAlerts m)). intros entries.
  revert m Hp. induction entries as [|[id q] entries IH]; intros m Hp; [done|].
  simpl.
  destruct (escalateAlert_acknowledged later q m p a Hp Hack) as [Hp1 He1].
  destruct (IH _ Hp1) as [Hp2 He2]. split; congruence.
Qed.

(** X19: [AcknowledgeAlert] returns an error and changes nothing for an id
    without active alert.  For an active alert it marks the object
    acknowledged, with the time and the user, and changes nothing else: the
    alert stays active, the other alerts are untouched and no callback is
    made.  From then on [checkEscalations] leaves the alert alone, at any
    later instant: its escalation state stays and no escalation callback is
    made for it. *)
Theorem acknowledged_alert_is_not_escalated (now : Time) (alertID user : string)
    (m : Manager) :
  let result := AcknowledgeAlert now alertID user m in
  (activeAlerts m !! alertID = None ->
   result = (Some ("alert not found: " +:+ alertID), m))
  /\ (forall p a,
        activeAlerts m !! alertID = Some p -> heap m !! p = Some a ->
        result.1 = None
        /\ activeAlerts result.2 = activeAlerts m
        /\ heap result.2 !! p = Some (setAcknowledged now user a)
        /\ (forall q, q <> p -> heap result.2 !! q = heap m !! q)
        /\ events result.2 = events m
        /\ (forall later,
              let m' := checkEscalations later result.2 in
              heap m' !! p = Some (setAcknowledged now user a)
              /\ escalationsOf p m' = escalationsOf p m)).
Proof.
  cbv zeta. unfold AcknowledgeAlert. split.
  - by intros ->.
  - intros p a Hactive Hp. rewrite Hactive. simpl.
    assert (alter (setAcknowledged now user) p (heap m) !! p
            = Some (setAcknowledged now user a)) as Hp'
        by (by rewrite lookup_alter_eq, Hp).
    split; [done|]. split; [done|]. split; [exact Hp'|].
    split; [intros q Hne; by rewrite lookup_alter_ne|]. split; [done|].
    intros later.
    apply (checkEscalations_acknowledged later
             (with_heap (alter (setAcknowledged now user) p) m) p
             (setAcknowledged now user a)); done.
Qed.

(** *** Escalation *)

(** After the loop over the levels nothing is left to fire at the same
    instant, also for an alert that is further up the ladder. *)
Lemma escalateLevels_settles (now : Time) (levels : list EscalationLevel) (i : Z)
    (a : Alert) :
  let result := escalateLevels now i levels a in
  StartTime result.1 = StartTime a
  /\ LastEscalation a <= LastEscalation result.1
  /\ Acknowledged result.1 = Acknowledged a
  /\ (forall b,
        StartTime b = StartTime a -> LastEscalation result.1 <= LastEscalation b ->
        escalateLevels now i levels b = (b, [])).
Proof.
  revert i a. induction levels as [|level rest IH]; intros i a; cbv zeta.
  - simpl. repeat split; try done; lia.
  - cbn [escalateLevels].
    destruct (Z.leb_spec (i + 1) (LastEscalation a)) as [Hdone|Hnot].
    + destruct (IH (i + 1) a) as (Hs & Hl & Ha & Hb).
      split; [done|]. split; [done|]. split; [done|].
      intros b Hsb Hlb. cbn [escalateLevels].
      destruct (Z.leb_spec (i + 1) (LastEscalation b)); [|lia]. by apply Hb.
    + destruct (Go.After now (Add (StartTime a) (scale (After level) Minute))) eqn:Hdue.
      * specialize (IH (i + 1) (setEscalated (i + 1) now a)).
        destruct (escalateLevels now (i + 1) rest (setEscalated (i + 1) now a))
          as [a' fired] eqn:E.
        cbv zeta in IH. simpl in IH. destruct IH as (Hs & Hl & Ha & Hb).
        simpl. split; [done|]. split; [lia|]. split; [done|].
        intros b Hsb Hlb. cbn [escalateLevels].
        destruct (Z.leb_spec (i + 1) (LastEscalation b)); [|lia]. by apply Hb.
      * destruct (IH (i + 1) a) as (Hs & Hl & Ha & Hb).
        split; [done|]. split; [done|]. split; [done|].
        intros b Hsb Hlb. cbn [escalateLevels].
        destruct (i + 1 <=? LastEscalation b); [by apply Hb|].
        rewrite Hsb, Hdue. by apply Hb.
Qed.

Lemma with_heap_insert_id (p : nat) (a : Alert) (m : Manager) :
  heap m !! p = Some a -> with_heap (insert p a) m = m.
Proof. intros Hp. destruct m. unfold with_heap. simpl in *. by rewrite insert_id. Qed.

Lemma emit_nil (m : Manager) : emit [] m = m.
Proof. destruct m. unfold emit. simpl. by rewrite app_nil_r. Qed.

Lemma escalateAlert_settled (now : Time) (p : nat) (m : Manager) (a : Alert) :
  heap m !! p = Some a ->
  settled now (Levels (Escalation (Schedule (config m)))) a ->
  escalateAlert now p m = m.
Proof.
  intros Hp [Hack|Hnone]; unfold escalateAlert; rewrite Hp.
  - by rewrite Hack.
  - destruct (Acknowledged a); [done|]. rewrite Hnone.
    rewrite (with_heap_insert_id p a m Hp).
    destruct (onEscalate m); [apply emit_nil | done].
Qed.

Lemma escalateAlert_step (now : Time) (p : nat) (m : Manager) :
  let m' := escalateAlert now p m in
  config m' = config m
  /\ activeAlerts m' = activeAlerts m
  /\ (forall q, heap m !! q = None -> heap m' !! q = None)
  /\ (forall b, heap m' !! p = Some b ->
        settled now (Levels (Escalation (Schedule (config m)))) b)
  /\ (forall q b,
        heap m !! q = Some b ->
        settled now (Levels (Escalation (Schedule (config m)))) b ->
        heap m' !! q = Some b).
Proof.
  cbv zeta. unfold escalateAlert.
  destruct (heap m !! p) as [a|] eqn:Hp.
  - destruct (Acknowledged a) eqn:Hack.
    + split; [done|]. split; [done|]. split; [done|]. split; [|done].
      intros b Hb. left. congruence.
    + pose proof (escalateLevels_settles now (Levels (Escalation (Schedule (config m))))
                    0 a) as Hs.
      destruct (escalateLevels now 0 _ a) as [a' fired] eqn:E.
      cbv zeta in Hs. simpl in Hs. destruct Hs as (Hst & Hle & Ha & Hstable).
      assert (forall m1, config m1 = config m -> activeAlerts m1 = activeAlerts m ->
                heap m1 = <[p := a']> (heap m) ->
                config m1 = config m
                /\ activeAlerts m1 = activeAlerts m
                /\ (forall q, heap m !! q = None -> heap m1 !! q = None)
                /\ (forall b, heap m1 !! p = Some b ->
                      settled now (Levels (Escalation (Schedule (config m)))) b)
                /\ (forall q b,
                      heap m !! q = Some b ->
                      settled now (Levels (Escalation (Schedule (config m)))) b ->
                      heap m1 !! q = Some b)) as Hgoal.
      { intros m1 Hc Hact Hh. rewrite Hh. split; [done|]. split; [done|]. split; [|split].
        - intros q Hq. rewrite lookup_insert_ne; [done|]. intros ->. congruence.
        - intros b. rewrite lookup_insert_eq. intros [= <-]. right.
          apply Hstable; [done | lia].
        - intros q b Hq Hsettled. destruct (decide (q = p)) as [->|Hne].
          + rewrite lookup_insert_eq. f_equal.
            assert (b = a) as -> by congruence.
            destruct Hsettled as [Hackb|Hnone]; [congruence|].
            rewrite Hnone in E. by injection E as <- _.
          + by rewrite lookup_insert_ne. }
      cbn [onEscalate with_heap]. destruct (onEscalate m); by apply Hgoal.
  - split; [done|]. split; [done|]. split; [done|]. split; [|done].
    intros b Hb. congruence.
Qed.

Lemma escalate_fold (now : Time) (entries : list (string * nat)) (m : Manager) :
  let m' := foldl (fun acc (entry : string * nat) => escalateAlert now entry.2 acc)
              m entries in
  config m' = config m
  /\ activeAlerts m' = activeAlerts m
  /\ (forall q, heap m !! q = None -> heap m' !! q = None)
  /\ (forall q b,
        heap m !! q = Some b ->
        settled now (Levels (Escalation (Schedule (config m)))) b ->
        heap m' !! q = Some b)
  /\ (forall entry b,
        entry ∈ entries -> heap m' !! entry.2 = Some b ->
        settled now (Levels (Escalation (Schedule (config m)))) b).
Proof.
  revert m. induction entries as [|[id p] entries IH]; intros m; cbv zeta.
  - simpl. repeat split; try done. intros entry b H. by apply elem_of_nil in H.
  - simpl foldl.
    destruct (escalateAlert_step now p m) as (Hc1 & Ha1 & Hn1 & Hs1 & Hk1).
    specialize (IH (escalateAlert now p m)). cbv zeta in IH.
    destruct IH as (Hc2 & Ha2 & Hn2 & Hk2 & Hs2). rewrite Hc1 in *.
    set (m1 := escalateAlert now p m) in *.
    set (m2 := foldl _ m1 entries) in *.
    split; [congruence|]. split; [congruence|]. split; [|split].
    + intros q Hq. by apply Hn2, Hn1.
    + intros q b Hq Hsettled. apply Hk2; [by apply Hk1 | done].
    + intros entry b Hin Hb. apply elem_of_cons in Hin as [->|Hin].
      * simpl in Hb.
        destruct (heap m1 !! p) as [b1|] eqn:Hp1.
        -- pose proof (Hs1 b1 eq_refl) as Hsettled.
           rewrite (Hk2 p b1 Hp1 Hsettled) in Hb. by injection Hb as <-.
        -- rewrite (Hn2 p Hp1) in Hb. discriminate.
      * by apply (Hs2 entry b Hin).
Qed.

(** X20: [checkEscalations] escalates each level at most once: a second
    run at the same instant changes nothing and makes no callback.  A run
    changes neither the configuration nor the set of active alerts. *)
Theorem escalation_check_is_idempotent (now : Time) (m : Manager) :
  let m' := checkEscalations now m in
  checkEscalations now m' = m'
  /\ config m' = config m
  /\ activeAlerts m' = activeAlerts m.
Proof.
  cbv zeta. unfold checkEscalations.
  destruct (negb (esc_Enabled (Escalation (Schedule (config m))))) eqn:Hen.
  - by rewrite Hen.
  - destruct (escalate_fold now (map_to_list (activeAlerts m)) m)
      as (Hc & Ha & Hn & Hk & Hs).
    set (m' := foldl _ m (map_to_list (activeAlerts m))) in *.
    rewrite Hc, Hen, Ha. split; [|done].
    assert (forall entries : list (string * nat),
               (forall entry, entry ∈ entries -> escalateAlert now entry.2 m' = m') ->
               foldl (fun acc (entry : string * nat) => escalateAlert now entry.2 acc)
                 m' entries = m') as Hfix.
    { induction entries as [|entry entries IH]; intros Hall; [done|]. simpl.
      rewrite (Hall entry) by by left. apply IH. intros e He. apply Hall. by right. }
    apply Hfix. intros entry Hin.
    destruct (heap m' !! entry.2) as [b|] eqn:Hb.
    + apply (escalateAlert_settled now entry.2 m' b Hb). rewrite Hc.
      by apply (Hs entry b Hin).
    + unfold escalateAlert. by rewrite Hb.
Qed.

(** *** Clean-up *)

(** X21: [Cleanup] removes from the active alerts exactly those that are
    acknowledged with an acknowledgement older than [maxAge]; an alert that
    is not acknowledged is never removed, however old it is.  It drops the
    suppressions that have run out and keeps the others, removes entries of
    the recent alerts only, and touches neither the alert objects, the list
    of resolved alerts, the pending alerts and the counters, nor does it make
    a callback: an alert that it removes is not reported as resolved. *)
Theorem cleanup_removes_old_acknowledged (now : Time) (maxAge : Duration) (m : Manager) :
  let m' := Cleanup now maxAge m in
  (forall alertID p a,
      activeAlerts m !! alertID = Some p -> heap m !! p = Some a ->
      (activeAlerts m' !! alertID = None
       <-> Acknowledged a = true
           /\ exists ackTime, AckTime a = Some ackTime /\ maxAge < Sub now ackTime)
      /\ (activeAlerts m' !! alertID = None \/ activeAlerts m' !! alertID = Some p))
  /\ (forall alertID p, activeAlerts m' !! alertID = Some p ->
        activeAlerts m !! alertID = Some p)
  /\ (forall alertID t,
        suppressedUntil m' !! alertID = Some t
        <-> suppressedUntil m !! alertID = Some t /\ now <= t)
  /\ (forall alertID p, recentAlerts m' !! alertID = Some p ->
        recentAlerts m !! alertID = Some p)
  /\ heap m' = heap m
  /\ recentlyResolved m' = recentlyResolved m
  /\ pendingAlerts m' = pendingAlerts m
  /\ nodeOfflineCount m' = nodeOfflineCount m
  /\ alertRateLimit m' = alertRateLimit m
  /\ events m' = events m.
Proof.
  cbv zeta. unfold Cleanup. cbv zeta. simpl.
  split; [|split; [|split; [|split]]]; try done.
  - intros alertID p a Hactive Hp.
    assert (ackExpired now maxAge m p = true
            <-> Acknowledged a = true
                /\ exists ackTime, AckTime a = Some ackTime /\ maxAge < Sub now ackTime)
      as Hexp.
    { unfold ackExpired. rewrite Hp. rewrite andb_true_iff. split.
      - intros [Hack Hold]. split; [done|].
        destruct (AckTime a) as [ackTime|]; [|done].
        exists ackTime. split; [done|]. by apply Z.ltb_lt.
      - intros [Hack (ackTime & Ht & Hold)]. split; [done|].
        rewrite Ht. by apply Z.ltb_lt. }
    destruct (ackExpired now maxAge m p) eqn:E.
    + assert (filter (fun entry : string * nat => ackExpired now maxAge m entry.2 = false)
                (activeAlerts m) !! alertID = None) as Hnone.
      { apply map_lookup_filter_None. right. intros q Hq. simpl.
        assert (q = p) as -> by congruence. by rewrite E. }
      split; [|by left]. split; [intros _; by apply Hexp | done].
    + assert (filter (fun entry : string * nat => ackExpired now maxAge m entry.2 = false)
                (activeAlerts m) !! alertID = Some p) as Hsome
          by (by apply map_lookup_filter_Some).
      split; [|by right]. rewrite Hsome. split; [done|].
      intros H. apply Hexp in H. discriminate.
  - intros alertID p H. by apply map_lookup_filter_Some in H as [H _].
  - intros alertID t. rewrite map_lookup_filter_Some. simpl. unfold Go.After.
    rewrite Z.ltb_ge. done.
  - intros alertID p H. by apply map_lookup_filter_Some in H as [H _].
Qed.

(** *** Active alerts and their objects *)

Lemma setSeen_ID now value level a : ID (setSeen now value level a) = ID a.
Proof. done. Qed.

Lemma raiseAlert_wellFormed now quiet rid rname node inst rtype mtype value th m :
  wellFormed m ->
  wellFormed (raiseAlert now quiet rid rname node inst rtype mtype value th m).
Proof.
  intros Hwf.
  destruct (isRecentDuplicate now (metricAlertID rid mtype) value m) eqn:Hdup.
  - unfold raiseAlert. rewrite Hdup. exact Hwf.
  - destruct (AlertsFacts.raiseAlert_creates now quiet rid rname node inst rtype mtype
                value th m Hdup) as (Hfresh & Hheap & Hactive & _).
    intros alertID p. rewrite Hheap, Hactive.
    destruct (decide (alertID = metricAlertID rid mtype)) as [->|Hne].
    + rewrite lookup_insert_eq. intros [= <-]. rewrite lookup_insert_eq. by eexists.
    + rewrite lookup_insert_ne by done. intros Hp.
      destruct (Hwf alertID p Hp) as (a & Ha & Hid).
      exists a. split; [|done]. rewrite lookup_insert_ne; [done|].
      intros <-. congruence.
Qed.

Lemma checkMetric_wellFormed now quiet rid rname node inst rtype mtype value threshold m :
  wellFormed m ->
  wellFormed (checkMetric now quiet rid rname node inst rtype mtype value threshold m).
Proof.
  intros Hwf. unfold checkMetric. destruct threshold as [th|]; [|done].
  destruct (F64.le (Trigger th) 0); [done|]. cbv zeta.
  destruct (isSuppressed _ _ m); [done|].
  destruct (F64.ge value (Trigger th)).
  - destruct (activeAlerts m !! metricAlertID rid mtype) as [p|] eqn:Hactive.
    + intros alertID q Hq. simpl in Hq |- *.
      destruct (Hwf alertID q Hq) as (a & Ha & Hid).
      destruct (decide (q = p)) as [->|Hne].
      * exists (setSeen now value (levelFor value th) a).
        by rewrite lookup_alter_eq, Ha.
      * exists a. by rewrite lookup_alter_ne.
    + destruct (0 <? TimeThreshold (config m)).
      * destruct (pendingAlerts m !! _) as [pendingTime|].
        -- destruct (_ <=? _); [|done]. by apply raiseAlert_wellFormed.
        -- done.
      * by apply raiseAlert_wellFormed.
  - destruct (activeAlerts m !! metricAlertID rid mtype) as [p|] eqn:Hactive.
    + destruct (F64.le value _); [|done].
      unfold resolveAlert. cbv zeta.
      assert (wellFormed (with_activeAlerts (delete (metricAlertID rid mtype)) m)) as Hwf'.
      { intros alertID q. simpl. intros Hq.
        apply lookup_delete_Some in Hq as [_ Hq]. by apply Hwf. }
      match goal with |- context [if ?b then _ else _] => destruct b end; exact Hwf'.
    + done.
Qed.

Lemma checkNodeOffline_wellFormed now node m :
  wellFormed m -> wellFormed (checkNodeOffline now node m).
Proof.
  intros Hwf. unfold checkNodeOffline. cbv zeta.
  destruct (activeAlerts m !! offlineAlertID node) as [p|] eqn:Hactive.
  - intros alertID q Hq. simpl in Hq |- *.
    destruct (Hwf alertID q Hq) as (a & Ha & Hid).
    destruct (decide (q = p)) as [->|Hne].
    + exists (setStartTime now a). by rewrite lookup_alter_eq, Ha.
    + exists a. by rewrite lookup_alter_ne.
  - destruct (_ <? requiredOfflineCount); [done|].
    set (m1 := with_nodeOfflineCount _ m).
    assert (heap m !! newPtr m1 = None) as Hfresh.
    { apply not_elem_of_dom. unfold newPtr. exact (is_fresh (dom (heap m1))). }
    assert (wellFormed
              (with_activeAlerts (insert (offlineAlertID node) (newPtr m1))
                 (with_heap (insert (newPtr m1) (newOfflineAlert now node)) m1))) as Hwf'.
    { intros alertID q. simpl.
      destruct (decide (alertID = offlineAlertID node)) as [->|Hne].
      - rewrite lookup_insert_eq. intros [= <-]. rewrite lookup_insert_eq. by eexists.
      - rewrite lookup_insert_ne by done. intros Hq.
        destruct (Hwf alertID q Hq) as (a & Ha & Hid).
        exists a. split; [|done]. rewrite lookup_insert_ne; [done|].
        intros <-. congruence. }
    match goal with |- context [if ?b then _ else _] => destruct b end; exact Hwf'.
Qed.

Lemma clearNodeOfflineAlert_wellFormed now node m :
  wellFormed m -> wellFormed (clearNodeOfflineAlert now node m).
Proof.
  intros Hwf. unfold clearNodeOfflineAlert. cbv zeta.
  set (m1 := if 0 <? offlineCount m _ then _ else m).
  assert (wellFormed m1) as Hwf1 by (subst m1; by destruct (0 <? _)).
  destruct (activeAlerts m1 !! offlineAlertID node) as [p|]; [|done].
  assert (wellFormed (with_activeAlerts (delete (offlineAlertID node)) m1)) as Hwf'.
  { intros alertID q. simpl. intros Hq.
    apply lookup_delete_Some in Hq as [_ Hq]. by apply Hwf1. }
  match goal with |- context [if ?b then _ else _] => destruct b end; exact Hwf'.
Qed.

(** X22: every check keeps the active alerts well formed: each id of the
    active alerts points to an alert object of the store, and that object
    carries the id it is filed under.  This holds over [checkMetric],
    [CheckStorage], [CheckNode] and [CheckGuest], whatever thresholds apply,
    and so for every alert that a manager reaches from an empty one. *)
Theorem active_alerts_stay_well_formed
    (getGuestThresholds : AlertConfig -> Guest -> ThresholdConfig) (now : Time)
    (quiet : bool) (m : Manager) :
  wellFormed m ->
  (forall rid rname node inst rtype mtype value threshold,
      wellFormed (checkMetric now quiet rid rname node inst rtype mtype value threshold m))
  /\ (forall storage, wellFormed (CheckStorage now quiet storage m))
  /\ (forall node, wellFormed (CheckNode now quiet node m))
  /\ (forall guest instanceName,
        wellFormed (CheckGuest getGuestThresholds now quiet guest instanceName m)).
Proof.
  intros Hwf. split; [|split; [|split]].
  - intros. by apply checkMetric_wellFormed.
  - intros storage. unfold CheckStorage. destruct (negb _); [done|].
    by apply checkMetric_wellFormed.
  - intros node. unfold CheckNode. destruct (negb (Enabled _)); [done|]. cbv zeta.
    set (m1 := if nodeIsOffline node then _ else _).
    assert (wellFormed m1) as Hwf1.
    { subst m1. destruct (nodeIsOffline node);
        [by apply checkNodeOffline_wellFormed | by apply clearNodeOfflineAlert_wellFormed]. }
    destruct (negb (String.eqb _ "offline")); [|done].
    by repeat apply checkMetric_wellFormed.
  - intros guest instanceName. unfold CheckGuest. destruct (negb (Enabled _)); [done|].
    cbv zeta. destruct (String.eqb _ "stopped").
    + intros alertID p. unfold clearAlertsOf. simpl. intros Hp.
      apply map_lookup_filter_Some in Hp as [Hp _]. by apply Hwf.
    + repeat match goal with
             | |- wellFormed (if ?b then _ else _) => destruct b
             | |- wellFormed (checkMetric _ _ _ _ _ _ _ _ _ _ _) =>
               apply checkMetric_wellFormed
             end; exact Hwf.
Qed.

(** The manager [oneAlert] holds the alert on the memory of guest 100.  It
    is well formed, and it stays so over the next sample of 95 percent, which
    updates the alert, and over a sample on the cpu of the same guest, which
    raises a second alert. *)
Lemma active_alerts_stay_well_formed_witness :
  let memory :=
    checkMetric (10 * Second) false "lab-px1-100" "guest" "px1" "lab" "VM" "memory" 95
      (Some (mkThreshold 85 80)) oneAlert in
  let cpu :=
    checkMetric (10 * Second) false "lab-px1-100" "guest" "px1" "lab" "VM" "cpu" 99
      (Some (mkThreshold 80 75)) oneAlert in
  wellFormed oneAlert /\ wellFormed memory /\ wellFormed cpu
  /\ dom (activeAlerts oneAlert) = {["lab-px1-100-memory"]}
  /\ dom (activeAlerts memory) = {["lab-px1-100-memory"]}
  /\ dom (activeAlerts cpu) = {["lab-px1-100-cpu"; "lab-px1-100-memory"]}.
Proof.
  cbv zeta.
  assert (wellFormed oneAlert) as Hone.
  { intros alertID p Hp.
    assert (activeAlerts oneAlert = {["lab-px1-100-memory" := 0%nat]}) as Hact
        by (vm_compute; reflexivity).
    rewrite Hact in Hp. apply lookup_singleton_Some in Hp as [<- <-].
    vm_compute. by eexists. }
  destruct (active_alerts_stay_well_formed guestDefaultsOnly (10 * Second) false
              oneAlert Hone) as (Hmetric & _).
  split; [exact Hone|]. split; [apply Hmetric|]. split; [apply Hmetric|].
  repeat split; vm_compute; reflexivity.
Defined.

(** *** Restoring *)

Lemma restoreAlert_spec (now : Time) (m : Manager) (alert : Alert) :
  wellFormed m ->
  let m' := restoreAlert now m alert in
  wellFormed m'
  /\ (forall p a, heap m !! p = Some a -> heap m' !! p = Some a)
  /\ (skippedOnRestore now alert = false ->
      exists p, activeAlerts m' !! ID alert = Some p /\ heap m' !! p = Some alert)
  /\ (forall alertID p,
        activeAlerts m' !! alertID = Some p ->
        activeAlerts m !! alertID = Some p
        \/ (alertID = ID alert /\ heap m' !! p = Some alert
            /\ skippedOnRestore now alert = false))
  /\ (forall alertID, alertID <> ID alert ->
        activeAlerts m' !! alertID = activeAlerts m !! alertID)
  /\ events m' = events m /\ recentAlerts m' = recentAlerts m.
Proof.
  intros Hwf. cbv zeta. unfold restoreAlert.
  destruct (skippedOnRestore now alert) eqn:Hskip.
  - split; [done|]. split; [done|]. split; [done|]. split; [by left|]. done.
  - cbv zeta. simpl.
    assert (heap m !! newPtr m = None) as Hfresh.
    { apply not_elem_of_dom. unfold newPtr. exact (is_fresh (dom (heap m))). }
    split; [|split; [|split; [|split]]].
    + intros alertID p. simpl.
      destruct (decide (alertID = ID alert)) as [->|Hne].
      * rewrite lookup_insert_eq. intros [= <-]. rewrite lookup_insert_eq. by eexists.
      * rewrite lookup_insert_ne by done. intros Hp.
        destruct (Hwf alertID p Hp) as (a & Ha & Hid).
        exists a. split; [|done]. rewrite lookup_insert_ne; [done|].
        intros <-. congruence.
    + intros p a Hp. rewrite lookup_insert_ne; [done|]. intros <-. congruence.
    + intros _. exists (newPtr m). by rewrite !lookup_insert_eq.
    + intros alertID p.
      destruct (decide (alertID = ID alert)) as [->|Hne].
      * rewrite lookup_insert_eq. intros [= <-]. right. by rewrite lookup_insert_eq.
      * rewrite lookup_insert_ne by done. by left.
    + split; [|done]. intros alertID Hne. by rewrite lookup_insert_ne.
Qed.

(** X24: the loop of [LoadActiveAlerts] files every alert read from the
    file under its id, as an object of its own, unless the alert started
    more than 24 hours ago or was acknowledged more than an hour ago; of two
    alerts with one id the later one stays: an alert read is the one on file
    afterwards when every alert behind it that has its id is skipped.  Every
    alert that is active afterwards was active before or is one of the
    alerts read that was not skipped; the active alerts stay well formed; no
    callback is made and the recent alerts are not filled. *)
Theorem restore_keeps_fresh_alerts (now : Time) (alerts : list Alert) (m : Manager) :
  wellFormed m ->
  let m' := restoreAlerts now alerts m in
  wellFormed m'
  /\ (forall alertID p,
        activeAlerts m' !! alertID = Some p ->
        activeAlerts m !! alertID = Some p
        \/ exists a, a ∈ alerts /\ ID a = alertID /\ heap m' !! p = Some a
                     /\ skippedOnRestore now a = false)
  /\ (forall earlier a,
        alerts = earlier ++ [a] -> skippedOnRestore now a = false ->
        exists p, activeAlerts m' !! ID a = Some p /\ heap m' !! p = Some a)
  /\ (forall a, a ∈ alerts -> skippedOnRestore now a = false ->
        exists p a', activeAlerts m' !! ID a = Some p /\ heap m' !! p = Some a'
                     /\ ID a' = ID a)
  /\ (forall alertID,
        (forall a, a ∈ alerts -> ID a <> alertID) ->
        activeAlerts m' !! alertID = activeAlerts m !! alertID)
  /\ events m' = events m
  /\ recentAlerts m' = recentAlerts m
  /\ (forall earlier a later,
        alerts = earlier ++ a :: later -> skippedOnRestore now a = false ->
        (forall b, b ∈ later -> ID b = ID a -> skippedOnRestore now b = true) ->
        exists p, activeAlerts m' !! ID a = Some p /\ heap m' !! p = Some a).
Proof.
  intros Hwf. cbv zeta. unfold restoreAlerts.
  induction alerts as [|a alerts IH] using rev_ind.
  - simpl. split; [done|]. split; [by left|]. split.
    { intros earlier a H. by destruct earlier. }
    split; [intros a H; by apply elem_of_nil in H|].
    split; [done|]. split; [done|]. split; [done|].
    intros earlier a later H. by destruct earlier.
  - rewrite foldl_app. simpl foldl.
    destruct IH as (Hwf1 & Hfrom & _ & Hkept & Hother & Hev & Hrec & Hlast).
    set (m1 := foldl (restoreAlert now) m alerts) in *.
    destruct (restoreAlert_spec now m1 a Hwf1)
      as (Hwf2 & Hheap & Hnew & Hfrom2 & Hother2 & Hev2 & Hrec2).
    set (m2 := restoreAlert now m1 a) in *.
    split; [done|]. split; [|split; [|split; [|split; [|split; [|split]]]]].
    + intros alertID p Hp.
      destruct (Hfrom2 alertID p Hp) as [Hold|(-> & Hp2 & Hskip)].
      * destruct (Hfrom alertID p Hold) as [H|(b & Hb & Hid & Hpb & Hskip)]; [by left|].
        right. exists b. split; [apply elem_of_app; by left|].
        split; [done|]. split; [by apply Hheap | done].
      * right. exists a. split; [apply elem_of_app; right; by constructor|]. done.
    + intros earlier b Heq Hskip. apply app_inj_tail in Heq as [_ ->]. by apply Hnew.
    + intros b Hb Hskip. apply elem_of_app in Hb as [Hb|Hb].
      * destruct (Hkept b Hb Hskip) as (p & b' & Hp & Hpb & Hid).
        destruct (decide (ID b = ID a)) as [Heq|Hne].
        -- destruct (skippedOnRestore now a) eqn:Hsa.
           ++ exists p, b'. unfold m2, restoreAlert. rewrite Hsa. done.
           ++ destruct (Hnew eq_refl) as (q & Hq & Hqa).
              exists q, a. rewrite Heq. done.
        -- exists p, b'. rewrite Hother2 by done. split; [done|].
           split; [by apply Hheap | done].
      * apply list_elem_of_singleton in Hb. subst b.
        destruct (Hnew Hskip) as (q & Hq & Hqa). by exists q, a.
    + intros alertID Hnone. rewrite Hother2.
      * apply Hother. intros b Hb. apply Hnone. apply elem_of_app. by left.
      * intros ->. apply (Hnone a); [|done]. apply elem_of_app. right. by constructor.
    + congruence.
    + congruence.
    + intros earlier b later Heq Hskip Hlater.
      destruct later as [|c later _] using rev_ind.
      * apply app_inj_tail in Heq as [_ ->]. by apply Hnew.
      * rewrite app_comm_cons, app_assoc in Heq.
        apply app_inj_tail in Heq as [-> ->].
        destruct (Hlast earlier b later eq_refl Hskip) as (p & Hp & Hpb).
        { intros b' Hb'. apply Hlater. apply elem_of_app. by left. }
        destruct (decide (ID c = ID b)) as [Heq|Hne].
        -- assert (skippedOnRestore now c = true) as Hsc
               by (apply Hlater; [apply elem_of_app; right; by constructor | done]).
           exists p. unfold m2, restoreAlert. by rewrite Hsc.
        -- exists p. rewrite Hother2 by done. split; [done | by apply Hheap].
Qed.

(** An alert that started 25 hours ago is skipped, one that started an
    hour ago is restored. *)
Lemma restore_keeps_fresh_alerts_witness :
  wellFormed
    (restoreAlerts (25 * Hour)
       [newMetricAlert 0 "lab-px1-100" "guest" "px1" "lab" "VM" "cpu" 95
          (mkThreshold 80 75);
        newMetricAlert (24 * Hour) "lab-px1-100" "guest" "px1" "lab" "VM" "memory" 95
          (mkThreshold 85 80)]
       (newManager defaultConfig)).
Proof.
  destruct (restore_keeps_fresh_alerts (25 * Hour)
              [newMetricAlert 0 "lab-px1-100" "guest" "px1" "lab" "VM" "cpu" 95
                 (mkThreshold 80 75);
               newMetricAlert (24 * Hour) "lab-px1-100" "guest" "px1" "lab" "VM" "memory" 95
                 (mkThreshold 85 80)]
              (newManager defaultConfig)) as (Hwf & _).
  - intros alertID p Hp. vm_compute in Hp. discriminate.
  - exact Hwf.
Defined.

End AlertsAdminFacts.

(** ** The thresholds of a guest *)

Module GuestThresholdsFacts.
Import Go GoFacts Alerts GuestThresholds.

Lemma thresholdOf_layOverAll (margin : float) (layer : LayerThresholds)
    (t : ThresholdConfig) (metric : Metric) :
  thresholdOf metric (layOverAll margin layer t)
  = layOver margin layer metric (thresholdOf metric t).
Proof. by destruct metric. Qed.

(** Ensuring the hysteresis a second time changes nothing, so the write
    through the pointer does not change what later calls return. *)
Lemma ensureHysteresisThreshold_idempotent (threshold : option HysteresisThreshold) :
  ensureHysteresisThreshold (ensureHysteresisThreshold threshold)
  = ensureHysteresisThreshold threshold.
Proof.
  destruct threshold as [th|]; [|done]. simpl.
  destruct (F64.le (Clear th) 0) eqn:E; simpl.
  - by destruct (F64.le (PrimFloat.sub (Trigger th) 5) 0).
  - by rewrite E.
Qed.

(** The loop over the rules keeps the rule of the highest priority among
    those that apply and lie above the priority it started with. *)
Lemma pickRule_fold {FilterCondition : Type}
    (evaluateFilterCondition : Guest -> FilterCondition -> bool) (guest : Guest)
    (rules : list (CustomAlertRule FilterCondition))
    (acc : option (CustomAlertRule FilterCondition) * Z) :
  let result := foldl (pickRule evaluateFilterCondition guest) acc rules in
  acc.2 <= result.2
  /\ (forall rule, rule ∈ rules -> applies evaluateFilterCondition guest rule = true ->
        Priority rule <= result.2)
  /\ (result = acc
      \/ exists rule,
          result = (Some rule, Priority rule) /\ rule ∈ rules
          /\ applies evaluateFilterCondition guest rule = true
          /\ acc.2 < Priority rule).
Proof.
  revert acc. induction rules as [|rule rules IH]; intros acc; cbv zeta.
  - simpl. split; [lia|]. split; [|by left]. intros rule H. by apply elem_of_nil in H.
  - simpl foldl.
    specialize (IH (pickRule evaluateFilterCondition guest acc rule)). cbv zeta in IH.
    destruct IH as (Hle & Hmax & Hres).
    set (acc1 := pickRule evaluateFilterCondition guest acc rule) in *.
    assert (acc.2 <= acc1.2
            /\ (applies evaluateFilterCondition guest rule = true ->
                Priority rule <= acc1.2)
            /\ (acc1 = acc
                \/ (acc1 = (Some rule, Priority rule)
                    /\ applies evaluateFilterCondition guest rule = true
                    /\ acc.2 < Priority rule))) as (H1 & H2 & H3).
    { subst acc1. unfold pickRule, applies.
      destruct (rule_Enabled rule); simpl; [|by (split; [lia|]; split; [|left])].
      destruct (evaluateFilterStack evaluateFilterCondition guest (FilterConditions rule));
        [|by (split; [lia|]; split; [|left])].
      destruct (Z.ltb_spec acc.2 (Priority rule)); simpl.
      - split; [lia|]. split; [lia|]. right. done.
      - split; [lia|]. split; [intros _; lia|]. by left. }
    split; [lia|]. split.
    + intros other Hin Happ. apply elem_of_cons in Hin as [->|Hin].
      * specialize (H2 Happ). lia.
      * by apply Hmax.
    + destruct Hres as [Hres|(r & Hres & Hin & Happ & Hlt)].
      * rewrite Hres. destruct H3 as [->|(-> & Happ & Hlt)]; [by left|].
        right. exists rule. split; [done|]. split; [by left|]. done.
      * right. exists r. split; [done|]. split; [by right|]. split; [done|]. lia.
Qed.

(** X23: [getGuestThresholds] resolves the threshold of each metric in
    three layers.  The override of the guest wins: its threshold with
    hysteresis when it has one, else its legacy threshold (a legacy
    threshold that is not positive leaves the metric without threshold),
    else the layer below.  Below it lies the custom rule that applies: among
    the enabled rules whose filters match the guest, one of the highest
    priority; a rule with a negative priority never applies.  The guest
    defaults come last. *)
Theorem guest_thresholds_by_priority {FilterCondition : Type}
    (evaluateFilterCondition : Guest -> FilterCondition -> bool) (cfg : AlertConfig)
    (rules : list (CustomAlertRule FilterCondition))
    (overrides : gmap string LayerThresholds) (guest : Guest) (guestID : string)
    (metric : Metric) :
  let margin := HysteresisMargin cfg in
  let result :=
    thresholdOf metric
      (getGuestThresholds evaluateFilterCondition cfg rules overrides guest guestID) in
  let chosen := applicableRule evaluateFilterCondition guest rules in
  let fromRule :=
    match chosen with
    | Some rule => layOver margin (Thresholds rule) metric
                     (thresholdOf metric (GuestDefaults cfg))
    | None => thresholdOf metric (GuestDefaults cfg)
    end in
  result = match overrides !! guestID with
           | Some override => layOver margin override metric fromRule
           | None => fromRule
           end
  /\ (forall override th,
        overrides !! guestID = Some override -> modern override metric = Some th ->
        result = ensureHysteresisThreshold (Some th))
  /\ (forall override value,
        overrides !! guestID = Some override -> modern override metric = None ->
        legacy override metric = Some value ->
        result = convertLegacyThreshold margin (Some value)
        /\ (F64.le value 0 = true -> result = None))
  /\ (forall rule,
        chosen = Some rule ->
        rule ∈ rules /\ applies evaluateFilterCondition guest rule = true
        /\ 0 <= Priority rule
        /\ forall other,
            other ∈ rules -> applies evaluateFilterCondition guest other = true ->
            Priority other <= Priority rule)
  /\ (chosen = None ->
      forall rule,
        rule ∈ rules -> applies evaluateFilterCondition guest rule = true ->
        Priority rule < 0)
  /\ ensureHysteresisThreshold (ensureHysteresisThreshold result)
     = ensureHysteresisThreshold result.
Proof.
  cbv zeta.
  assert (thresholdOf metric
            (getGuestThresholds evaluateFilterCondition cfg rules overrides guest guestID)
          = match overrides !! guestID with
            | Some override =>
              layOver (HysteresisMargin cfg) override metric
                match applicableRule evaluateFilterCondition guest rules with
                | Some rule => layOver (HysteresisMargin cfg) (Thresholds rule) metric
                                 (thresholdOf metric (GuestDefaults cfg))
                | None => thresholdOf metric (GuestDefaults cfg)
                end
            | None =>
              match applicableRule evaluateFilterCondition guest rules with
              | Some rule => layOver (HysteresisMargin cfg) (Thresholds rule) metric
                               (thresholdOf metric (GuestDefaults cfg))
              | None => thresholdOf metric (GuestDefaults cfg)
              end
            end) as Hres.
  { unfold getGuestThresholds. cbv zeta.
    destruct (overrides !! guestID) as [override|];
      destruct (applicableRule evaluateFilterCondition guest rules) as [rule|];
      by rewrite ?thresholdOf_layOverAll. }
  rewrite Hres. split; [done|].
  pose proof (pickRule_fold evaluateFilterCondition guest rules (None, -1)) as Hfold.
  cbv zeta in Hfold. destruct Hfold as (Hle & Hmax & Hpick).
  unfold applicableRule.
  split; [|split; [|split; [|split]]].
  - intros override th -> Hm. unfold layOver at 1. by rewrite Hm.
  - intros override value -> Hm Hl.
    assert (forall current,
               layOver (HysteresisMargin cfg) override metric current
               = convertLegacyThreshold (HysteresisMargin cfg) (Some value)) as Hlay
        by (intros current; unfold layOver; by rewrite Hm, Hl).
    rewrite Hlay. split; [done|]. intros Hv. unfold convertLegacyThreshold.
    by rewrite Hv.
  - intros rule Hchosen.
    destruct Hpick as [Hsame|(r & Hr & Hin & Happ & Hlt)].
    + rewrite Hsame in Hchosen. discriminate.
    + rewrite Hr in Hchosen. simpl in Hchosen. injection Hchosen as ->.
      split; [done|]. split; [done|]. simpl in Hlt. split; [lia|].
      intros other Ho Happo. specialize (Hmax other Ho Happo).
      rewrite Hr in Hmax. exact Hmax.
  - intros Hnone rule Hin Happ.
    destruct Hpick as [Hsame|(r & Hr & _)].
    + specialize (Hmax rule Hin Happ). rewrite Hsame in Hmax. simpl in Hmax. lia.
    + rewrite Hr in Hnone. discriminate.
  - apply ensureHysteresisThreshold_idempotent.
Qed.

(** On node px1 the rule "strict" of priority 5 gives the memory threshold,
    with the clear level filled in; the rule of priority -1 is passed over. *)
Lemma guest_thresholds_by_priority_witness :
  Memory (getGuestThresholds onNode defaultConfig exampleRules ∅
            (guest100 "running" 50) "lab-px1-100")
  = Some (mkThreshold 70 65).
Proof.
  destruct (guest_thresholds_by_priority onNode defaultConfig exampleRules ∅
              (guest100 "running" 50) "lab-px1-100" MMemory) as (Hres & _).
  simpl thresholdOf in Hres. rewrite Hres. reflexivity.
Defined.

End GuestThresholdsFacts.

(** ** The health bookkeeping of the cluster client *)

Module ClusterHealthFacts.
Import Go GoFacts Cluster ClusterHealth.

(** The endpoints that a recovery tests are the unhealthy ones that were
    not checked within the last 30 seconds. *)
Lemma dueForRecovery_spec (now : Time) (cc : ClusterClient) (endpoint : string) :
  endpoint ∈ dueForRecovery now cc
  <-> nodeHealth cc !! endpoint = Some false
      /\ (forall lastCheck,
            lastHealthCheck cc !! endpoint = Some lastCheck ->
            30 * Second <= Sub now lastCheck).
Proof.
  unfold dueForRecovery. rewrite list_elem_of_fmap. split.
  - intros ([e h] & -> & Hin). rewrite list_elem_of_In, List.filter_In in Hin.
    destruct Hin as [Hin Hcond]. simpl in *.
    apply list_elem_of_In, elem_of_map_to_list in Hin.
    apply andb_true_iff in Hcond as [Hh Hlast]. apply negb_true_iff in Hh. subst h.
    split; [done|]. intros lastCheck Hl. rewrite Hl in Hlast.
    apply negb_true_iff, Z.ltb_ge in Hlast. done.
  - intros [Hh Hlast]. exists (endpoint, false). split; [done|].
    rewrite list_elem_of_In, List.filter_In. split.
    + by apply list_elem_of_In, elem_of_map_to_list.
    + simpl. destruct (lastHealthCheck cc !! endpoint) as [lastCheck|]; [|done].
      apply negb_true_iff, Z.ltb_ge. by apply Hlast.
Qed.

Lemma recoverEndpoint_spec (w : World) (i : nat) (now : Time) (ep : string)
    (cc : ClusterClient) :
  let cc' := recoverEndpoint w i now ep cc in
  lastHealthCheck cc' !! ep = Some now
  /\ nodeHealth cc' !! ep = (if answers w i ep then Some true else nodeHealth cc !! ep)
  /\ (forall e, e <> ep ->
        nodeHealth cc' !! e = nodeHealth cc !! e
        /\ lastHealthCheck cc' !! e = lastHealthCheck cc !! e)
  /\ endpoints cc' = endpoints cc.
Proof.
  cbv zeta. unfold recoverEndpoint, answers. cbv zeta.
  destruct (newClient w i ep); [|destruct (getNodes w i ep)]; simpl;
    rewrite ?lookup_insert_eq; (split; [done|]); (split; [done|]);
    (split; [|done]); intros e Hne; by rewrite ?lookup_insert_ne.
Qed.

Lemma recover_fold (w : World) (i : nat) (now : Time) (due : list string)
    (cc : ClusterClient) (e : string) :
  let cc' := foldl (fun acc ep => recoverEndpoint w i now ep acc) cc due in
  (e ∉ due ->
   nodeHealth cc' !! e = nodeHealth cc !! e
   /\ lastHealthCheck cc' !! e = lastHealthCheck cc !! e)
  /\ (e ∈ due ->
      lastHealthCheck cc' !! e = Some now
      /\ nodeHealth cc' !! e = (if answers w i e then Some true else nodeHealth cc !! e))
  /\ endpoints cc' = endpoints cc.
Proof.
  revert cc. induction due as [|ep due IH]; intros cc; cbv zeta.
  - split; [done|]. split; [|done]. intros H. by apply elem_of_nil in H.
  - simpl foldl. specialize (IH (recoverEndpoint w i now ep cc)). cbv zeta in IH.
    destruct IH as (IHout & IHin & IHend).
    destruct (recoverEndpoint_spec w i now ep cc) as (Hlast & Hhealth & Hother & Hend).
    split; [|split].
    + intros Hnot. apply not_elem_of_cons in Hnot as [Hne Hnot].
      destruct (IHout Hnot) as [-> ->]. by apply Hother.
    + intros Hin. destruct (decide (e ∈ due)) as [Hd|Hd].
      * destruct (IHin Hd) as [-> ->]. split; [done|].
        destruct (answers w i e) eqn:Ea; [done|].
        destruct (decide (e = ep)) as [->|Hne].
        -- by rewrite Hhealth, Ea.
        -- by apply Hother.
      * destruct (IHout Hd) as [-> ->].
        apply elem_of_cons in Hin as [->|Hin]; [|done]. done.
    + by rewrite IHend.
Qed.

(** X14: [recoverUnhealthyNodes] tests exactly the endpoints that are marked
    unhealthy and were not checked within the last 30 seconds.  It never
    demotes an endpoint; an endpoint that it does not test keeps its health
    entry and the time of its last check; one that it tests has the time of
    its last check set to now and is marked healthy exactly when [NewClient]
    and [GetNodes] succeed for it. *)
Theorem recovery_only_promotes (w : World) (i : nat) (cc : ClusterClient) :
  let now := clock w i in
  let cc' := recoverUnhealthyNodes w i cc in
  (forall e,
      e ∈ dueForRecovery now cc
      <-> nodeHealth cc !! e = Some false
          /\ (forall lastCheck,
                lastHealthCheck cc !! e = Some lastCheck ->
                30 * Second <= Sub now lastCheck))
  /\ (forall e, nodeHealth cc !! e = Some true -> nodeHealth cc' !! e = Some true)
  /\ (forall e,
        e ∉ dueForRecovery now cc ->
        nodeHealth cc' !! e = nodeHealth cc !! e
        /\ lastHealthCheck cc' !! e = lastHealthCheck cc !! e)
  /\ (forall e,
        e ∈ dueForRecovery now cc ->
        lastHealthCheck cc' !! e = Some now
        /\ nodeHealth cc' !! e = Some (answers w i e))
  /\ endpoints cc' = endpoints cc.
Proof.
  cbv zeta. split; [intros e; apply dueForRecovery_spec|].
  split; [intros e; apply ClusterFacts.recoverUnhealthyNodes_keeps|].
  unfold recoverUnhealthyNodes.
  split; [|split].
  - intros e Hnot.
    by destruct (recover_fold w i (clock w i) (dueForRecovery (clock w i) cc) cc e)
      as (Hout & _ & _); apply Hout.
  - intros e Hin.
    destruct (recover_fold w i (clock w i) (dueForRecovery (clock w i) cc) cc e)
      as (_ & Hdue & _).
    destruct (Hdue Hin) as [-> ->]. split; [done|].
    apply dueForRecovery_spec in Hin as [-> _]. by destruct (answers w i e).
  - by destruct (recover_fold w i (clock w i) (dueForRecovery (clock w i) cc) cc "")
      as (_ & _ & Hend).
Qed.

(** X15: [getHealthyClient] hands out a client only for an endpoint that is
    marked healthy and has a cached client afterwards.  When it returns an
    error, either no endpoint is healthy, even after the recovery attempt,
    or the endpoint it had selected did not answer, had no cached client and
    is now marked unhealthy.  The list of endpoints is not changed. *)
Theorem getHealthyClient_outcomes (w : World) (i : nat) (cc : ClusterClient) :
  let result := getHealthyClient w i cc in
  match result.1 with
  | inr ep => ep ∈ clients result.2 /\ nodeHealth result.2 !! ep = Some true
  | inl err =>
    healthyEndpoints result.2 = []
    \/ exists ep,
        answers w i ep = false
        /\ nodeHealth result.2 !! ep = Some false
        /\ ep ∉ clients result.2
  end
  /\ endpoints result.2 = endpoints cc.
Proof.
  cbv zeta. split.
  - destruct (getHealthyClient w i cc) as [[err|ep] cc1] eqn:E; simpl.
    + revert E. unfold getHealthyClient.
      set (cc0 := match healthyEndpoints cc with [] => _ | _ => cc end).
      destruct (healthyEndpoints cc0) as [|h healthy] eqn:Hh.
      * intros [= <- <-]. by left.
      * set (sel := selectEndpoint w i (h :: healthy)).
        case_bool_decide as Hcached; [discriminate|].
        unfold answers.
        destruct (newClient w i sel) eqn:En.
        -- intros [= <- <-]. right. exists sel. rewrite En. simpl.
           by rewrite lookup_insert_eq.
        -- destruct (getNodes w i sel) eqn:Eg; [|discriminate].
           intros [= <- <-]. right. exists sel. rewrite En, Eg. simpl.
           by rewrite lookup_insert_eq.
    + by destruct (ClusterFacts.getHealthyClient_selected w i cc ep cc1 E) as (? & ? & _).
  - unfold getHealthyClient.
    set (cc0 := match healthyEndpoints cc with [] => _ | _ => cc end).
    assert (endpoints cc0 = endpoints cc) as <-.
    { subst cc0. destruct (healthyEndpoints cc); [|done].
      unfold recoverUnhealthyNodes.
      by destruct (recover_fold w i (clock w i) (dueForRecovery (clock w i) cc) cc "")
        as (_ & _ & ?). }
    destruct (healthyEndpoints cc0) as [|h healthy]; [done|].
    case_bool_decide; [done|].
    destruct (newClient w i _); [done|]. by destruct (getNodes w i _).
Qed.

(** *** Calls *)

Lemma allCoolingDown_nothing (now : Time) (cc : ClusterClient) :
  allCoolingDown now cc -> healthyEndpoints cc = [] /\ dueForRecovery now cc = [].
Proof.
  intros Hcool. split.
  - destruct (healthyEndpoints cc) as [|ep rest] eqn:E; [done|].
    assert (ep ∈ healthyEndpoints cc) as Hin by (rewrite E; by left).
    apply ClusterFacts.healthyEndpoints_spec in Hin.
    by destruct (Hcool ep true Hin).
  - destruct (dueForRecovery now cc) as [|ep rest] eqn:E; [done|].
    assert (ep ∈ dueForRecovery now cc) as Hin by (rewrite E; by left).
    apply dueForRecovery_spec in Hin as [Hh Hlast].
    destruct (Hcool ep false Hh) as (_ & lastCheck & Hl & Hlt).
    specialize (Hlast lastCheck Hl). lia.
Qed.

(** X16: while every endpoint is marked unhealthy and was checked less than
    30 seconds ago, a call through [executeWithFailover] fails at once with
    "no healthy nodes available": [fn] is not invoked, no endpoint is tested
    and the client is left as it was. *)
Theorem cooling_down_fails_fast (w : World) (fn : nat -> string -> option string)
    (cc : ClusterClient) :
  endpoints cc <> [] ->
  allCoolingDown (clock w 0) cc ->
  executeWithFailover w fn cc
  = mkOutcome (Some ("no healthy nodes available in cluster " +:+ name cc)) cc [].
Proof.
  intros Hne Hcool. unfold executeWithFailover.
  destruct (endpoints cc) as [|e rest]; [done|]. simpl length.
  destruct (allCoolingDown_nothing _ _ Hcool) as [Hh Hd].
  cbn [failoverLoop]. unfold getHealthyClient. rewrite Hh.
  unfold recoverUnhealthyNodes. rewrite Hd. simpl foldl. by rewrite Hh.
Qed.

(** Both endpoints of [twoDown] were checked within the last 30 seconds. *)
Lemma cooling_down_fails_fast_witness :
  executeWithFailover (calmWorld 0) (fun _ _ => None) twoDown
  = mkOutcome (Some "no healthy nodes available in cluster lab") twoDown [].
Proof.
  apply (cooling_down_fails_fast (calmWorld 0) (fun _ _ => None) twoDown).
  - discriminate.
  - intros endpoint healthy Hlookup.
    destruct (decide (endpoint = "e1")) as [->|H1];
      [|destruct (decide (endpoint = "e2")) as [->|H2]].
    + vm_compute in Hlookup. injection Hlookup as <-. split; [done|].
      exists (90 * Second). split; [reflexivity | by vm_compute].
    + vm_compute in Hlookup. injection Hlookup as <-. split; [done|].
      exists (95 * Second). split; [reflexivity | by vm_compute].
    + unfold twoDown in Hlookup. simpl in Hlookup.
      rewrite lookup_insert_ne, lookup_singleton_ne in Hlookup by done.
      discriminate.
Defined.

(** A call that returns nil ends with an invocation of [fn] that succeeded,
    on an endpoint that is healthy and cached afterwards; the invocations
    before it, numbered from [i] on, all failed with an error that is
    neither node-specific nor an authentication error. *)
Lemma failoverLoop_success (w : World) (fn : nat -> string -> option string)
    (retries i : nat) (cc : ClusterClient) :
  returned (failoverLoop w fn retries i cc) = None ->
  exists earlier ep,
    attempts (failoverLoop w fn retries i cc) = earlier ++ [ep]
    /\ fn (i + length earlier)%nat ep = None
    /\ (forall k e,
          earlier !! k = Some e ->
          exists errStr,
            fn (i + k)%nat e = Some errStr
            /\ isNodeSpecific errStr = false
            /\ IsAuthError (Some errStr) = false)
    /\ nodeHealth (after (failoverLoop w fn retries i cc)) !! ep = Some true
    /\ ep ∈ clients (after (failoverLoop w fn retries i cc)).
Proof.
  revert i cc. induction retries as [|retries IH]; intros i cc; [done|].
  cbn [failoverLoop].
  destruct (getHealthyClient w i cc) as [[err|client] cc1] eqn:E; [done|].
  destruct (ClusterFacts.getHealthyClient_selected w i cc client cc1 E)
    as (Hcl & Hh & _).
  destruct (fn i client) as [errStr|] eqn:Ef.
  - destruct (isNodeSpecific errStr) eqn:Hspecific; [done|].
    destruct (IsAuthError (Some errStr)) eqn:Hauth; [done|].
    simpl. intros Hret.
    destruct (IH _ _ Hret) as (earlier & ep & Ha & Hfn & Hearlier & Hhealth & Hclient).
    exists (client :: earlier), ep. rewrite Ha. split; [done|].
    split; [by replace (i + length (client :: earlier))%nat
              with (S i + length earlier)%nat by (simpl; lia)|].
    split; [|done].
    intros [|k] e; simpl.
    + intros [= <-]. exists errStr. by rewrite Nat.add_0_r.
    + intros He. destruct (Hearlier k e He) as (errStr' & Hk & ?).
      exists errStr'. by replace (i + S k)%nat with (S i + k)%nat by lia.
  - intros _. exists [], client. simpl. rewrite Nat.add_0_r.
    split; [done|]. split; [done|]. split; [|done].
    intros k e Hk. by destruct k.
Qed.

(** X17: when [executeWithFailover] returns nil, the last invocation of [fn]
    succeeded, on an endpoint that is marked healthy and has a cached client
    afterwards, and every invocation before it failed with an error that is
    neither node-specific nor an authentication error; a call in which [fn]
    is not invoked returns an error; and when [fn] succeeds on the first
    endpoint handed out, the call ends there with one invocation and the
    client as [getHealthyClient] left it.  The invocations are numbered from
    0: [fn k ep] is the result of invocation [k], made on endpoint [ep]. *)
Theorem success_ends_the_call (w : World) (fn : nat -> string -> option string)
    (cc : ClusterClient) :
  let o := executeWithFailover w fn cc in
  (returned o = None ->
   exists earlier ep,
     attempts o = earlier ++ [ep]
     /\ fn (length earlier) ep = None
     /\ (forall k e,
           earlier !! k = Some e ->
           exists errStr,
             fn k e = Some errStr
             /\ isNodeSpecific errStr = false
             /\ IsAuthError (Some errStr) = false)
     /\ nodeHealth (after o) !! ep = Some true /\ ep ∈ clients (after o))
  /\ (attempts o = [] -> returned o <> None)
  /\ (forall ep cc1,
        endpoints cc <> [] ->
        getHealthyClient w 0 cc = (inr ep, cc1) -> fn 0%nat ep = None ->
        o = mkOutcome None cc1 [ep]).
Proof.
  cbv zeta. unfold executeWithFailover. split; [|split].
  - intros Hret.
    destruct (failoverLoop_success w fn _ 0 cc Hret)
      as (earlier & ep & Ha & Hfn & Hearlier & Hh & Hc).
    by exists earlier, ep.
  - intros Hnone Hret.
    destruct (failoverLoop_success w fn _ 0 cc Hret) as (earlier & ep & Ha & _).
    rewrite Ha in Hnone. by destruct earlier.
  - intros ep cc1 Hne Hsel Hfn.
    destruct (endpoints cc) as [|e rest]; [done|]. simpl length.
    cbn [failoverLoop]. by rewrite Hsel, Hfn.
Qed.

End ClusterHealthFacts.

(** ** Queries and clean-up of the metrics history *)

Module HistoryQueriesFacts.
Import Go GoFacts History HistoryQueries.

(** *** The search for the first point inside the window *)

(** The loop finds the first point after the cutoff; when there is none the
    start index stays 0. *)
Lemma firstAfter_spec (cutoff : Time) (series : list MetricPoint) (i : nat) :
  (Forall (fun p => Timestamp p <= cutoff) series /\ firstAfter cutoff i series = 0%nat)
  \/ (exists k p,
        firstAfter cutoff i series = (i + k)%nat
        /\ series !! k = Some p
        /\ inWindow cutoff p
        /\ Forall (fun q => Timestamp q <= cutoff) (take k series)).
Proof.
  revert i. induction series as [|q series IH]; intros i; simpl.
  - left. by split.
  - unfold Go.After. destruct (Z.ltb_spec cutoff (Timestamp q)) as [Hq|Hq].
    + right. exists 0%nat, q. rewrite Nat.add_0_r. by repeat split.
    + destruct (IH (S i)) as [[Hall H0]|(k & p & Hk & Hp & Hw & Hold)].
      * left. split; [by constructor | done].
      * right. exists (S k), p. split; [lia|]. split; [done|]. split; [done|].
        simpl. by constructor.
Qed.

Lemma cleanupMetrics_spec (cutoff : Time) (series : list MetricPoint) :
  (Forall (fun p => Timestamp p <= cutoff) series /\ cleanupMetrics series cutoff = series)
  \/ (exists k p,
        cleanupMetrics series cutoff = drop k series
        /\ series !! k = Some p
        /\ inWindow cutoff p
        /\ Forall (fun q => Timestamp q <= cutoff) (take k series)).
Proof.
  unfold cleanupMetrics. cbv zeta.
  destruct (firstAfter_spec cutoff series 0) as [[Hall H0]|(k & p & Hk & Hp & Hw & Hold)].
  - left. by rewrite H0.
  - right. exists k, p. rewrite Hk. simpl.
    split; [|done]. destruct k; simpl; [done|done].
Qed.

(** *** Clean-up *)

Lemma seriesAt_Cleanup (now : Time) (mh : MetricsHistory) (kind : Kind)
    (id metricType : string) :
  seriesAt kind id metricType (Cleanup now mh)
  = cleanupMetrics (seriesAt kind id metricType mh) (cutoffTime now (retentionTime mh)).
Proof.
  unfold seriesAt, Cleanup. cbv zeta. destruct kind; simpl; rewrite lookup_fmap.
  - destruct (guestMetrics mh !! id) as [g|]; simpl; [|done].
    unfold guestSeries. destruct (guestCase metricType) as [fld|]; simpl; [|done].
    by destruct fld.
  - destruct (nodeMetrics mh !! id) as [g|]; simpl; [|done].
    unfold nodeSeries, nodeCase.
    destruct (String.eqb metricType "cpu"); [done|].
    destruct (String.eqb metricType "memory"); [done|].
    destruct (String.eqb metricType "disk"); done.
  - destruct (storageMetrics mh !! id) as [s|]; simpl; [|done].
    unfold storageSeries. destruct (storageCase metricType) as [fld|]; simpl; [|done].
    by destruct fld.
Qed.

(** [cleanupMetrics] cuts at the first point inside the window. *)
Lemma cleanupMetrics_split (cutoff : Time) (stale : list MetricPoint) (p : MetricPoint)
    (rest : list MetricPoint) :
  Forall (fun q => Timestamp q <= cutoff) stale ->
  inWindow cutoff p ->
  cleanupMetrics (stale ++ p :: rest) cutoff = p :: rest.
Proof.
  intros Hold Hp. unfold cleanupMetrics. cbv zeta.
  rewrite (HistoryFacts.firstAfter_split _ _ _ _ 0 Hold Hp), Nat.add_0_l.
  destruct (Nat.ltb_spec 0 (length stale)) as [_|Hz].
  - by rewrite drop_app_length.
  - destruct stale; [done | simpl in Hz; lia].
Qed.

(** X8: [Cleanup] cuts every series down to the final part of it that starts
    at the first point inside the retention window: the points in front of
    that point, none of which is inside the window, go, and whatever comes
    behind it stays.  A series without a point inside the window is left as
    it is, so no series that holds a point is ever emptied; a series in the
    order of its timestamps that has a point inside the window keeps the
    points inside the window and no others. *)
Theorem cleanup_prunes (now : Time) (mh : MetricsHistory) (kind : Kind)
    (id metricType : string) :
  let cutoff := cutoffTime now (retentionTime mh) in
  let series := seriesAt kind id metricType mh in
  let series' := seriesAt kind id metricType (Cleanup now mh) in
  (exists k, series' = drop k series)
  /\ (series <> [] -> series' <> [])
  /\ (Exists (inWindow cutoff) series ->
      exists p rest, series' = p :: rest /\ inWindow cutoff p)
  /\ (Forall (fun p => Timestamp p <= cutoff) series -> series' = series)
  /\ (chronological series -> Exists (inWindow cutoff) series ->
      retained now (retentionTime mh) series')
  /\ (forall stale p rest,
        series = stale ++ p :: rest ->
        Forall (fun q => Timestamp q <= cutoff) stale ->
        inWindow cutoff p ->
        series' = p :: rest)
  /\ (Exists (inWindow cutoff) series ->
      exists stale,
        series = stale ++ series'
        /\ Forall (fun q => Timestamp q <= cutoff) stale)
  /\ (chronological series -> Exists (inWindow cutoff) series ->
      series' = filterByTime cutoff series).
Proof.
  cbv zeta. rewrite seriesAt_Cleanup.
  set (cutoff := cutoffTime now (retentionTime mh)).
  set (series := seriesAt kind id metricType mh).
  assert (Hsplit : forall stale p rest,
             series = stale ++ p :: rest ->
             Forall (fun q => Timestamp q <= cutoff) stale ->
             inWindow cutoff p ->
             cleanupMetrics series cutoff = p :: rest).
  { intros stale p rest -> Hold Hp. by apply cleanupMetrics_split. }
  destruct (cleanupMetrics_spec cutoff series)
    as [[Hall Hsame]|(k & p & Hk & Hp & Hw & Hold)].
  - assert (Hnone : ~ Exists (inWindow cutoff) series).
    { intros Hex. apply Exists_exists in Hex as (q & Hq & Hwq).
      rewrite Forall_forall in Hall. specialize (Hall q Hq). unfold inWindow in Hwq. lia. }
    rewrite Hsame. split; [by exists 0%nat|]. split; [done|].
    split; [by intros Hex; destruct (Hnone Hex)|].
    split; [done|].
    split; [by intros _ Hex; destruct (Hnone Hex)|].
    split; [intros stale p rest Heq Hs Hp; rewrite <- Hsame; by apply (Hsplit stale)|].
    split; [by intros Hex; destruct (Hnone Hex)|].
    by intros _ Hex; destruct (Hnone Hex).
  - rewrite Hk.
    assert (drop k series = p :: drop (S k) series) as Hdrop
        by (by apply drop_S).
    assert (Hret : chronological series ->
                   Forall (fun q => cutoff < Timestamp q) (drop k series)).
    { intros Hc. apply Forall_forall. intros q Hq.
      apply list_elem_of_lookup_1 in Hq as (j & Hj). rewrite lookup_drop in Hj.
      enough (Timestamp p <= Timestamp q) by (unfold inWindow in Hw; lia).
      apply (Hc k (k + j)%nat p q); [lia | done | done]. }
    split; [by exists k|]. split; [by rewrite Hdrop|]. split.
    { intros _. exists p, (drop (S k) series). by split. }
    split.
    { intros Hall. rewrite Forall_forall in Hall.
      specialize (Hall p ltac:(by eapply list_elem_of_lookup_2)).
      unfold inWindow in Hw. lia. }
    split; [by intros Hc _; apply Hret|].
    split; [intros stale p' rest Heq Hs Hp'; rewrite <- Hk; by apply (Hsplit stale)|].
    split; [intros _; exists (take k series); by rewrite take_drop|].
    intros Hc _. rewrite <- (take_drop k series) at 2.
    unfold filterByTime. rewrite List.filter_app.
    assert (List.filter (fun q => Go.After (Timestamp q) cutoff) (take k series) = [])
      as ->.
    { clear -Hold. induction Hold as [|q l Hq _ IH]; [done|]. simpl.
      unfold Go.After at 1. destruct (Z.ltb_spec cutoff (Timestamp q)); [lia | exact IH]. }
    simpl. specialize (Hret Hc). clear -Hret.
    induction Hret as [|q l Hq _ IH]; [done|]. simpl.
    unfold Go.After at 1. destruct (Z.ltb_spec cutoff (Timestamp q)); [|lia].
    by rewrite <- IH.
Qed.

(** At t = 200 s the two points of the guest's series are both older than
    the window and stay.  At t = 215 s the series of the storage holds a
    point from t = 150 s, older than the window, in front of the point from
    t = 160 s: the clean-up cuts in front of that one. *)
Lemma cleanup_prunes_witness :
  (seriesAt OfGuest "lab-px1-100" "cpu" (Cleanup (200 * Second) staleHistory)
   = seriesAt OfGuest "lab-px1-100" "cpu" staleHistory
   /\ seriesAt OfGuest "lab-px1-100" "cpu" staleHistory
      = [mkPoint 10 (10 * Second); mkPoint 20 (20 * Second)])
  /\ seriesAt OfStorage "lab-n1-local" "usage" (Cleanup (215 * Second) staleHistory)
     = [mkPoint 41 (160 * Second)].
Proof.
  split.
  - destruct (cleanup_prunes (200 * Second) staleHistory OfGuest "lab-px1-100" "cpu")
      as (_ & _ & _ & Hold & _).
    split; [|reflexivity].
    apply Hold. repeat constructor; by vm_compute.
  - destruct (cleanup_prunes (215 * Second) staleHistory OfStorage "lab-n1-local" "usage")
      as (_ & _ & _ & _ & _ & Hcut & _).
    apply (Hcut [mkPoint 40 (150 * Second)] (mkPoint 41 (160 * Second)) []).
    + reflexivity.
    + repeat constructor. by vm_compute.
    + by vm_compute.
Defined.

(** *** Queries *)

Lemma GetGuestMetrics_series (now : Time) (id metricType : string) (duration : Duration)
    (mh : MetricsHistory) :
  GetGuestMetrics now id metricType duration mh
  = filterByTime (cutoffTime now duration) (seriesAt OfGuest id metricType mh).
Proof.
  unfold GetGuestMetrics, seriesAt, guestSeries. cbv zeta.
  destruct (guestMetrics mh !! id) as [g|]; simpl; [|done].
  by destruct (guestCase metricType).
Qed.

Lemma GetNodeMetrics_series (now : Time) (id metricType : string) (duration : Duration)
    (mh : MetricsHistory) :
  GetNodeMetrics now id metricType duration mh
  = filterByTime (cutoffTime now duration) (seriesAt OfNode id metricType mh).
Proof.
  unfold GetNodeMetrics, seriesAt, nodeSeries. cbv zeta.
  destruct (nodeMetrics mh !! id) as [g|]; simpl; [|done].
  by destruct (nodeCase metricType).
Qed.

Lemma filterByTime_elem (cutoff : Time) (data : list MetricPoint) (p : MetricPoint) :
  p ∈ filterByTime cutoff data <-> p ∈ data /\ inWindow cutoff p.
Proof.
  unfold filterByTime, inWindow, Go.After.
  rewrite !list_elem_of_In, List.filter_In, Z.ltb_lt. done.
Qed.

Lemma filterByTime_sublist (cutoff : Time) (data : list MetricPoint) :
  sublist (filterByTime cutoff data) data.
Proof.
  unfold filterByTime. induction data as [|p data IH]; simpl; [done|].
  destruct (Go.After (Timestamp p) cutoff); by constructor.
Qed.

(** A window that starts earlier gives all that a later one gives. *)
Lemma filterByTime_mono (cutoff cutoff' : Time) (data : list MetricPoint) :
  cutoff' <= cutoff ->
  sublist (filterByTime cutoff data) (filterByTime cutoff' data).
Proof.
  intros Hle. unfold filterByTime, Go.After.
  induction data as [|p data IH]; simpl; [done|].
  destruct (Z.ltb_spec cutoff (Timestamp p)); destruct (Z.ltb_spec cutoff' (Timestamp p));
    try lia; first [exact IH | by constructor].
Qed.

Lemma cutoffTime_mono (now : Time) (duration duration' : Duration) :
  0 <= duration <= duration' -> duration' <= Go.maxInt64 ->
  cutoffTime now duration' <= cutoffTime now duration.
Proof.
  intros Hd Hmax. unfold cutoffTime, Go.Add.
  rewrite !wrap64_small by (unfold Go.minInt64, Go.maxInt64 in *; lia). lia.
Qed.

(** The metric type that each case of the switches stands for. *)
Lemma guestCase_cases (metricType : string) :
  match guestCase metricType with
  | Some FCPU => metricType = "cpu"
  | Some FMemory => metricType = "memory"
  | Some FDisk => metricType = "disk"
  | Some FDiskRead => metricType = "diskread"
  | Some FDiskWrite => metricType = "diskwrite"
  | Some FNetworkIn => metricType = "netin"
  | Some FNetworkOut => metricType = "netout"
  | None =>
    metricType <> "cpu" /\ metricType <> "memory" /\ metricType <> "disk"
    /\ metricType <> "diskread" /\ metricType <> "diskwrite"
    /\ metricType <> "netin" /\ metricType <> "netout"
  end.
Proof.
  unfold guestCase.
  destruct (String.eqb_spec metricType "cpu"); [done|].
  destruct (String.eqb_spec metricType "memory"); [done|].
  destruct (String.eqb_spec metricType "disk"); [done|].
  destruct (String.eqb_spec metricType "diskread"); [done|].
  destruct (String.eqb_spec metricType "diskwrite"); [done|].
  destruct (String.eqb_spec metricType "netin"); [done|].
  destruct (String.eqb_spec metricType "netout"); done.
Qed.

Lemma storageCase_cases (metricType : string) :
  match storageCase metricType with
  | Some FUsage => metricType = "usage"
  | Some FUsed => metricType = "used"
  | Some FTotal => metricType = "total"
  | Some FAvail => metricType = "avail"
  | None =>
    metricType <> "usage" /\ metricType <> "used" /\ metricType <> "total"
    /\ metricType <> "avail"
  end.
Proof.
  unfold storageCase.
  destruct (String.eqb_spec metricType "usage"); [done|].
  destruct (String.eqb_spec metricType "used"); [done|].
  destruct (String.eqb_spec metricType "total"); [done|].
  destruct (String.eqb_spec metricType "avail"); done.
Qed.

Lemma GetAllGuestMetrics_lookup (now : Time) (id metricType : string) (duration : Duration)
    (mh : MetricsHistory) :
  GetAllGuestMetrics now id duration mh !! metricType
  = if known OfGuest id mh && recognized OfGuest metricType
    then Some (GetGuestMetrics now id metricType duration mh)
    else None.
Proof.
  unfold GetAllGuestMetrics, GetGuestMetrics, known, recognized. cbv zeta.
  destruct (guestMetrics mh !! id) as [g|] eqn:Eg.
  - rewrite bool_decide_eq_true_2 by done. simpl andb.
    pose proof (guestCase_cases metricType) as Hcase.
    destruct (guestCase metricType) as [[]|] eqn:Ec.
    1-7: subst metricType; rewrite bool_decide_eq_true_2 by done;
      rewrite ?lookup_insert_ne by done; by rewrite lookup_insert_eq.
    destruct Hcase as (H1 & H2 & H3 & H4 & H5 & H6 & H7).
    rewrite bool_decide_eq_false_2 by (by intros [? ?]).
    by rewrite !lookup_insert_ne, lookup_empty by done.
  - rewrite bool_decide_eq_false_2 by (by intros [? ?]). apply lookup_empty.
Qed.

Lemma GetAllStorageMetrics_lookup (now : Time) (id metricType : string)
    (duration : Duration) (mh : MetricsHistory) :
  GetAllStorageMetrics now id duration mh !! metricType
  = if known OfStorage id mh && recognized OfStorage metricType
    then Some (filterByTime (cutoffTime now duration)
                 (seriesAt OfStorage id metricType mh))
    else None.
Proof.
  unfold GetAllStorageMetrics, seriesAt, storageSeries, known, recognized. cbv zeta.
  destruct (storageMetrics mh !! id) as [s|] eqn:Es.
  - rewrite bool_decide_eq_true_2 by done. simpl andb.
    pose proof (storageCase_cases metricType) as Hcase.
    destruct (storageCase metricType) as [[]|] eqn:Ec.
    1-4: subst metricType; rewrite bool_decide_eq_true_2 by done;
      rewrite ?lookup_insert_ne by done; by rewrite lookup_insert_eq.
    destruct Hcase as (H1 & H2 & H3 & H4).
    rewrite bool_decide_eq_false_2 by (by intros [? ?]).
    by rewrite !lookup_insert_ne, lookup_empty by done.
  - rewrite bool_decide_eq_false_2 by (by intros [? ?]). apply lookup_empty.
Qed.

Lemma seriesAt_unknown (kind : Kind) (id metricType : string) (mh : MetricsHistory) :
  known kind id mh && recognized kind metricType = false ->
  seriesAt kind id metricType mh = [].
Proof.
  intros H. unfold seriesAt. apply andb_false_iff in H as [H|H].
  - unfold known in H.
    destruct kind; apply bool_decide_eq_false_1 in H.
    + destruct (guestMetrics mh !! id); [by destruct H | done].
    + destruct (nodeMetrics mh !! id); [by destruct H | done].
    + destruct (storageMetrics mh !! id); [by destruct H | done].
  - unfold recognized in H.
    destruct kind; apply bool_decide_eq_false_1 in H.
    + destruct (guestMetrics mh !! id); simpl; [|done].
      unfold guestSeries. destruct (guestCase metricType); [by destruct H | done].
    + destruct (nodeMetrics mh !! id); simpl; [|done].
      unfold nodeSeries. destruct (nodeCase metricType); [by destruct H | done].
    + destruct (storageMetrics mh !! id); simpl; [|done].
      unfold storageSeries. destruct (storageCase metricType); [by destruct H | done].
Qed.

Lemma queryOf_series (kind : Kind) (now : Time) (id metricType : string)
    (duration : Duration) (mh : MetricsHistory) :
  queryOf kind now id metricType duration mh
  = filterByTime (cutoffTime now duration) (seriesAt kind id metricType mh).
Proof.
  destruct kind; simpl.
  - apply GetGuestMetrics_series.
  - apply GetNodeMetrics_series.
  - rewrite GetAllStorageMetrics_lookup.
    destruct (known OfStorage id mh && recognized OfStorage metricType) eqn:E; [done|].
    by rewrite seriesAt_unknown.
Qed.

(** X9: a query ([GetGuestMetrics], [GetNodeMetrics], an entry of
    [GetAllStorageMetrics]) returns the points of the stored series whose
    timestamp is after now minus the duration, in the order in which they are
    stored, and nothing for a resource or a metric type that the history does
    not know; a longer duration returns all that a shorter one returns. *)
Theorem queries_return_the_window (kind : Kind) (now : Time) (id metricType : string)
    (duration : Duration) (mh : MetricsHistory) :
  let answer := queryOf kind now id metricType duration mh in
  let stored := seriesAt kind id metricType mh in
  (forall p, p ∈ answer <-> p ∈ stored /\ cutoffTime now duration < Timestamp p)
  /\ sublist answer stored
  /\ (known kind id mh && recognized kind metricType = false -> answer = [])
  /\ (forall longer,
        0 <= duration <= longer -> longer <= Go.maxInt64 ->
        sublist answer (queryOf kind now id metricType longer mh)).
Proof.
  cbv zeta. rewrite queryOf_series.
  split; [intros p; apply filterByTime_elem|].
  split; [apply filterByTime_sublist|]. split.
  - intros Hunknown. by rewrite seriesAt_unknown.
  - intros longer Hd Hmax. rewrite queryOf_series.
    apply filterByTime_mono. by apply cutoffTime_mono.
Qed.

(** X10: the map that [GetAllGuestMetrics] returns has an entry exactly for
    the seven metric types of a guest, when the guest is known, and each
    entry is what [GetGuestMetrics] returns for that type; for an unknown
    guest the map is empty.  The map of [GetAllStorageMetrics] has an entry
    exactly for the four metric types of a storage, each holding the points
    of that series inside the window. *)
Theorem all_metrics_agree (now : Time) (id metricType : string) (duration : Duration)
    (mh : MetricsHistory) :
  GetAllGuestMetrics now id duration mh !! metricType
  = (if known OfGuest id mh && recognized OfGuest metricType
     then Some (GetGuestMetrics now id metricType duration mh)
     else None)
  /\ GetAllStorageMetrics now id duration mh !! metricType
     = (if known OfStorage id mh && recognized OfStorage metricType
        then Some (filterByTime (cutoffTime now duration)
                     (seriesAt OfStorage id metricType mh))
        else None)
  /\ (known OfGuest id mh = false -> GetAllGuestMetrics now id duration mh = ∅)
  /\ (known OfStorage id mh = false -> GetAllStorageMetrics now id duration mh = ∅).
Proof.
  split; [apply GetAllGuestMetrics_lookup|].
  split; [apply GetAllStorageMetrics_lookup|].
  unfold known, GetAllGuestMetrics, GetAllStorageMetrics. cbv zeta. split.
  - intros H. apply bool_decide_eq_false_1 in H.
    destruct (guestMetrics mh !! id); [by destruct H | done].
  - intros H. apply bool_decide_eq_false_1 in H.
    destruct (storageMetrics mh !! id); [by destruct H | done].
Qed.

(** *** Adds *)

(** X11: an add whose metric type is not one of the cases of its switch
    (a node metric "netin", a storage metric "cpu", a misspelt type) stores
    no point: every series of the history is what it was.  The add still
    creates the entry of the resource, with empty series. *)
Theorem unknown_metric_type_is_ignored (op : Add) (mh : MetricsHistory) :
  recognized (addKind op) (addMetricType op) = false ->
  (forall kind id metricType,
      seriesAt kind id metricType (apply op mh) = seriesAt kind id metricType mh)
  /\ known (addKind op) (addID op) (apply op mh) = true.
Proof.
  intros Hrec. split.
  - intros kind id metricType. rewrite HistoryFacts.seriesAt_apply.
    destruct (bool_decide _) eqn:E; [|done].
    apply bool_decide_eq_true_1 in E as (-> & -> & ->). by rewrite Hrec.
  - unfold known.
    destruct op; simpl; apply bool_decide_eq_true_2; by rewrite lookup_insert_eq.
Qed.

(** A node metric "netin" is not stored. *)
Lemma unknown_metric_type_is_ignored_witness :
  seriesAt OfNode "lab-n1" "netin"
    (apply (AddNode (10 * Second) "lab-n1" "netin" 5 (10 * Second))
       (NewMetricsHistory 1000 (60 * Second)))
  = []
  /\ known OfNode "lab-n1"
       (apply (AddNode (10 * Second) "lab-n1" "netin" 5 (10 * Second))
          (NewMetricsHistory 1000 (60 * Second)))
     = true.
Proof.
  destruct (unknown_metric_type_is_ignored
              (AddNode (10 * Second) "lab-n1" "netin" 5 (10 * Second))
              (NewMetricsHistory 1000 (60 * Second)) eq_refl) as [Hsame Hknown].
  split; [|exact Hknown]. by rewrite Hsame.
Defined.

(** The new point stays: a point inside the retention window is the last
    point of the series after [appendMetric], whatever the series held. *)
Lemma appendMetric_keeps_new (now : Time) (maxPoints : nat) (retention : Duration)
    (series : list MetricPoint) (point : MetricPoint) :
  (0 < maxPoints)%nat ->
  cutoffTime now retention < Timestamp point ->
  last (appendMetric now maxPoints retention series point) = Some point.
Proof.
  intros Hmax Hfresh. unfold appendMetric. cbv zeta.
  set (cutoff := cutoffTime now retention) in *.
  assert (exists k, (k <= length series)%nat
                    /\ (if (0 <? firstAfter cutoff 0 (series ++ [point]))%nat
                        then drop (firstAfter cutoff 0 (series ++ [point]))
                               (series ++ [point])
                        else series ++ [point])
                       = drop k series ++ [point]) as (k & Hk & ->).
  { destruct (firstAfter_spec cutoff (series ++ [point]) 0)
      as [[Hall H0]|(k & p & Hf & Hp & Hw & Hold)].
    - apply Forall_app in Hall as [_ Hall]. inversion Hall; subst. lia.
    - rewrite Hf. simpl.
      assert (k <= length series)%nat as Hle.
      { apply lookup_lt_Some in Hp. rewrite length_app in Hp. simpl in Hp. lia. }
      exists k. split; [done|].
      destruct k; simpl; [done|]. by rewrite drop_app_le by lia. }
  set (kept := drop k series).
  destruct (maxPoints <? length (kept ++ [point]))%nat.
  - rewrite length_app. simpl.
    rewrite drop_app_le by lia. apply last_snoc.
  - apply last_snoc.
Qed.

(** X12: a point that is added with a timestamp inside the retention
    window, to a history that keeps at least one point per series, is the
    last point of its series, whatever the series held before; a query whose
    window covers the timestamp returns it as its last point. *)
Theorem added_point_is_returned (op : Add) (mh : MetricsHistory) (now : Time)
    (duration : Duration) :
  (0 < maxDataPoints mh)%nat ->
  recognized (addKind op) (addMetricType op) = true ->
  cutoffTime (addNow op) (retentionTime mh) < addTimestamp op ->
  cutoffTime now duration < addTimestamp op ->
  last (targetSeries op (apply op mh)) = Some (addPoint op)
  /\ last (queryOf (addKind op) now (addID op) (addMetricType op) duration (apply op mh))
     = Some (addPoint op).
Proof.
  intros Hmax Hrec Hfresh Hquery.
  assert (Hts : Timestamp (addPoint op) = addTimestamp op) by by destruct op.
  assert (last (targetSeries op (apply op mh)) = Some (addPoint op)) as Hlast.
  { rewrite HistoryFacts.targetSeries_apply by done.
    apply appendMetric_keeps_new; [done|]. by rewrite Hts. }
  split; [exact Hlast|].
  rewrite queryOf_series. fold (targetSeries op (apply op mh)).
  destruct (targetSeries op (apply op mh)) as [|p0 series] using rev_ind; [done|].
  rewrite last_snoc in Hlast. injection Hlast as ->.
  unfold filterByTime. rewrite List.filter_app. simpl.
  unfold Go.After. rewrite Hts. rewrite (proj2 (Z.ltb_lt _ _) Hquery).
  apply last_snoc.
Qed.

(** A point added behind two old ones is returned by a query over the last
    minute. *)
Lemma added_point_is_returned_witness :
  last (queryOf OfGuest (200 * Second) "lab-px1-100" "cpu" (60 * Second)
          (apply (AddGuest (200 * Second) "lab-px1-100" "cpu" 30 (195 * Second))
             staleHistory))
  = Some (mkPoint 30 (195 * Second)).
Proof.
  destruct (added_point_is_returned
              (AddGuest (200 * Second) "lab-px1-100" "cpu" 30 (195 * Second))
              staleHistory (200 * Second) (60 * Second)
              ltac:(vm_compute; lia) eq_refl ltac:(by vm_compute) ltac:(by vm_compute))
    as [_ Hq].
  exact Hq.
Defined.

(** *** Order *)

Lemma chronological_cons (p : MetricPoint) (series : list MetricPoint) :
  chronological series ->
  Forall (fun q => Timestamp p <= Timestamp q) series ->
  chronological (p :: series).
Proof.
  intros Hc Hall i j a b Hij Ha Hb.
  destruct i as [|i], j as [|j]; simpl in *; try lia.
  - injection Ha as <-. injection Hb as <-. lia.
  - injection Ha as <-. rewrite Forall_forall in Hall.
    apply Hall. by eapply list_elem_of_lookup_2.
  - apply (Hc i j a b); [lia | done | done].
Qed.

Lemma chronological_sublist (l1 l2 : list MetricPoint) :
  sublist l1 l2 -> chronological l2 -> chronological l1.
Proof.
  induction 1 as [|p l1 l2 Hsub IH|p l1 l2 Hsub IH]; intros Hc; [done| |].
  - apply HistoryFacts.chronological_cons_inv in Hc as [Hc Hall].
    apply chronological_cons; [by apply IH|].
    rewrite Forall_forall in *. intros q Hq. apply Hall.
    by eapply elem_of_sublist.
  - apply HistoryFacts.chronological_cons_inv in Hc as [Hc _]. by apply IH.
Qed.

(** X13: when the points are added with timestamps that never go back,
    each inside the retention window at its add, every series of the history
    is in the order of its timestamps with no point after the last add, and
    so is every answer of a query. *)
Theorem series_stay_in_order (maxPoints : nat) (retention : Duration) (from : Time)
    (ops : list Add) (kind : Kind) (id metricType : string) (now : Time)
    (duration : Duration) :
  inOrder retention from ops ->
  let mh := applyAll ops (NewMetricsHistory maxPoints retention) in
  chronological (seriesAt kind id metricType mh)
  /\ notAfter (lastStamp from ops) (seriesAt kind id metricType mh)
  /\ chronological (queryOf kind now id metricType duration mh)
  /\ notAfter (lastStamp from ops) (queryOf kind now id metricType duration mh).
Proof.
  intros Hin. cbv zeta.
  destruct (HistoryFacts.ordered_applyAll ops from (NewMetricsHistory maxPoints retention)
              (HistoryFacts.ordered_new from maxPoints retention) Hin kind id metricType)
    as [Hc Hb].
  split; [exact Hc|]. split; [exact Hb|].
  rewrite queryOf_series. split.
  - eapply chronological_sublist; [apply filterByTime_sublist | exact Hc].
  - unfold notAfter in *. rewrite Forall_forall in Hb. apply Forall_forall.
    intros p Hp. apply Hb. by apply filterByTime_elem in Hp as [Hp _].
Qed.

(** Two adds in order. *)
Lemma series_stay_in_order_witness :
  chronological
    (seriesAt OfGuest "lab-px1-100" "cpu"
       (applyAll
          [AddGuest (10 * Second) "lab-px1-100" "cpu" 10 (10 * Second);
           AddGuest (20 * Second) "lab-px1-100" "cpu" 20 (20 * Second)]
          (NewMetricsHistory 1000 (60 * Second)))).
Proof.
  destruct (series_stay_in_order 1000 (60 * Second) 0
              [AddGuest (10 * Second) "lab-px1-100" "cpu" 10 (10 * Second);
               AddGuest (20 * Second) "lab-px1-100" "cpu" 20 (20 * Second)]
              OfGuest "lab-px1-100" "cpu" 0 0
              ltac:(vm_compute; repeat split; discriminate || reflexivity))
    as [Hc _].
  exact Hc.
Defined.

End HistoryQueriesFacts.

(** ** The helpers of the monitor, and runs of polls *)

Module MonitoringRunsFacts.
Import Go GoFacts Monitoring MonitoringRuns.

(** *** Percentages *)

(** X1: [safePercentage] and [safeFloat] never return a NaN or an infinity.
    [safeFloat] replaces a NaN and an infinity by 0 and keeps every other
    value.  [safePercentage] gives 0 for a total of zero and for a quotient
    used / total * 100 that is a NaN or an infinity, and that quotient
    otherwise. *)
Theorem percentages_are_finite (used total val : float) :
  let quotient := PrimFloat.mul (PrimFloat.div used total) 100 in
  PrimFloat.is_nan (safePercentage used total) = false
  /\ PrimFloat.is_infinity (safePercentage used total) = false
  /\ PrimFloat.is_nan (safeFloat val) = false
  /\ PrimFloat.is_infinity (safeFloat val) = false
  /\ (PrimFloat.eqb total 0 = true -> safePercentage used total = 0%float)
  /\ (PrimFloat.is_nan val = false -> PrimFloat.is_infinity val = false ->
      safeFloat val = val)
  /\ (PrimFloat.is_nan val = true \/ PrimFloat.is_infinity val = true ->
      safeFloat val = 0%float)
  /\ (PrimFloat.is_nan quotient = true \/ PrimFloat.is_infinity quotient = true ->
      safePercentage used total = 0%float)
  /\ (PrimFloat.eqb total 0 = false ->
      PrimFloat.is_nan quotient = false -> PrimFloat.is_infinity quotient = false ->
      safePercentage used total = quotient).
Proof.
  cbv zeta. unfold safePercentage, safeFloat.
  destruct (PrimFloat.eqb total 0) eqn:Et;
    destruct (PrimFloat.is_nan (PrimFloat.mul (PrimFloat.div used total) 100)) eqn:Er1;
    destruct (PrimFloat.is_infinity (PrimFloat.mul (PrimFloat.div used total) 100))
      eqn:Er2;
    destruct (PrimFloat.is_nan val) eqn:Ev1;
    destruct (PrimFloat.is_infinity val) eqn:Ev2;
    cbn [orb]; repeat split; try done; by intros [?|?].
Qed.

(** A total of zero, a quotient that overflows, and a NaN. *)
Lemma percentages_examples :
  safePercentage 50 0 = 0%float
  /\ safePercentage 0x1p+1023 0x1p-1000 = 0%float
  /\ safePercentage 250 1000 = 25%float
  /\ safeFloat PrimFloat.nan = 0%float
  /\ safeFloat PrimFloat.infinity = 0%float
  /\ safeFloat PrimFloat.neg_infinity = 0%float.
Proof. repeat split; vm_compute; reflexivity. Qed.

(** *** Sorting the content types *)

Lemma split_nonempty (sep : Ascii.ascii) (s : string) : split sep s <> [].
Proof.
  induction s as [|c s IH]; simpl; [done|].
  destruct (Ascii.eqb c sep); [done|]. by destruct (split sep s).
Qed.

Lemma split_free (sep : Ascii.ascii) (s : string) :
  Forall (fun p => free sep p = true) (split sep s).
Proof.
  induction s as [|c s IH]; simpl; [by repeat constructor|].
  destruct (Ascii.eqb c sep) eqn:Ec; [by constructor|].
  destruct (split sep s) as [|p ps].
  - constructor; [|constructor]. simpl. by rewrite Ec.
  - inversion IH as [|? ? Hp Hps]; subst. constructor; [|done].
    simpl. by rewrite Ec.
Qed.

Lemma split_free_string (sep : Ascii.ascii) (p : string) :
  free sep p = true -> split sep p = [p].
Proof.
  induction p as [|c p IH]; simpl; [done|].
  intros H. apply andb_true_iff in H as [Hc Hp]. apply negb_true_iff in Hc.
  by rewrite Hc, (IH Hp).
Qed.

Lemma split_append (sep : Ascii.ascii) (p rest : string) :
  free sep p = true ->
  split sep (p +:+ String sep rest) = p :: split sep rest.
Proof.
  induction p as [|c p IH]; simpl.
  - intros _. by rewrite Ascii.eqb_refl.
  - intros H. apply andb_true_iff in H as [Hc Hp]. apply negb_true_iff in Hc.
    by rewrite Hc, (IH Hp).
Qed.

(** Splitting what [join] built gives the parts back. *)
Lemma split_join (sep : Ascii.ascii) (parts : list string) :
  parts <> [] ->
  Forall (fun p => free sep p = true) parts ->
  split sep (join (String sep "") parts) = parts.
Proof.
  induction parts as [|p parts IH]; [done|]. intros _ Hfree.
  inversion Hfree as [|? ? Hp Hps]; subst.
  destruct parts as [|q parts].
  - simpl. by apply split_free_string.
  - change (join (String sep "") (p :: q :: parts))
      with (p +:+ String sep (join (String sep "") (q :: parts))).
    rewrite split_append by done. by rewrite IH.
Qed.

Lemma insertSorted_perm (s : string) (sorted : list string) :
  Permutation (insertSorted s sorted) (s :: sorted).
Proof.
  induction sorted as [|t rest IH]; simpl; [done|].
  destruct (String.leb s t); [done|].
  rewrite IH. apply perm_swap.
Qed.

Lemma sortStrings_perm (parts : list string) : Permutation (sortStrings parts) parts.
Proof.
  induction parts as [|p parts IH]; simpl; [done|].
  unfold sortStrings in *. simpl. rewrite insertSorted_perm. by constructor.
Qed.

Lemma insertSorted_ascending (s : string) (sorted : list string) :
  ascending sorted -> ascending (insertSorted s sorted).
Proof.
  unfold ascending. induction sorted as [|t rest IH]; simpl; intros Hs.
  - by repeat constructor.
  - destruct (String.leb s t) eqn:Est.
    + constructor; [done|]. by constructor.
    + inversion Hs as [|? ? Hrest Hhd]; subst.
      constructor; [by apply IH|].
      destruct rest as [|u rest]; simpl.
      * constructor. destruct (String.leb_total s t) as [H|H]; [congruence|done].
      * destruct (String.leb s u).
        -- constructor. destruct (String.leb_total s t) as [H|H]; [congruence|done].
        -- constructor. by inversion Hhd.
Qed.

Lemma sortStrings_ascending (parts : list string) : ascending (sortStrings parts).
Proof.
  induction parts as [|p parts IH]; [constructor|].
  unfold sortStrings in *. simpl. by apply insertSorted_ascending.
Qed.

(** Sorting a list that is in order changes nothing. *)
Lemma sortStrings_sorted (parts : list string) :
  ascending parts -> sortStrings parts = parts.
Proof.
  unfold ascending. induction parts as [|p parts IH]; [done|]. intros Hs.
  inversion Hs as [|? ? Hrest Hhd]; subst.
  unfold sortStrings in *. simpl. rewrite (IH Hrest).
  destruct parts as [|q parts]; [done|]. simpl.
  inversion Hhd as [|? ? Hpq]; subst. by rewrite Hpq.
Qed.

Lemma sortContent_split (content : string) :
  split comma (sortContent content) = sortStrings (split comma content).
Proof.
  unfold sortContent. destruct (String.eqb content "") eqn:E.
  - apply String.eqb_eq in E. by subst.
  - apply split_join.
    + intros Hnil. apply (split_nonempty comma content).
      apply Permutation_nil. by rewrite <- Hnil, sortStrings_perm.
    + eapply Permutation_Forall; [symmetry; apply sortStrings_perm|].
      apply split_free.
Qed.

(** X2: [sortContent] puts the comma-separated values of a content string in
    ascending order, keeping each value as often as it occurs, and sorting a
    second time changes nothing. *)
Theorem sortContent_sorts (content : string) :
  let parts := split comma (sortContent content) in
  Permutation parts (split comma content)
  /\ ascending parts
  /\ sortContent (sortContent content) = sortContent content.
Proof.
  cbv zeta. rewrite sortContent_split.
  split; [apply sortStrings_perm|]. split; [apply sortStrings_ascending|].
  unfold sortContent at 1.
  destruct (String.eqb (sortContent content) "") eqn:E.
  - apply String.eqb_eq in E. by rewrite E.
  - rewrite sortContent_split, sortStrings_sorted by apply sortStrings_ascending.
    unfold sortContent.
    destruct (String.eqb content "") eqn:Ec; [|done].
    apply String.eqb_eq in Ec. subst. done.
Qed.

(** *** Authentication failures of a PBS instance *)

(** X3: the authentication failure that takes the counter of a PBS instance
    to 5 removes the instance from the list of PBS instances, keeping the
    others in order, empties its backups, marks the connection "pbs-<name>"
    unhealthy and drops the counter; nodes, guests and storage in the store
    stay as they are. *)
Theorem pbs_auth_lockout (now : Time) (instanceName : string) (m : Monitor) :
  4 <= failureCount m (authNodeID instanceName "pbs") < Go.maxInt64 ->
  let m' := recordAuthFailure now instanceName "pbs" m in
  PBSInstances (state m')
  = List.filter (fun inst => negb (String.eqb (pbs_Name inst) instanceName))
      (PBSInstances (state m))
  /\ Forall (fun inst => pbs_Name inst <> instanceName) (PBSInstances (state m'))
  /\ ofInstance pb_Instance instanceName (PBSBackups (state m')) = []
  /\ ConnectionHealth (state m') !! ("pbs-" +:+ instanceName) = Some false
  /\ failureCount m' (authNodeID instanceName "pbs") = 0
  /\ Nodes (state m') = Nodes (state m)
  /\ VMs (state m') = VMs (state m)
  /\ Containers (state m') = Containers (state m)
  /\ Storage (state m') = Storage (state m).
Proof.
  intros Hc. unfold recordAuthFailure. cbv zeta.
  rewrite wrap64_small by (unfold Go.minInt64, Go.maxInt64 in *; lia).
  destruct (Z.leb_spec maxAuthFailures
              (failureCount m (authNodeID instanceName "pbs") + 1)) as [H|H];
    [|unfold maxAuthFailures in H; lia].
  change (String.eqb "pbs" "pve") with false.
  change (String.eqb "pbs" "pbs") with true. cbv iota.
  split; [done|]. split.
  { simpl. apply Forall_forall. intros inst Hin.
    apply list_elem_of_In, List.filter_In in Hin as [_ Hne].
    apply negb_true_iff in Hne. by apply String.eqb_neq. }
  split; [by apply MonitoringFacts.ofInstance_replace|].
  split; [simpl; by rewrite lookup_insert_eq|].
  split; [apply MonitoringFacts.failureCount_delete|]. done.
Qed.

(** The fifth failure of [vault] removes it and leaves [archive]. *)
Lemma pbs_auth_lockout_witness :
  PBSInstances (state (recordAuthFailure (50 * Second) "vault" "pbs" pbsMonitor))
  = [mkPBSInstance "archive" "https://10.0.0.8:8007"]
  /\ failureCount (recordAuthFailure (50 * Second) "vault" "pbs" pbsMonitor) "pbs-vault" = 0.
Proof.
  destruct (pbs_auth_lockout (50 * Second) "vault" pbsMonitor
              ltac:(vm_compute; split; [discriminate | reflexivity]))
    as (Hinst & _ & _ & _ & Hcount & _).
  split; [exact Hinst | exact Hcount].
Defined.

(** *** The counter over a run of polls *)

Lemma afterLastSuccess_snoc (results : list GetNodesResult) (result : GetNodesResult) :
  afterLastSuccess (results ++ [result])
  = if isSuccess result then [] else afterLastSuccess results ++ [result].
Proof.
  induction results as [|r results IH].
  - simpl. by destruct (isSuccess result).
  - change ((r :: results) ++ [result]) with (r :: (results ++ [result])).
    cbn [afterLastSuccess]. rewrite IH.
    cbn [existsb]. rewrite existsb_app. simpl existsb at 2.
    destruct (isSuccess result) eqn:Er.
    + by rewrite !orb_true_r.
    + rewrite !orb_false_r.
      destruct (isSuccess r || existsb isSuccess results); done.
Qed.

Lemma pollPVENodes_configured (now : Time) (cancelled : bool) (instanceName : string)
    (result : GetNodesResult) (m : Monitor) :
  PVEInstances (pollPVENodes now cancelled instanceName result m).1 = PVEInstances m.
Proof.
  unfold pollPVENodes. destruct cancelled; [done|].
  destruct (configured instanceName m); [|done]. simpl.
  destruct result as [nodes|errStr [|]]; simpl.
  - unfold resetAuthFailures. cbv zeta.
    destruct (authFailures m !! _) as [count|]; [|done].
    by destruct (0 <? count).
  - unfold recordAuthFailure. cbv zeta.
    by destruct (maxAuthFailures <=? _).
  - done.
Qed.

Lemma pollPVENodes_success (now : Time) (instanceName : string) (nodes : list PNode.t)
    (m : Monitor) :
  configured instanceName m = true ->
  (pollPVENodes now false instanceName (NodesOK nodes) m).1
  = with_state (SetConnectionHealth instanceName true)
      (resetAuthFailures instanceName "pve" m).
Proof. intros H. unfold pollPVENodes. by rewrite H. Qed.

Lemma pollPVENodes_other_error (now : Time) (instanceName errStr : string) (m : Monitor) :
  configured instanceName m = true ->
  (pollPVENodes now false instanceName (NodesErr errStr false) m).1
  = with_state (SetConnectionHealth instanceName false) m.
Proof. intros H. unfold pollPVENodes. by rewrite H. Qed.

Lemma failureCount_with_state (f : State -> State) (m : Monitor) (nodeID : string) :
  failureCount (with_state f m) nodeID = failureCount m nodeID.
Proof. done. Qed.

(** X4: over polls of a configured PVE instance that start from a counter
    of zero, the counter of authentication failures is the number of
    authentication failures since the last successful GetNodes, modulo 5:
    a success takes it to zero, the fifth failure drops it, and an error
    that is no authentication error leaves it as it is. *)
Theorem auth_counter_counts (instanceName : string) (polls : list (Time * GetNodesResult))
    (m : Monitor) :
  configured instanceName m = true ->
  failureCount m (authNodeID instanceName "pve") = 0 ->
  failureCount (pollRun instanceName polls m) (authNodeID instanceName "pve")
  = Z.of_nat (authFailuresSinceSuccess (map snd polls)) `mod` 5.
Proof.
  intros Hcfg H0.
  assert (configured instanceName (pollRun instanceName polls m) = true
          /\ failureCount (pollRun instanceName polls m) (authNodeID instanceName "pve")
             = Z.of_nat (authFailuresSinceSuccess (map snd polls)) `mod` 5) as [_ H];
    [|exact H].
  induction polls as [|[now result] polls IH] using rev_ind.
  - simpl. by rewrite H0.
  - destruct IH as [Hc IH]. unfold pollRun in *. rewrite foldl_app. cbn [foldl fst snd].
    set (m1 := foldl _ m polls) in *.
    split.
    { unfold configured. rewrite pollPVENodes_configured. exact Hc. }
    unfold authFailuresSinceSuccess in *.
    rewrite map_app. simpl map. rewrite afterLastSuccess_snoc.
    set (k := length (List.filter isAuthFailure (afterLastSuccess (map snd polls)))) in *.
    assert (0 <= Z.of_nat k `mod` 5 < 5) as Hk by (apply Z.mod_pos_bound; lia).
    destruct result as [nodes|errStr [|]]; simpl isSuccess; cbv iota.
    + rewrite pollPVENodes_success, failureCount_with_state by done.
      by destruct (MonitoringFacts.resetAuthFailures_zero instanceName "pve" m1
                     ltac:(lia)) as [-> _].
    + assert (Z.of_nat (length (List.filter isAuthFailure
                                  (afterLastSuccess (map snd polls)
                                   ++ [NodesErr errStr true])))
              = Z.of_nat k + 1) as ->.
      { rewrite List.filter_app, length_app. simpl. fold k. lia. }
      pose proof (Z.div_mod (Z.of_nat k) 5 ltac:(lia)) as Hdm.
      destruct (Z.eq_dec (Z.of_nat k `mod` 5) 4) as [E4|E4].
      * destruct (MonitoringFacts.pollPVENodes_locks now instanceName errStr m1 Hc
                    ltac:(unfold Go.maxInt64; lia)) as [_ ->].
        apply (Z.mod_unique_pos _ _ (Z.of_nat k `div` 5 + 1)); lia.
      * destruct (MonitoringFacts.pollPVENodes_counts now instanceName errStr m1 Hc
                    ltac:(lia)) as (_ & -> & _).
        rewrite IH.
        apply (Z.mod_unique_pos _ _ (Z.of_nat k `div` 5)); lia.
    + assert (length (List.filter isAuthFailure
                        (afterLastSuccess (map snd polls) ++ [NodesErr errStr false]))
              = k) as ->.
      { rewrite List.filter_app, length_app. simpl. fold k. lia. }
      rewrite pollPVENodes_other_error, failureCount_with_state by done. exact IH.
Qed.

(** Two failures, another error, a third failure: the counter is 3; after
    a success it is 0. *)
Lemma auth_counter_counts_witness :
  failureCount
    (pollRun "badtoken"
       [(0, NodesErr "401 Unauthorized" true);
        (10 * Second, NodesErr "401 Unauthorized" true);
        (20 * Second, NodesErr "connection refused" false);
        (30 * Second, NodesErr "403 Forbidden" true)] twoInstances)
    (authNodeID "badtoken" "pve")
  = 3.
Proof.
  rewrite (auth_counter_counts "badtoken" _ twoInstances eq_refl eq_refl).
  reflexivity.
Defined.

(** *** What a failed poll leaves alone *)

Lemma recordAuthFailure_other (now : Time) (instanceName nodeType nodeID : string)
    (m : Monitor) :
  nodeID <> authNodeID instanceName nodeType ->
  failureCount (recordAuthFailure now instanceName nodeType m) nodeID
  = failureCount m nodeID.
Proof.
  intros Hne. unfold recordAuthFailure. cbv zeta.
  destruct (maxAuthFailures <=? _).
  - unfold failureCount.
    destruct (String.eqb nodeType "pve"); [|destruct (String.eqb nodeType "pbs")];
      simpl; by rewrite lookup_delete_ne, lookup_insert_ne.
  - unfold failureCount. simpl. by rewrite lookup_insert_ne.
Qed.

(** X5: a poll of a configured PVE instance that fails with an
    authentication error makes calls on the store for that instance only,
    and leaves alone the counters of all other node ids, the nodes, VMs,
    containers and storage that the store holds for other instances, and the
    connection health of other instances; this holds for the failure that
    locks the instance out as for the earlier ones. *)
Theorem auth_failure_isolated (now : Time) (instanceName errStr : string) (m : Monitor) :
  configured instanceName m = true ->
  let m' := (pollPVENodes now false instanceName (NodesErr errStr true) m).1 in
  (exists new,
      calls (state m') = calls (state m) ++ new
      /\ Forall (fun call => callTarget call = Some instanceName) new)
  /\ (forall nodeID,
        nodeID <> authNodeID instanceName "pve" ->
        failureCount m' nodeID = failureCount m nodeID)
  /\ (forall other,
        other <> instanceName ->
        ofInstance Models.Node.Instance other (Nodes (state m'))
        = ofInstance Models.Node.Instance other (Nodes (state m))
        /\ ofInstance Models.Guest.Instance other (VMs (state m'))
           = ofInstance Models.Guest.Instance other (VMs (state m))
        /\ ofInstance Models.Guest.Instance other (Containers (state m'))
           = ofInstance Models.Guest.Instance other (Containers (state m))
        /\ ofInstance Models.Storage.Instance other (Storage (state m'))
           = ofInstance Models.Storage.Instance other (Storage (state m))
        /\ ConnectionHealth (state m') !! other = ConnectionHealth (state m) !! other).
Proof.
  intros Hcfg. cbv zeta. rewrite MonitoringFacts.pollPVENodes_failure by done.
  split; [|split].
  - unfold recordAuthFailure. cbv zeta. destruct (maxAuthFailures <=? _).
    + change (String.eqb "pve" "pve") with true. cbv iota. simpl.
      eexists. rewrite <- !app_assoc. split; [reflexivity|].
      simpl. repeat constructor.
    + simpl. eexists. split; [reflexivity|]. by repeat constructor.
  - intros nodeID Hne.
    rewrite recordAuthFailure_other by done. apply failureCount_with_state.
  - intros other Hne. unfold recordAuthFailure. cbv zeta.
    destruct (maxAuthFailures <=? _).
    + change (String.eqb "pve" "pve") with true. cbv iota. simpl.
      rewrite lookup_insert_ne, lookup_insert_ne by done.
      rewrite !MonitoringFacts.ofInstance_replace_other;
        try done; by repeat constructor.
    + simpl. by rewrite lookup_insert_ne.
Qed.

(** The lockout of [badtoken] leaves the VM of [lab] in the store. *)
Lemma auth_failure_isolated_witness :
  ofInstance Models.Guest.Instance "lab"
    (VMs (state (pollPVENodes 0 false "badtoken" (NodesErr "401 Unauthorized" true)
                   twoInstances).1))
  = [guestOf "lab" 101].
Proof.
  destruct (auth_failure_isolated 0 "badtoken" "401 Unauthorized" twoInstances eq_refl)
    as (_ & _ & Hother).
  destruct (Hother "lab" ltac:(discriminate)) as (_ & -> & _).
  reflexivity.
Defined.

(** *** Storage when the cluster's configuration is not available *)

(** X6: when GetAllStorage fails, so that no cluster configuration is at
    hand, no storage is treated as shared: every storage that a node reports
    is published, in the order of the reports, under the node's name and the
    id <instance>-<node>-<name>; a storage that three nodes report appears
    three times. *)
Theorem storage_without_cluster_config
    (isInQuietHours : Alerts.AlertConfig -> Time -> bool) (clock : nat -> Time)
    (instanceName : string) (reports : list (PNode.t * option (list PStorage.t)))
    (m : Monitor) :
  let published :=
    ofInstance Models.Storage.Instance instanceName
      (Storage (state (pollStorageWithNodes isInQuietHours clock instanceName []
                         reports m))) in
  map (fun e => (Models.Storage.ID e, Models.Storage.Node e, Models.Storage.Name e,
                 Models.Storage.Shared e)) published
  = map (fun r : string * PStorage.t =>
           (instanceName +:+ "-" +:+ r.1 +:+ "-" +:+ PStorage.Storage r.2, r.1,
            PStorage.Storage r.2, false))
      (reported reports).
Proof.
  cbv zeta. rewrite MonitoringFacts.pollStorageWithNodes_published.
  pose proof (MonitoringFacts.storage_loop_invariant isInQuietHours clock instanceName
                (clusterStorageMap []) m (reported reports)) as H.
  cbv zeta in H. rewrite <- MonitoringFacts.collectStorage_flat in H.
  destruct H as (_ & Hplain & _ & Hall & _ & _).
  set (st := collectStorage _ _ _ _ _ _) in *. clearbody st.
  assert (forall name, markedShared (clusterStorageMap []) name = false) as Hnone
      by (intros name; unfold markedShared;
          change (clusterStorageMap []) with (∅ : gmap string PStorage.t);
          by rewrite lookup_empty).
  assert (forall l : list Models.Storage.t,
             Forall (fun e => Models.Storage.Shared e = false) l ->
             List.filter (fun e => negb (Models.Storage.Shared e)) l = l) as Hfilter.
  { induction 1 as [|e l He _ IH]; [done|]. simpl. by rewrite He, IH. }
  rewrite Hfilter in Hplain.
  2:{ apply Forall_forall. intros e He. destruct (Hall e He) as (_ & -> & _).
      apply Hnone. }
  rewrite Hplain, map_map.
  assert (forall rs : list (string * PStorage.t),
             List.filter
               (fun r : string * PStorage.t =>
                  negb (markedShared (clusterStorageMap []) (PStorage.Storage r.2))) rs
             = rs) as ->.
  { induction rs as [|r rs IH]; [done|]. simpl. by rewrite Hnone, IH. }
  apply map_ext. intros r.
  destruct (MonitoringFacts.toModelStorage_fields instanceName r.1 (clusterStorageMap [])
              r.2) as (Fname & Fshared & _ & Fnode & Fid).
  by rewrite Fname, Fshared, Fnode, Fid, Hnone.
Qed.

(** *** Memory and disk of a guest *)

Lemma int64_of_uint64_small (u : Z) : 0 <= u < 2 ^ 63 -> int64_of_uint64 u = u.
Proof.
  intros H. unfold int64_of_uint64. apply wrap64_small.
  unfold Go.minInt64, Go.maxInt64. lia.
Qed.

Lemma int64_of_uint64_sub (a b : Z) :
  0 <= a < 2 ^ 63 -> 0 <= b < 2 ^ 63 -> int64_of_uint64 (uint64_sub a b) = a - b.
Proof.
  intros Ha Hb. unfold int64_of_uint64, uint64_sub, wrap64.
  rewrite Zplus_mod_idemp_l. rewrite Z.mod_small; lia.
Qed.

(** X7: for a resource whose memory and disk figures are below 2^63, the
    guest built by the efficient path has total = used + free for memory and
    for disk; the free amount is negative exactly when more is used than the
    maximum, as the unsigned difference wraps around. *)
Theorem guest_totals_balance (now : Time) (instanceName type : string) (rates : Rates)
    (res : ClusterResource.t) :
  0 <= ClusterResource.Mem res < 2 ^ 63 ->
  0 <= ClusterResource.MaxMem res < 2 ^ 63 ->
  0 <= ClusterResource.Disk res < 2 ^ 63 ->
  0 <= ClusterResource.MaxDisk res < 2 ^ 63 ->
  let g := toGuest now instanceName type rates res in
  Models.Memory.Total (Models.Guest.Memory g)
  = Models.Memory.Used (Models.Guest.Memory g) + Models.Memory.Free (Models.Guest.Memory g)
  /\ Models.Disk.Total (Models.Guest.Disk g)
     = Models.Disk.Used (Models.Guest.Disk g) + Models.Disk.Free (Models.Guest.Disk g)
  /\ (Models.Memory.Free (Models.Guest.Memory g) < 0
      <-> ClusterResource.MaxMem res < ClusterResource.Mem res)
  /\ (Models.Disk.Free (Models.Guest.Disk g) < 0
      <-> ClusterResource.MaxDisk res < ClusterResource.Disk res).
Proof.
  intros Hm Hmm Hd Hmd. cbv zeta. unfold toGuest. simpl.
  rewrite !int64_of_uint64_sub, !int64_of_uint64_small by done. lia.
Qed.

(** A guest that uses 1024 of 4096 bytes of memory. *)
Lemma guest_totals_balance_witness :
  let g := toGuest 0 "lab" "qemu" (mkRates 0 0 0 0) (resourceOf "qemu" "n1" 100 0) in
  Models.Memory.Total (Models.Guest.Memory g)
  = Models.Memory.Used (Models.Guest.Memory g) + Models.Memory.Free (Models.Guest.Memory g).
Proof.
  destruct (guest_totals_balance 0 "lab" "qemu" (mkRates 0 0 0 0)
              (resourceOf "qemu" "n1" 100 0)
              ltac:(vm_compute; split; [discriminate | reflexivity])
              ltac:(vm_compute; split; [discriminate | reflexivity])
              ltac:(vm_compute; split; [discriminate | reflexivity])
              ltac:(vm_compute; split; [discriminate | reflexivity]))
    as (Hmem & _).
  exact Hmem.
Defined.

(** *** What a storage poll records *)

Lemma recordStorageMetrics_config (now : Time) (e : Models.Storage.t)
    (mh : History.MetricsHistory) :
  History.maxDataPoints (recordStorageMetrics now e mh) = History.maxDataPoints mh
  /\ History.retentionTime (recordStorageMetrics now e mh) = History.retentionTime mh.
Proof. done. Qed.

Lemma seriesAt_AddStorageMetric (now : Time) (id metricType : string) (value : float)
    (timestamp : Time) (mh : History.MetricsHistory) (id' metricType' : string) :
  History.seriesAt History.OfStorage id' metricType'
    (History.AddStorageMetric now id metricType value timestamp mh)
  = if bool_decide (id' = id /\ metricType' = metricType)
       && History.recognized History.OfStorage metricType'
    then History.appendMetric now (History.maxDataPoints mh) (History.retentionTime mh)
           (History.seriesAt History.OfStorage id' metricType' mh)
           (History.mkPoint value timestamp)
    else History.seriesAt History.OfStorage id' metricType' mh.
Proof.
  pose proof (HistoryFacts.seriesAt_apply
                (History.AddStorage now id metricType value timestamp) mh
                History.OfStorage id' metricType') as H.
  cbn [History.apply History.addKind History.addID History.addMetricType History.addNow
       History.addPoint] in H.
  rewrite H.
  destruct (decide (id' = id /\ metricType' = metricType)) as [[-> ->]|Hne].
  - rewrite (bool_decide_eq_true_2 (id = id /\ metricType = metricType)) by done.
    by rewrite (bool_decide_eq_true_2
                  (History.OfStorage = History.OfStorage /\ id = id
                   /\ metricType = metricType)) by done.
  - rewrite (bool_decide_eq_false_2 (id' = id /\ metricType' = metricType)) by done.
    by rewrite (bool_decide_eq_false_2
                  (History.OfStorage = History.OfStorage /\ id' = id
                   /\ metricType' = metricType))
      by (intros (_ & ? & ?); by apply Hne).
Qed.

Lemma recordStorageMetrics_other (now : Time) (e : Models.Storage.t)
    (mh : History.MetricsHistory) (id metricType : string) :
  id <> Models.Storage.ID e ->
  latest id metricType (recordStorageMetrics now e mh) = latest id metricType mh.
Proof.
  intros Hne. unfold latest, recordStorageMetrics. cbv zeta.
  rewrite !seriesAt_AddStorageMetric.
  by rewrite !bool_decide_eq_false_2 by (by intros [? _]).
Qed.

Lemma recordStorageMetrics_latest (now : Time) (e : Models.Storage.t)
    (mh : History.MetricsHistory) :
  (0 < History.maxDataPoints mh)%nat ->
  0 < History.retentionTime mh <= Go.maxInt64 ->
  let mh' := recordStorageMetrics now e mh in
  let id := Models.Storage.ID e in
  latest id "usage" mh' = Some (History.mkPoint (Models.Storage.Usage e) now)
  /\ latest id "used" mh'
     = Some (History.mkPoint (Alerts.float64_of_int64 (Models.Storage.Used e)) now)
  /\ latest id "total" mh'
     = Some (History.mkPoint (Alerts.float64_of_int64 (Models.Storage.Total e)) now)
  /\ latest id "avail" mh'
     = Some (History.mkPoint (Alerts.float64_of_int64 (Models.Storage.Free e)) now).
Proof.
  intros Hmax Hret. cbv zeta.
  assert (History.cutoffTime now (History.retentionTime mh) < now) as Hfresh.
  { unfold History.cutoffTime, Go.Add.
    rewrite wrap64_small by (unfold Go.minInt64, Go.maxInt64 in *; lia). lia. }
  unfold latest, recordStorageMetrics. cbv zeta.
  rewrite !seriesAt_AddStorageMetric. simpl History.maxDataPoints.
  simpl History.retentionTime.
  repeat split.
  - rewrite (bool_decide_eq_false_2 (_ /\ "usage" = "avail")) by (by intros [_ ?]).
    rewrite (bool_decide_eq_false_2 (_ /\ "usage" = "total")) by (by intros [_ ?]).
    rewrite (bool_decide_eq_false_2 (_ /\ "usage" = "used")) by (by intros [_ ?]).
    rewrite bool_decide_eq_true_2 by done. simpl.
    by apply HistoryQueriesFacts.appendMetric_keeps_new.
  - rewrite (bool_decide_eq_false_2 (_ /\ "used" = "avail")) by (by intros [_ ?]).
    rewrite (bool_decide_eq_false_2 (_ /\ "used" = "total")) by (by intros [_ ?]).
    rewrite bool_decide_eq_true_2 by done. simpl.
    by apply HistoryQueriesFacts.appendMetric_keeps_new.
  - rewrite (bool_decide_eq_false_2 (_ /\ "total" = "avail")) by (by intros [_ ?]).
    rewrite bool_decide_eq_true_2 by done. simpl.
    by apply HistoryQueriesFacts.appendMetric_keeps_new.
  - rewrite bool_decide_eq_true_2 by done. simpl.
    by apply HistoryQueriesFacts.appendMetric_keeps_new.
Qed.

Lemma pollStorageEntry_history (isInQuietHours : Alerts.AlertConfig -> Time -> bool)
    (clock : nat -> Time) (instanceName nodeName : string)
    (configs : gmap string PStorage.t) (st : StorageLoop) (storage : PStorage.t) :
  let st' := pollStorageEntry isInQuietHours clock instanceName nodeName configs st storage in
  st' = st
  \/ (allStorage st'
      = allStorage st ++ [toModelStorage instanceName nodeName configs storage]
      /\ metricsHistory (storageMonitor st')
         = recordStorageMetrics (clock (length (allStorage st)))
             (toModelStorage instanceName nodeName configs storage)
             (metricsHistory (storageMonitor st))).
Proof.
  cbv zeta. unfold pollStorageEntry. cbv zeta.
  destruct (isShared configs storage && _); [by left|]. right. done.
Qed.

(** X25: a storage poll records what it publishes: for every published
    storage whose id no later published storage has, the latest points of the
    series "usage", "used", "total" and "avail" of that id are the usage, the
    used bytes, the total and the free bytes of the published entry, stamped
    with the reading of the clock at which the entry was recorded.  The
    history keeps at least one point per series and has a positive retention
    time. *)
Theorem published_storage_is_recorded
    (isInQuietHours : Alerts.AlertConfig -> Time -> bool) (clock : nat -> Time)
    (instanceName : string) (clusterStorages : list PStorage.t)
    (reports : list (PNode.t * option (list PStorage.t))) (m : Monitor) :
  (0 < History.maxDataPoints (metricsHistory m))%nat ->
  0 < History.retentionTime (metricsHistory m) <= Go.maxInt64 ->
  let m' := pollStorageWithNodes isInQuietHours clock instanceName clusterStorages
              reports m in
  let published := ofInstance Models.Storage.Instance instanceName (Storage (state m')) in
  forall k e,
    published !! k = Some e ->
    (forall j e', (k < j)%nat -> published !! j = Some e' ->
                  Models.Storage.ID e' <> Models.Storage.ID e) ->
    latest (Models.Storage.ID e) "usage" (metricsHistory m')
    = Some (History.mkPoint (Models.Storage.Usage e) (clock k))
    /\ latest (Models.Storage.ID e) "used" (metricsHistory m')
       = Some (History.mkPoint (Alerts.float64_of_int64 (Models.Storage.Used e)) (clock k))
    /\ latest (Models.Storage.ID e) "total" (metricsHistory m')
       = Some (History.mkPoint (Alerts.float64_of_int64 (Models.Storage.Total e)) (clock k))
    /\ latest (Models.Storage.ID e) "avail" (metricsHistory m')
       = Some (History.mkPoint (Alerts.float64_of_int64 (Models.Storage.Free e)) (clock k)).
Proof.
  intros Hmax Hret. cbv zeta. rewrite MonitoringFacts.pollStorageWithNodes_published.
  unfold pollStorageWithNodes. cbv zeta.
  change (metricsHistory (with_state ?f ?x)) with (metricsHistory x).
  rewrite MonitoringFacts.collectStorage_flat.
  set (step := fun st (r : string * PStorage.t) =>
                 pollStorageEntry isInQuietHours clock instanceName r.1
                   (clusterStorageMap clusterStorages) st r.2).
  assert (forall rs,
             let st := foldl step (mkStorageLoop [] ∅ m) rs in
             History.maxDataPoints (metricsHistory (storageMonitor st))
             = History.maxDataPoints (metricsHistory m)
             /\ History.retentionTime (metricsHistory (storageMonitor st))
                = History.retentionTime (metricsHistory m)
             /\ forall k e,
                 allStorage st !! k = Some e ->
                 (forall j e', (k < j)%nat -> allStorage st !! j = Some e' ->
                               Models.Storage.ID e' <> Models.Storage.ID e) ->
                 latest (Models.Storage.ID e) "usage" (metricsHistory (storageMonitor st))
                 = Some (History.mkPoint (Models.Storage.Usage e) (clock k))
                 /\ latest (Models.Storage.ID e) "used" (metricsHistory (storageMonitor st))
                    = Some (History.mkPoint
                              (Alerts.float64_of_int64 (Models.Storage.Used e)) (clock k))
                 /\ latest (Models.Storage.ID e) "total"
                      (metricsHistory (storageMonitor st))
                    = Some (History.mkPoint
                              (Alerts.float64_of_int64 (Models.Storage.Total e)) (clock k))
                 /\ latest (Models.Storage.ID e) "avail"
                      (metricsHistory (storageMonitor st))
                    = Some (History.mkPoint
                              (Alerts.float64_of_int64 (Models.Storage.Free e)) (clock k)))
    as Hinv.
  { induction rs as [|r rs IH] using rev_ind; cbv zeta.
    - simpl. split; [done|]. split; [done|]. intros k e Hk. by destruct k.
    - rewrite foldl_app. simpl foldl. cbv zeta in IH.
      set (st := foldl step (mkStorageLoop [] ∅ m) rs) in *.
      destruct IH as (Hm1 & Hr1 & IH).
      change (step st r)
        with (pollStorageEntry isInQuietHours clock instanceName r.1
                (clusterStorageMap clusterStorages) st r.2).
      destruct (pollStorageEntry_history isInQuietHours clock instanceName r.1
                  (clusterStorageMap clusterStorages) st r.2) as [Hsame|[Hall Hhist]];
        [rewrite Hsame; split; [exact Hm1|]; split; [exact Hr1 | exact IH]|].
      rewrite Hall, Hhist.
      set (e' := toModelStorage instanceName r.1 (clusterStorageMap clusterStorages) r.2)
        in *.
      split; [done|]. split; [done|].
      intros k e Hk Hlast.
      destruct (decide (k < length (allStorage st))%nat) as [Hlt|Hge].
      + rewrite lookup_app_l in Hk by done.
        assert (Models.Storage.ID e <> Models.Storage.ID e') as Hne.
        { intros Heq. apply (Hlast (length (allStorage st)) e' Hlt); [|done].
          by rewrite lookup_app_r, Nat.sub_diag by lia. }
        rewrite !recordStorageMetrics_other by done.
        apply IH; [done|]. intros j e'' Hj Hj'.
        apply (Hlast j e'' Hj). by apply lookup_app_l_Some.
      + rewrite lookup_app_r in Hk by lia.
        destruct (k - length (allStorage st))%nat as [|n] eqn:Hn; [|by destruct n].
        simpl in Hk. injection Hk as <-.
        assert (k = length (allStorage st)) as -> by lia.
        apply recordStorageMetrics_latest; [by rewrite Hm1 | by rewrite Hr1]. }
  specialize (Hinv (reported reports)). cbv zeta in Hinv.
  by destruct Hinv as (_ & _ & Hinv).
Qed.

(** The shared storage that three nodes report is recorded once, with the
    reading of the clock for the first entry. *)
Lemma published_storage_is_recorded_witness :
  latest "shared-ceph-rbd" "usage"
    (metricsHistory (pollStorageWithNodes neverQuiet (fun k => Z.of_nat k * Second) "lab"
                       cephCluster cephReports twoInstances))
  = Some (History.mkPoint 25 0).
Proof.
  destruct (published_storage_is_recorded neverQuiet (fun k => Z.of_nat k * Second) "lab"
              cephCluster cephReports twoInstances
              ltac:(vm_compute; lia)
              ltac:(vm_compute; split; [reflexivity | discriminate])
              0%nat
              (toModelStorage "lab" "n1" (clusterStorageMap cephCluster)
                 (storageOf "ceph-rbd" 1)))
    as (Husage & _).
  - by vm_compute.
  - intros j e' Hj Hlookup.
    destruct j as [|[|[|[|j]]]]; [lia| | | |]; vm_compute in Hlookup;
      try discriminate; injection Hlookup as <-; by vm_compute.
  - exact Husage.
Defined.

End MonitoringRunsFacts.
